(** * Prometheus trading bot: data acquisition, cache, strategy and trading cycle

    A shallow embedding of the Python sources

      - [src/utils/data.py]    ([MarketDataFetcher])
      - [src/data/provider.py] ([DataProvider])
      - [src/bot/strategy.py]  ([MAStrategy])
      - [src/bot/trader.py]    ([TradingBot])
      - [src/utils/api.py]     ([AlpacaClient] with retries, [create_client])
      - [src/api/alpaca.py]    ([AlpacaClient] with the rate limit)

    Python [float] is IEEE binary64 and is modelled by the primitive floats of
    the kernel; Python [int] is [Z]; a [dict] is a [gmap]; [None] is [None].
    Objects that a function receives by reference and may change are passed
    in and handed back (the first component of the result). *)

From Stdlib Require Import ZArith Floats DecimalString.
From stdpp Require Import gmap strings list sorting.

Set Warnings "-inexact-float".
Set Warnings "-clear-no-such-hyp".
Open Scope string_scope.
Open Scope Z_scope.

(** ** Python values *)

Module Py.

(** What a call does: it returns a value or raises. *)
Inductive Outcome (A : Type) : Type :=
| Ret (a : A)
| Raise.
Arguments Ret {A} a.
Arguments Raise {A}.

(** [int(x)] on a float: truncation towards zero; [int(nan)] raises
    [ValueError] and [int(inf)] raises [OverflowError]. *)
Definition int_of_float (x : float) : option Z :=
  match Prim2SF x with
  | S754_zero _ => Some 0
  | S754_finite s m e =>
      let a := if 0 <=? e then Z.pos m * 2 ^ e else Z.pos m / 2 ^ (- e) in
      Some (if s then - a else a)
  | S754_infinity _ => None
  | S754_nan => None
  end.

(** [float(n)] on an int (round to nearest even). *)
Definition float_of_int (n : Z) : float :=
  SF2Prim (binary_normalize prec emax n 0 false).

(** [bool(x)] on a float: only zero is false ([nan] is true). *)
Definition truthy_float (x : float) : bool := negb (PrimFloat.eqb x 0).

(** [bool(x)] on an optional float: [None] and zero are false. *)
Definition truthy_opt_float (x : option float) : bool :=
  match x with
  | None => false
  | Some v => truthy_float v
  end.

(** [bool(d)] on a dictionary: only the empty one is false. *)
Definition dict_truthy {A : Type} (d : gmap string A) : bool :=
  match map_to_list d with
  | [] => false
  | _ :: _ => true
  end.

(** [bool(s)] on a string. *)
Definition truthy_string (s : string) : bool :=
  match s with
  | EmptyString => false
  | _ => true
  end.

(** [x or y] on an optional int. *)
Definition int_or (x : option Z) (y : Z) : Z :=
  match x with
  | None => y
  | Some v => if v =? 0 then y else v
  end.

(** [d.get(k, 0) + 1] stored back under [k]. *)
Definition bump (k : string) (d : gmap string Z) : gmap string Z :=
  <[k := default 0 (d !! k) + 1]> d.

End Py.

(** ** The part of pandas the sources use *)

Module Pandas.

(** A cell: a float, an integer, or an object pandas can read neither as a
    number nor as a timestamp. *)
Inductive Cell : Type :=
| Num (x : float)
| Int (n : Z)
| Obj (s : string).

(** The index of a table: a [DatetimeIndex] (naive when [tz] is [None]), or
    any other index with its optional name. Labels are integers: for a
    [DatetimeIndex] the instant in nanoseconds since the epoch, which neither
    [tz_localize('UTC')] on a naive index nor [tz_convert('UTC')] changes. *)
Inductive IndexKind : Type :=
| DatetimeIndex (tz : option string)
| PlainIndex (name : option string).

Record Row : Type := mkRow { key : Z; cells : list Cell }.

Record DataFrame : Type := mkDF {
  kind : IndexKind;
  columns : list string;
  rows : list Row
}.

Definition keys (df : DataFrame) : list Z := map key (rows df).

(** [len(df)] *)
Definition len (df : DataFrame) : Z := Z.of_nat (length (rows df)).

(** [df.empty]: some axis has length zero. *)
Definition empty (df : DataFrame) : bool :=
  match rows df, columns df with
  | [], _ => true
  | _, [] => true
  | _, _ => false
  end.

(** [pd.DataFrame()] *)
Definition empty_frame : DataFrame := mkDF (PlainIndex None) [] [].

(** [col in df.columns] *)
Definition has_column (c : string) (df : DataFrame) : bool :=
  bool_decide (c ∈ columns df).

Fixpoint position (c : string) (cols : list string) : option nat :=
  match cols with
  | [] => None
  | d :: rest => if String.eqb c d then Some 0%nat else S <$> position c rest
  end.

(** The cell of a row under column [c]; a missing cell reads as [nan]. *)
Definition cell_at (cols : list string) (c : string) (r : Row) : Cell :=
  match position c cols with
  | Some i => default (Num nan) (cells r !! i)
  | None => Num nan
  end.

(** [pd.isna] on a cell *)
Definition isna (c : Cell) : bool :=
  match c with
  | Num x => PrimFloat.is_nan x
  | _ => false
  end.

(** [df.index.min()] *)
Definition index_min (df : DataFrame) : option Z :=
  match keys df with
  | [] => None
  | k :: ks => Some (fold_right Z.min k ks)
  end.

(** [df.sort_index()]: a new table with the rows in ascending label order
    (rows with equal labels stay in their order). *)
Fixpoint insert_row (r : Row) (l : list Row) : list Row :=
  match l with
  | [] => [r]
  | x :: rest => if key r <=? key x then r :: l else x :: insert_row r rest
  end.

Definition sort_rows (l : list Row) : list Row := fold_right insert_row [] l.

Definition sort_index (df : DataFrame) : DataFrame :=
  mkDF (kind df) (columns df) (sort_rows (rows df)).

(** [df[~df.index.duplicated(keep='first')]]: a row is kept unless its label
    has been seen before. *)
Fixpoint drop_seen (seen : list Z) (l : list Row) : list Row :=
  match l with
  | [] => []
  | r :: rest =>
      if bool_decide (key r ∈ seen) then drop_seen seen rest
      else r :: drop_seen (key r :: seen) rest
  end.

Definition drop_duplicated (df : DataFrame) : DataFrame :=
  mkDF (kind df) (columns df) (drop_seen [] (rows df)).

(** [df[cols]]: the named columns in the given order. *)
Definition select (cols : list string) (df : DataFrame) : DataFrame :=
  mkDF (kind df) cols
       (map (fun r => mkRow (key r) (map (fun c => cell_at (columns df) c r) cols))
            (rows df)).

(** [astype(float)] on a cell; an object cannot be converted. *)
Definition cell_to_float (c : Cell) : option Cell :=
  match c with
  | Num x => Some (Num x)
  | Int n => Some (Num (Py.float_of_int n))
  | Obj _ => None
  end.

Definition row_astype_float (r : Row) : option Row :=
  mkRow (key r) <$> mapM cell_to_float (cells r).

(** [df.astype(float)]; [None] when the conversion raises. *)
Definition astype_float (df : DataFrame) : option DataFrame :=
  mkDF (kind df) (columns df) <$> mapM row_astype_float (rows df).

(** [pd.to_numeric(.., errors='coerce')] on a cell. *)
Definition to_numeric_coerce (c : Cell) : Cell :=
  match c with
  | Obj _ => Num nan
  | _ => c
  end.

(** [.fillna(0).astype(np.int64)] on a numeric cell: pandas refuses to cast
    a non-finite value. *)
Definition fillna0_to_int64 (c : Cell) : option Cell :=
  match c with
  | Num x => if PrimFloat.is_nan x then Some (Int 0) else Int <$> Py.int_of_float x
  | Int n => Some (Int n)
  | Obj _ => Some (Int 0)
  end.

(** Apply [f] to the cells of column [c], row by row ([df[c] = f(df[c])]). *)
Definition alter_cell (cols : list string) (c : string) (f : Cell -> option Cell)
    (r : Row) : option Row :=
  match position c cols with
  | Some i =>
      match f (default (Num nan) (cells r !! i)) with
      | Some v => Some (mkRow (key r) (<[i := v]> (cells r)))
      | None => None
      end
  | None => Some r
  end.

Definition assign_column (c : string) (f : Cell -> option Cell) (df : DataFrame)
    : option DataFrame :=
  mkDF (kind df) (columns df) <$> mapM (alter_cell (columns df) c f) (rows df).

(** [df.dropna(subset=cols)] *)
Definition dropna (cols : list string) (df : DataFrame) : DataFrame :=
  mkDF (kind df) (columns df)
       (filter (fun r => forallb (fun c => negb (isna (cell_at (columns df) c r))) cols = true)
               (rows df)).

(** [df.reset_index()]: the labels become the first column, named after the
    index ([index] when it has no name, [level_0] when that is taken), and
    the rows are numbered from zero. Inserting a name that is already a
    column raises. *)
Fixpoint renumber (i : Z) (l : list Row) : list Row :=
  match l with
  | [] => []
  | r :: rest => mkRow i (Int (key r) :: cells r) :: renumber (i + 1) rest
  end.

Definition reset_index (df : DataFrame) : option DataFrame :=
  let name :=
    match kind df with
    | PlainIndex (Some n) => n
    | _ => if has_column "index" df then "level_0" else "index"
    end in
  if has_column name df then None
  else Some (mkDF (PlainIndex None) (name :: columns df) (renumber 0 (rows df))).

(** [df.rename(columns={old: new}, inplace=True)] *)
Definition rename_column (old new : string) (df : DataFrame) : DataFrame :=
  mkDF (kind df)
       (map (fun c => if String.eqb c old then new else c) (columns df))
       (rows df).

(** [pd.to_datetime(.., utc=True)] on a cell: the instant, or [None] when the
    cell cannot be read as a time. *)
Definition to_datetime (c : Cell) : option Z :=
  match c with
  | Int n => Some n
  | Num x => Py.int_of_float x
  | Obj _ => None
  end.

Fixpoint remove_nth {A} (i : nat) (l : list A) : list A :=
  match l, i with
  | [], _ => []
  | _ :: rest, O => rest
  | x :: rest, S j => x :: remove_nth j rest
  end.

(** [df[c] = pd.to_datetime(df[c], utc=True); df = df.set_index(c)]: column
    [c] leaves the table and becomes its UTC [DatetimeIndex]. *)
Definition set_datetime_index (c : string) (df : DataFrame) : option DataFrame :=
  match position c (columns df) with
  | None => None
  | Some i =>
      mkDF (DatetimeIndex (Some "UTC")) (remove_nth i (columns df)) <$>
        mapM (fun r =>
                (fun t => mkRow t (remove_nth i (cells r))) <$>
                  to_datetime (default (Num nan) (cells r !! i)))
             (rows df)
  end.

(** [pd.concat([a, b])]: the rows of [a], then those of [b], over the columns
    of [a] followed by the columns only [b] has. *)
Definition concat (a b : DataFrame) : DataFrame :=
  let cols := (columns a ++ filter (fun c => c ∉ columns a) (columns b))%list in
  let lay (d : DataFrame) :=
    map (fun r => mkRow (key r) (map (fun c => cell_at (columns d) c r) cols)) (rows d) in
  mkDF (kind a) cols (lay a ++ lay b)%list.

End Pandas.

(** ** [src/utils/data.py]: the resilient bar fetcher *)

Module Fetcher.
Import Py Pandas.

(** The keyword arguments of [client.get_bars(symbol, **params)]. *)
Record Params : Type := mkParams {
  limit : Z;
  timeframe : string;
  feed : option string;
  end_ : option Z
}.

Record Call : Type := mkCall { call_symbol : string; call_params : Params }.

(** The structured events the fetcher emits ([log.*_event]). *)
Inductive Event : Type :=
| pagination_attempt (symbol : string) (initial_bars : Z) (tf feed_name : string)
| pagination_success (symbol : string) (additional_bars total_bars : Z) (tf feed_name : string)
| data_fetch_success (symbol : string) (bar_count : Z) (tf feed_name : string)
| insufficient_data (symbol : string) (bar_count needed_bars : Z) (tf feed_name : string)
| data_fetch_error (symbol feed_name tf : string)
| request_size_reduction (symbol : string) (from_size to_size : Z)
| timeframe_fallback (symbol from_timeframe to_timeframe : string)
| data_fetch_complete_failure (symbol : string) (attempts : Z).

(** [self.data_stats] *)
Record DataStats : Type := mkStats {
  attempts : Z;
  successes : Z;
  feed_successes : gmap string Z;
  timeframe_successes : gmap string Z;
  last_successful_fetch : option Z
}.

(** The fetcher's own state and what it has done to the outside: the calls
    made to the client (oldest first), the events emitted (oldest first) and
    the number of times the clock was read. *)
Record State : Type := mkState {
  data_stats : DataStats;
  calls : list Call;
  events : list Event;
  clock_reads : nat
}.

Definition initial_stats : DataStats :=
  mkStats 0 0 (list_to_map [("sip", 0); ("default", 0); ("iex", 0)]) ∅ None.

Definition initial_state : State := mkState initial_stats [] [] 0.

Definition emit (e : Event) (st : State) : State :=
  mkState (data_stats st) (calls st) (events st ++ [e])%list (clock_reads st).

Definition with_stats (f : DataStats -> DataStats) (st : State) : State :=
  mkState (f (data_stats st)) (calls st) (events st) (clock_reads st).

(** [required_cols] *)
Definition required_cols : list string := ["open"; "high"; "low"; "close"; "volume"].

(** [_standardize_dataframe(df, symbol)]. The first component is the table
    the caller passed, as it is after the call; the second is the returned
    table, [None] for the failure result. Any exception raised inside is
    caught and gives [None]. *)
Definition sort_and_select (df : DataFrame) : option DataFrame :=
  let df := sort_index df in
  if forallb (fun col => has_column col df) required_cols
  then astype_float (select required_cols df)
  else None.

Definition _standardize_dataframe (df : DataFrame) : DataFrame * option DataFrame :=
  match kind df with
  | DatetimeIndex _ =>
      (* df.index = df.index.tz_localize('UTC') / tz_convert('UTC'):
         an assignment to the index of the object that was passed in *)
      let df := mkDF (DatetimeIndex (Some "UTC")) (columns df) (rows df) in
      (df, sort_and_select df)
  | PlainIndex _ =>
      (* df = df.reset_index(): from here on [df] is a new object *)
      match reset_index df with
      | None => (df, None)
      | Some d =>
          let ts_col :=
            if has_column "timestamp" d then Some "timestamp"
            else if has_column "index" d then Some "index" else None in
          match ts_col with
          | Some c =>
              let d := rename_column c "timestamp" d in
              match set_datetime_index "timestamp" d with
              | Some d => (df, sort_and_select d)
              | None => (df, None)
              end
          | None => (df, None)
          end
      end
  end.

(** [fallbacks] of [_try_timeframe_fallbacks] *)
Definition fallbacks : gmap string (list string) :=
  list_to_map
    [ ("1Min", ["2Min"; "5Min"; "15Min"; "1H"; "1D"]);
      ("2Min", ["5Min"; "15Min"; "1H"; "1D"]);
      ("5Min", ["15Min"; "1H"; "1D"]);
      ("15Min", ["30Min"; "1H"; "1D"]);
      ("30Min", ["1H"; "1D"]);
      ("1H", ["1D"]);
      ("1D", []) ].

(** [feeds_to_try]; [None] is Alpaca's default feed. *)
Definition feeds_to_try : list (option string) := [Some "sip"; None; Some "iex"].

Section WithClient.

(** The brokerage client: what [client.get_bars(symbol, **params)] answers,
    given the calls made before. It returns a table or [None], or raises. *)
Variable client_get_bars : list Call -> Call -> Outcome (option DataFrame).

(** [datetime.now()]: the n-th reading of the clock. *)
Variable now : nat -> Z.

Definition call_client (symbol : string) (params : Params) (st : State)
    : State * Outcome (option DataFrame) :=
  let c := mkCall symbol params in
  (mkState (data_stats st) (calls st ++ [c])%list (events st) (clock_reads st),
   client_get_bars (calls st) c).

Definition read_clock (st : State) : State * Z :=
  (mkState (data_stats st) (calls st) (events st) (S (clock_reads st)),
   now (clock_reads st)).

(** The pagination step of the loop body: entered when the first fetch gave
    some bars, but fewer than [lookback_bars]. [Raise] when the second client
    call raises. *)
Definition paginate (symbol : string) (lookback_bars : Z) (tf feed_name : string)
    (params : Params) (bars_df : DataFrame) (st : State)
    : State * Outcome DataFrame :=
  let st := emit (pagination_attempt symbol (len bars_df) tf feed_name) st in
  let oldest_ts := index_min bars_df in
  let pagination_params :=
    mkParams (limit params) (timeframe params) (feed params) oldest_ts in
  match call_client symbol pagination_params st with
  | (st, Raise) => (st, Raise)
  | (st, Ret more) =>
      match more with
      | Some more_bars_df =>
          if empty more_bars_df then (st, Ret bars_df)
          else
            let joined := drop_duplicated (concat more_bars_df bars_df) in
            (emit (pagination_success symbol (len more_bars_df) (len joined)
                     tf feed_name) st,
             Ret joined)
      | None => (st, Ret bars_df)
      end
  end.

(** One iteration of [for feed in feeds_to_try]. The result is the
    [params] dictionary as the iteration leaves it, the state, and the
    table when the iteration returns one (otherwise the loop goes on). *)
Definition try_feed (symbol : string) (lookback_bars : Z) (tf : string)
    (min_required_bars : Z) (f : option string) (params : Params) (st : State)
    : Params * State * option DataFrame :=
  let feed_name := match f with Some s => if truthy_string s then s else "default"
                              | None => "default" end in
  let params :=
    match f with
    | Some s => if truthy_string s
                then mkParams (limit params) (timeframe params) (Some s) (end_ params)
                else mkParams (limit params) (timeframe params) None (end_ params)
    | None => mkParams (limit params) (timeframe params) None (end_ params)
    end in
  let failed st := (params, emit (data_fetch_error symbol feed_name tf) st, None) in
  let '(st, fetch_start) := read_clock st in
  match call_client symbol params st with
  | (st, Raise) => failed st
  | (st, Ret bars) =>
      let paged :=
        match bars with
        | Some bars_df =>
            if negb (empty bars_df) && (len bars_df <? lookback_bars)
            then match paginate symbol lookback_bars tf feed_name params bars_df st with
                 | (st, Ret d) => (st, Ret (Some d))
                 | (st, Raise) => (st, Raise)
                 end
            else (st, Ret bars)
        | None => (st, Ret bars)
        end in
      match paged with
      | (st, Raise) => failed st
      | (st, Ret None) => (params, st, None)
      | (st, Ret (Some bars_df)) =>
          if empty bars_df then (params, st, None)
          else
            match snd (_standardize_dataframe bars_df) with
            | None => (params, st, None)
            | Some bars_df =>
                if min_required_bars <=? len bars_df then
                  let '(st, _) := read_clock st in
                  let '(st, t) := read_clock st in
                  let st :=
                    with_stats
                      (fun s =>
                         mkStats (attempts s) (successes s + 1)
                                 (bump feed_name (feed_successes s))
                                 (bump tf (timeframe_successes s))
                                 (Some t)) st in
                  (params,
                   emit (data_fetch_success symbol (len bars_df) tf feed_name) st,
                   Some bars_df)
                else
                  (params,
                   emit (insufficient_data symbol (len bars_df) min_required_bars
                           tf feed_name) st,
                   None)
            end
      end
  end.

Fixpoint try_feeds (symbol : string) (lookback_bars : Z) (tf : string)
    (min_required_bars : Z) (feeds : list (option string)) (params : Params)
    (st : State) : State * option DataFrame :=
  match feeds with
  | [] => (st, None)
  | f :: rest =>
      match try_feed symbol lookback_bars tf min_required_bars f params st with
      | (_, st, Some df) => (st, Some df)
      | (params, st, None) =>
          try_feeds symbol lookback_bars tf min_required_bars rest params st
      end
  end.

(** [_try_timeframe_fallbacks]; [self_get_bars] is the call back into
    [get_bars]. *)
Definition _try_timeframe_fallbacks
    (self_get_bars : string -> Z -> string -> option Z -> State ->
                     option (State * option DataFrame))
    (symbol : string) (lookback_bars : Z) (tf : string) (min_required_bars : Z)
    (st : State) : option (State * option DataFrame) :=
  let fallback_options := default [] (fallbacks !! tf) in
  let all_failed st :=
    Some (emit (data_fetch_complete_failure symbol (attempts (data_stats st))) st,
          None) in
  match fallback_options with
  | [] =>
      if String.eqb tf "1D" && (100 <? lookback_bars) then
        let reduced_lookback := Z.min 100 min_required_bars in
        self_get_bars symbol reduced_lookback tf (Some min_required_bars)
          (emit (request_size_reduction symbol lookback_bars reduced_lookback) st)
      else all_failed st
  | next_timeframe :: _ =>
      self_get_bars symbol lookback_bars next_timeframe (Some min_required_bars)
        (emit (timeframe_fallback symbol tf next_timeframe) st)
  end.

(** [self.data_stats["attempts"] += 1] *)
Definition count_attempt (st : State) : State :=
  with_stats
    (fun s => mkStats (attempts s + 1) (successes s) (feed_successes s)
                      (timeframe_successes s) (last_successful_fetch s)) st.

(** [get_bars(symbol, lookback_bars, timeframe, min_required_bars)]. The
    recursion through [_try_timeframe_fallbacks] is bounded by [fuel]: the
    result is [None] only when the fuel runs out. *)
Fixpoint get_bars (fuel : nat) (symbol : string) (lookback_bars : Z) (tf : string)
    (min_required_bars : option Z) (st : State)
    : option (State * option DataFrame) :=
  match fuel with
  | O => None
  | S fuel =>
      let st := count_attempt st in
      let min_required_bars := int_or min_required_bars lookback_bars in
      let params := mkParams (Z.min 1000 lookback_bars) tf None None in
      match try_feeds symbol lookback_bars tf min_required_bars feeds_to_try params st with
      | (st, Some bars_df) => Some (st, Some bars_df)
      | (st, None) =>
          _try_timeframe_fallbacks (get_bars fuel) symbol lookback_bars tf
            min_required_bars st
      end
  end.

(** The timeframes of the client calls, in order, runs of equal ones
    merged: the timeframes the fetcher attempted. *)
Fixpoint merge_runs (l : list string) : list string :=
  match l with
  | [] => []
  | x :: rest =>
      match rest with
      | y :: _ => if String.eqb x y then merge_runs rest else x :: merge_runs rest
      | [] => [x]
      end
  end.

End WithClient.

Definition attempted_timeframes (st : State) : list string :=
  merge_runs (map (fun c => timeframe (call_params c)) (calls st)).

(** The fixed degradation chain. *)
Definition chain : list string :=
  ["1Min"; "2Min"; "5Min"; "15Min"; "30Min"; "1H"; "1D"].

(** The timeframe the fetcher falls back to from [tf], if any. *)
Definition next_timeframe (tf : string) : option string :=
  head (default [] (fallbacks !! tf)).

(** The element that follows [tf] in the chain, if any. *)
Definition chain_next (tf : string) : option string :=
  match position tf chain with
  | Some i => chain !! S i
  | None => None
  end.

(** The position of a timeframe counted from the end of the chain. *)
Definition rank (tf : string) : nat :=
  match position tf chain with
  | Some i => (6 - i)%nat
  | None => 0%nat
  end.

End Fetcher.

(** ** [src/data/provider.py]: the caching data provider *)

Module Provider.
Import Py Pandas.

(** The arguments [DataProvider.get_bars] hands to the client. *)
Record Request : Type := mkRequest {
  symbols : list string;
  timeframe : string;
  limit : Z;
  start : option string;
  end_ : option string
}.

(** A dictionary object: the symbol-to-table mapping, and the identity of the
    object that holds it. *)
Record DictObj : Type := mkDict { oid : nat; items : gmap string DataFrame }.

(** [self.stats] *)
Record Stats : Type := mkStats {
  requests : Z;
  cache_hits : Z;
  failed_requests : Z;
  last_request_time : option Z
}.

(** A [DataProvider], with what it has done to the outside: the calls made to
    the client, the lines printed, the clock readings taken and the
    dictionary objects created so far. Times are in microseconds. *)
Record DataProvider : Type := mkProvider {
  cache : gmap string DictObj;
  cache_timestamps : gmap string Z;
  cache_duration : Z;
  stats : Stats;
  client_calls : list Request;
  printed : list string;
  clock_reads : nat;
  next_oid : nat
}.

(** [timedelta(minutes=5)] *)
Definition five_minutes : Z := 5 * 60 * 1000000.

(** [DataProvider.__init__] *)
Definition init : DataProvider :=
  mkProvider ∅ ∅ five_minutes (mkStats 0 0 0 None) [] [] 0 0.

Definition string_le (a b : string) : Prop := String.leb a b = true.

#[global] Instance string_le_dec : RelDecision string_le.
Proof. intros a b. unfold string_le. apply _. Defined.

(** [sorted(symbols)] *)
Definition sorted (l : list string) : list string := merge_sort string_le l.

(** [str(n)] on an int *)
Definition str (n : Z) : string := DecimalString.NilZero.string_of_int (Z.to_int n).

(** [f"{','.join(sorted(symbols))}_{timeframe}_{limit}"] *)
Definition cache_key (syms : list string) (tf : string) (lim : Z) : string :=
  String.concat "," (sorted syms) ++ "_" ++ tf ++ "_" ++ str lim.

Definition required_cols : list string := ["open"; "high"; "low"; "close"; "volume"].

(** [_clean_and_prepare_data(df)]. The first component is the table the
    caller passed, as it is after the call; the second is the result, [Raise]
    when the integer cast of the volume column raises. *)
Definition _clean_and_prepare_data (df : DataFrame) : DataFrame * Outcome DataFrame :=
  if empty df then (df, Ret df)
  else
    (* df = df.copy(): every later step works on the copy *)
    let copy := df in
    if negb (forallb (fun col => has_column col copy) required_cols)
    then (df, Ret empty_frame)
    else
      let copy := dropna required_cols copy in
      let copy := drop_duplicated copy in
      let copy := sort_index copy in
      let numeric :=
        foldl (fun acc col =>
                 acc ≫= assign_column col (fun c => Some (to_numeric_coerce c)))
              (Some copy) ["open"; "high"; "low"; "close"] in
      match numeric ≫= assign_column "volume"
                          (fun c => fillna0_to_int64 (to_numeric_coerce c)) with
      | Some out => (df, Ret out)
      | None => (df, Raise)
      end.

(** A coroutine object: the body of an [async def], which runs only when it
    is awaited. *)
Definition Coroutine (A : Type) : Type := DataProvider -> DataProvider * A.

Definition await {A : Type} (c : Coroutine A) (p : DataProvider) : DataProvider * A :=
  c p.

Definition print (line : string) (p : DataProvider) : DataProvider :=
  mkProvider (cache p) (cache_timestamps p) (cache_duration p) (stats p)
             (client_calls p) (printed p ++ [line])%list (clock_reads p) (next_oid p).

(** [_is_cache_valid(cache_key)], given the reading [datetime.now()] gives. *)
Definition _is_cache_valid (key : string) (t_now : Z) (p : DataProvider) : bool :=
  match cache_timestamps p !! key with
  | None => false
  | Some t => t_now - t <? cache_duration p
  end.

Section WithClient.

(** The brokerage client's [get_bars] as the provider awaits it: a fresh
    dictionary of tables, or an exception; the answer may depend on the calls
    made before. *)
Variable client_get_bars : list Request -> Request -> Outcome (gmap string DataFrame).

(** [datetime.now()]: the n-th reading of the clock. *)
Variable now : nat -> Z.

Definition read_clock (p : DataProvider) : DataProvider * Z :=
  (mkProvider (cache p) (cache_timestamps p) (cache_duration p) (stats p)
              (client_calls p) (printed p) (S (clock_reads p)) (next_oid p),
   now (clock_reads p)).

Definition with_stats (f : Stats -> Stats) (p : DataProvider) : DataProvider :=
  mkProvider (cache p) (cache_timestamps p) (cache_duration p) (f (stats p))
             (client_calls p) (printed p) (clock_reads p) (next_oid p).

(** A new dictionary object with the given items. *)
Definition new_dict (d : gmap string DataFrame) (p : DataProvider)
    : DataProvider * DictObj :=
  (mkProvider (cache p) (cache_timestamps p) (cache_duration p) (stats p)
              (client_calls p) (printed p) (clock_reads p) (S (next_oid p)),
   mkDict (next_oid p) d).

Definition call_client (r : Request) (p : DataProvider)
    : DataProvider * Outcome (gmap string DataFrame) :=
  (mkProvider (cache p) (cache_timestamps p) (cache_duration p) (stats p)
              (client_calls p ++ [r])%list (printed p) (clock_reads p) (next_oid p),
   client_get_bars (client_calls p) r).

Definition store (key : string) (data : DictObj) (t : Z) (p : DataProvider)
    : DataProvider :=
  mkProvider (<[key := data]> (cache p)) (<[key := t]> (cache_timestamps p))
             (cache_duration p) (stats p) (client_calls p) (printed p)
             (clock_reads p) (next_oid p).

(** The cleaning loop of [get_bars]: every non-empty table of [data] is
    replaced by its cleaned version; [None] when a cleaning raises. *)
Definition clean_all (data : gmap string DataFrame) : option (gmap string DataFrame) :=
  mapM (M := option)
       (fun kv : string * DataFrame =>
          if empty kv.2 then Some kv
          else match snd (_clean_and_prepare_data kv.2) with
               | Ret d => Some (kv.1, d)
               | Raise => None
               end)
       (map_to_list data)
  ≫= fun l => Some (list_to_map l).

(** The fetch path of [get_bars] (the [try] block and its handler). *)
Definition fetch (req : Request) (use_cache : bool) (key : string) (p : DataProvider)
    : DataProvider * DictObj :=
  let failed p :=
    let p := with_stats (fun s => mkStats (requests s) (cache_hits s)
                                          (failed_requests s + 1)
                                          (last_request_time s)) p in
    new_dict ∅ (print "Error fetching bars" p) in
  match call_client req p with
  | (p, Raise) => failed p
  | (p, Ret raw) =>
      let '(p, data) := new_dict raw p in
      match clean_all (items data) with
      | None => failed p
      | Some cleaned =>
          let data := mkDict (oid data) cleaned in
          if use_cache && dict_truthy cleaned then
            let '(p, t) := read_clock p in
            (store key data t p, data)
          else (p, data)
      end
  end.

(** [get_bars(symbols, timeframe, limit, start, end, use_cache)] *)
Definition get_bars (req : Request) (use_cache : bool) (p : DataProvider)
    : DataProvider * DictObj :=
  let p := with_stats (fun s => mkStats (requests s + 1) (cache_hits s)
                                        (failed_requests s) (last_request_time s)) p in
  let '(p, t) := read_clock p in
  let p := with_stats (fun s => mkStats (requests s) (cache_hits s)
                                        (failed_requests s) (Some t)) p in
  let key := cache_key (symbols req) (timeframe req) (limit req) in
  if use_cache then
    match cache p !! key with
    | Some entry =>
        (* _is_cache_valid reads the clock only when the key has a timestamp *)
        match cache_timestamps p !! key with
        | Some _ =>
            let '(p, t_now) := read_clock p in
            if _is_cache_valid key t_now p then
              (with_stats (fun s => mkStats (requests s) (cache_hits s + 1)
                                            (failed_requests s)
                                            (last_request_time s)) p,
               entry)
            else fetch req use_cache key p
        | None => fetch req use_cache key p
        end
    | None => fetch req use_cache key p
    end
  else fetch req use_cache key p.

End WithClient.

(** [clear_cache()] *)
Definition clear_cache : Coroutine unit :=
  fun p =>
    (print "Cache cleared"
       (mkProvider ∅ ∅ (cache_duration p) (stats p) (client_calls p) (printed p)
                   (clock_reads p) (next_oid p)),
     tt).

(** [close()]. It calls [self.clear_cache()] without [await]: the call
    builds the coroutine object and drops it, and its body does not run. *)
Definition close : Coroutine unit :=
  fun p =>
    let _dropped : Coroutine unit := clear_cache in
    (print "Data provider closed" p, tt).

End Provider.

(** ** [src/bot/strategy.py]: the strategy interface and the MA crossover *)

Module Strategy.
Import Py Pandas.

(** A trading signal: the dictionary [analyze] returns. *)
Record Signal : Type := mkSignal {
  action : option string;
  price : option float;
  stop_loss : option float;
  reason : option string;
  metrics : option (gmap string float)
}.

(** The dictionary [get_required_data] returns. *)
Record RequiredData : Type := mkRequired {
  timeframe : string;
  lookback_bars : Z;
  min_required_bars : Z
}.

(** The abstract base class [Strategy]: [analyze] returns a signal or
    [None], or raises. *)
Record Strategy : Type := mkStrategy {
  name : string;
  analyze : string -> DataFrame -> Outcome (option Signal);
  get_required_data : RequiredData
}.

(** [MAStrategy] *)
Record MAStrategy : Type := mkMA {
  short_window : Z;
  long_window : Z;
  ma_name : string
}.

(** [MAStrategy.get_required_data] *)
Definition ma_required_data (self : MAStrategy) : RequiredData :=
  mkRequired "1H" (long_window self + 10) (long_window self + 1).

(** A table with the two moving-average columns added. *)
Record WithMA : Type := mkWithMA {
  base : DataFrame;
  MA_short : list float;
  MA_long : list float
}.

(** [float(x)] on a cell *)
Definition float_of_cell (c : Cell) : option float :=
  match c with
  | Num x => Some x
  | Int n => Some (float_of_int n)
  | Obj _ => None
  end.

(** [series.iloc[-1]] and [series.iloc[-2]] *)
Definition iloc_last {A : Type} (l : list A) : option A := last l.
Definition iloc_before_last {A : Type} (l : list A) : option A :=
  match rev l with
  | _ :: x :: _ => Some x
  | _ => None
  end.

(** [float(df['close'].iloc[-1])]; [None] when it raises. *)
Definition latest_close (df : DataFrame) : option float :=
  last (rows df) ≫= (fun r => float_of_cell (cell_at (columns df) "close" r)).

(** [{"action": None}] *)
Definition null_signal : Signal := mkSignal None None None None None.

(** The stop-loss factor of the buy signal, [0.95]. *)
Definition stop_factor : float := 0.95%float.

Section WithRolling.

(** pandas' [series.rolling(window=w).mean()] on a column: a float per row
    ([nan] where the window is not filled), or [None] when it raises. *)
Variable rolling_mean : Z -> list Cell -> option (list float).

(** [calculate_moving_averages(data)]; [None] also when an exception was
    caught. *)
Definition calculate_moving_averages (self : MAStrategy) (data : option DataFrame)
    : option WithMA :=
  match data with
  | None => None
  | Some data =>
      if len data <? long_window self then None
      else
        if has_column "close" data then
          let close := map (cell_at (columns data) "close") (rows data) in
          match rolling_mean (short_window self) close,
                rolling_mean (long_window self) close with
          | Some s, Some l =>
              (* assigning a column of another length raises *)
              if bool_decide (length s = length (rows data))
                 && bool_decide (length l = length (rows data))
              then Some (mkWithMA data s l)
              else None
          | _, _ => None
          end
        else None
  end.

(** The crossover rules on the four averages ([a > b] is [b < a]). *)
Definition golden_cross (prev_short prev_long current_short current_long : float) : bool :=
  PrimFloat.leb prev_short prev_long && PrimFloat.ltb current_long current_short.

Definition death_cross (prev_short prev_long current_short current_long : float) : bool :=
  PrimFloat.leb prev_long prev_short && PrimFloat.ltb current_short current_long.

(** [MAStrategy.analyze(symbol, data)]. The call to [log_analysis] only
    writes to the log and is left out. *)
Definition ma_analyze (self : MAStrategy) (symbol : string) (data : DataFrame)
    : Signal :=
  match calculate_moving_averages self (Some data) with
  | None => null_signal
  | Some df_with_ma =>
      if len (base df_with_ma) <? 2 then null_signal
      else
        match iloc_last (MA_short df_with_ma), iloc_last (MA_long df_with_ma),
              iloc_before_last (MA_short df_with_ma),
              iloc_before_last (MA_long df_with_ma) with
        | Some current_short_ma, Some current_long_ma,
          Some prev_short_ma, Some prev_long_ma =>
            if PrimFloat.is_nan current_short_ma || PrimFloat.is_nan current_long_ma
               || PrimFloat.is_nan prev_short_ma || PrimFloat.is_nan prev_long_ma
            then null_signal
            else
              match latest_close (base df_with_ma) with
              | None => null_signal
              | Some current_price =>
                  let metrics : gmap string float :=
                    list_to_map [ ("latest_close", current_price);
                                  ("current_short_ma", current_short_ma);
                                  ("current_long_ma", current_long_ma);
                                  ("prev_short_ma", prev_short_ma);
                                  ("prev_long_ma", prev_long_ma) ] in
                  if golden_cross prev_short_ma prev_long_ma current_short_ma current_long_ma
                  then mkSignal (Some "buy") (Some current_price)
                         (Some (current_price * stop_factor)%float)
                         (Some "Golden Cross (Short MA crossed above Long MA)")
                         (Some metrics)
                  else if death_cross prev_short_ma prev_long_ma current_short_ma current_long_ma
                  then mkSignal (Some "sell") (Some current_price) None
                         (Some "Death Cross (Short MA crossed below Long MA)")
                         (Some metrics)
                  else mkSignal None None None (Some "No crossover detected")
                         (Some metrics)
              end
        | _, _, _, _ => null_signal
        end
  end.

(** An [MAStrategy] seen through the [Strategy] interface. *)
Definition ma_strategy (self : MAStrategy) : Strategy :=
  mkStrategy (ma_name self)
             (fun symbol data => Ret (Some (ma_analyze self symbol data)))
             (ma_required_data self).

End WithRolling.

(** A rolling mean to run the strategy with: the plain mean of each full
    window, [nan] before the window is filled. *)
Definition window_mean (w : Z) (window : list float) : float :=
  (fold_left PrimFloat.add window 0 / float_of_int w)%float.

Fixpoint rolling_from (w : Z) (seen : list float) (l : list float) : list float :=
  match l with
  | [] => []
  | x :: rest =>
      let seen := (seen ++ [x])%list in
      let n := Z.of_nat (length seen) in
      (if (0 <? w) && (w <=? n)
       then window_mean w (drop (Z.to_nat (n - w)) seen)
       else nan) :: rolling_from w seen rest
  end.

Definition plain_rolling_mean (w : Z) (col : list Cell) : option (list float) :=
  if w <? 0 then None
  else rolling_from w [] <$> mapM float_of_cell col.

End Strategy.

(** ** [src/bot/trader.py]: the trading cycle *)

Module Trader.
Import Py Pandas.

(** An open position as [list_positions] reports it. *)
Record Position : Type := mkPosition {
  pos_symbol : string;
  pos_qty : Z;
  avg_entry_price : float;
  market_value : float
}.

(** The keyword arguments of [client.create_order]. *)
Record OrderArgs : Type := mkOrder {
  ord_symbol : string;
  ord_qty : Z;
  ord_side : string;
  ord_type : string;
  ord_stop_price : option float;
  ord_time_in_force : string
}.

(** A call to the brokerage client (bar requests go through the provider). *)
Inductive ClientCall : Type :=
| get_account
| get_clock
| list_positions
| create_order (args : OrderArgs)
| close_position (symbol : string).

(** The brokerage client, as the bot awaits it: each answer may depend on
    the calls made before, and each call may raise. An order dictionary is
    read through its string fields; the empty dictionary is the client's
    failure value. *)
Record Client : Type := mkClient {
  client_get_account : list ClientCall -> Outcome (gmap string float);
  client_get_clock : list ClientCall -> Outcome bool;
  client_list_positions : list ClientCall -> Outcome (list Position);
  client_create_order : list ClientCall -> OrderArgs -> Outcome (gmap string string);
  client_close_position : list ClientCall -> string -> Outcome (gmap string string);
  client_get_bars : list Provider.Request -> Provider.Request ->
                    Outcome (gmap string DataFrame)
}.

(** The journal of a cycle: the log lines of [_trading_cycle] that matter
    here and, beside them, an entry for each call of [analyze] and for each
    decrement of [available_slots]. *)
Inductive LogLine : Type :=
| maximum_positions_reached
| no_data_available (symbol : string)
| analysing (symbol strategy : string)
| strategy_error (symbol strategy : string)
| slot_taken (symbol order_id : string)
| reached_maximum_stopping.

(** A [TradingBot] with what it has done to the outside. *)
Record TradingBot : Type := mkBot {
  symbols : list string;
  strategies : list Strategy.Strategy;
  max_positions : Z;
  risk_per_trade : float;
  time_frame : string;
  market_hours_only : bool;
  cooldown_period : Z;
  data_provider : Provider.DataProvider;
  positions : gmap string Position;
  account_info : gmap string float;
  is_running : bool;
  client_calls : list ClientCall;
  journal : list LogLine
}.

(** [TradingBot.__init__] *)
Definition init (syms : list string) (strats : list Strategy.Strategy)
    (max_pos : Z) (risk : float) (tf : string) (hours_only : bool) (cooldown : Z)
    : TradingBot :=
  mkBot syms strats max_pos risk tf hours_only cooldown Provider.init ∅ ∅ false [] [].

Definition set_provider (p : Provider.DataProvider) (b : TradingBot) : TradingBot :=
  mkBot (symbols b) (strategies b) (max_positions b) (risk_per_trade b) (time_frame b)
        (market_hours_only b) (cooldown_period b) p (positions b) (account_info b)
        (is_running b) (client_calls b) (journal b).

Definition set_positions (ps : gmap string Position) (b : TradingBot) : TradingBot :=
  mkBot (symbols b) (strategies b) (max_positions b) (risk_per_trade b) (time_frame b)
        (market_hours_only b) (cooldown_period b) (data_provider b) ps (account_info b)
        (is_running b) (client_calls b) (journal b).

Definition set_account (a : gmap string float) (b : TradingBot) : TradingBot :=
  mkBot (symbols b) (strategies b) (max_positions b) (risk_per_trade b) (time_frame b)
        (market_hours_only b) (cooldown_period b) (data_provider b) (positions b) a
        (is_running b) (client_calls b) (journal b).

Definition set_running (r : bool) (b : TradingBot) : TradingBot :=
  mkBot (symbols b) (strategies b) (max_positions b) (risk_per_trade b) (time_frame b)
        (market_hours_only b) (cooldown_period b) (data_provider b) (positions b)
        (account_info b) r (client_calls b) (journal b).

Definition record_call (c : ClientCall) (b : TradingBot) : TradingBot :=
  mkBot (symbols b) (strategies b) (max_positions b) (risk_per_trade b) (time_frame b)
        (market_hours_only b) (cooldown_period b) (data_provider b) (positions b)
        (account_info b) (is_running b) (client_calls b ++ [c])%list (journal b).

Definition log (l : LogLine) (b : TradingBot) : TradingBot :=
  mkBot (symbols b) (strategies b) (max_positions b) (risk_per_trade b) (time_frame b)
        (market_hours_only b) (cooldown_period b) (data_provider b) (positions b)
        (account_info b) (is_running b) (client_calls b) (journal b ++ [l])%list.

Section WithClient.

Variable client : Client.

(** [datetime.now()] as the data provider reads it. *)
Variable now : nat -> Z.

(** [_update_account_info()] *)
Definition _update_account_info (b : TradingBot) : TradingBot :=
  let answer := client_get_account client (client_calls b) in
  let b := record_call get_account b in
  match answer with
  | Ret account => set_account account b
  | Raise => b
  end.

(** [_update_positions()]: [{p["symbol"]: p for p in positions}] *)
Definition _update_positions (b : TradingBot) : TradingBot :=
  let answer := client_list_positions client (client_calls b) in
  let b := record_call list_positions b in
  match answer with
  | Ret ps =>
      set_positions
        (fold_left (fun d p => <[pos_symbol p := p]> d) ps ∅) b
  | Raise => b
  end.

(** [_check_market_status()] *)
Definition _check_market_status (b : TradingBot) : TradingBot * bool :=
  let answer := client_get_clock client (client_calls b) in
  let b := record_call get_clock b in
  match answer with
  | Ret is_open => (b, is_open)
  | Raise => (b, false)
  end.

(** [_fetch_data_for_symbol(symbol)] *)
Definition _fetch_data_for_symbol (symbol : string) (b : TradingBot)
    : TradingBot * option DataFrame :=
  let '(p, data) :=
    Provider.get_bars (client_get_bars client) now
      (Provider.mkRequest [symbol] (time_frame b) 100 None None) true
      (data_provider b) in
  (set_provider p b, Provider.items data !! symbol).

(** The order id a client answer carries: [order.get("id") if order else None] *)
Definition order_id_of (order : gmap string string) : option string :=
  if dict_truthy order then order !! "id" else None.

(** The buy branch of [_execute_signal] up to the order: the quantity, or
    [None] when the signal is rejected (also when [int(..)] raises). *)
Definition position_size (equity risk_fraction : float) (price stop_loss : option float)
    : option Z :=
  let risk_amount := (equity * risk_fraction)%float in
  if negb (truthy_opt_float price) || negb (truthy_opt_float stop_loss) then None
  else
    match price, stop_loss with
    | Some price, Some stop_loss =>
        let risk_per_share := PrimFloat.abs (price - stop_loss)%float in
        if PrimFloat.leb risk_per_share 0 then None
        else
          match int_of_float (risk_amount / risk_per_share)%float with
          | None => None
          | Some qty => if qty <=? 0 then None else Some qty
          end
    | _, _ => None
    end.

(** [float(self.account_info.get("equity", 0))] *)
Definition equity_of (b : TradingBot) : float :=
  default 0%float (account_info b !! "equity").

(** [_execute_signal(symbol, signal)]: the order id, or [None]. *)
Definition _execute_signal (symbol : string) (signal : Strategy.Signal) (b : TradingBot)
    : TradingBot * option string :=
  match Strategy.action signal with
  | Some "buy" =>
      match position_size (equity_of b) (risk_per_trade b)
              (Strategy.price signal) (Strategy.stop_loss signal) with
      | None => (b, None)
      | Some qty =>
          let buy := mkOrder symbol qty "buy" "market" None "day" in
          let answer := client_create_order client (client_calls b) buy in
          let b := record_call (create_order buy) b in
          match answer with
          | Raise => (b, None)
          | Ret order =>
              if truthy_opt_float (Strategy.stop_loss signal) && dict_truthy order
              then
                let stop := mkOrder symbol qty "sell" "stop"
                                    (Strategy.stop_loss signal) "gtc" in
                let answer := client_create_order client (client_calls b) stop in
                let b := record_call (create_order stop) b in
                match answer with
                | Raise => (b, None)
                | Ret _ => (b, order_id_of order)
                end
              else (b, order_id_of order)
          end
      end
  | Some "sell" | Some "exit" =>
      let answer := client_close_position client (client_calls b) symbol in
      let b := record_call (close_position symbol) b in
      match answer with
      | Raise => (b, None)
      | Ret order => (b, order_id_of order)
      end
  | _ => (b, None)
  end.

(** The inner loop of [_trading_cycle] over the strategies, for one symbol
    with its data. The boolean tells that the cycle returned from inside. *)
Fixpoint apply_strategies (symbol : string) (data : DataFrame)
    (strats : list Strategy.Strategy) (available_slots : Z) (b : TradingBot)
    : TradingBot * Z * bool :=
  match strats with
  | [] => (b, available_slots, false)
  | strategy :: rest =>
      let b := log (analysing symbol (Strategy.name strategy)) b in
      match Strategy.analyze strategy symbol data with
      | Raise =>
          apply_strategies symbol data rest available_slots
            (log (strategy_error symbol (Strategy.name strategy)) b)
      | Ret None => apply_strategies symbol data rest available_slots b
      | Ret (Some signal) =>
          match _execute_signal symbol signal b with
          | (b, Some order_id) =>
              if truthy_string order_id then
                let b := log (slot_taken symbol order_id) b in
                let available_slots := available_slots - 1 in
                if available_slots <=? 0
                then (log reached_maximum_stopping b, available_slots, true)
                else apply_strategies symbol data rest available_slots b
              else apply_strategies symbol data rest available_slots b
          | (b, None) => apply_strategies symbol data rest available_slots b
          end
      end
  end.

(** The outer loop of [_trading_cycle] over the symbols. *)
Fixpoint process_symbols (syms : list string) (available_slots : Z) (b : TradingBot)
    : TradingBot :=
  match syms with
  | [] => b
  | symbol :: rest =>
      if bool_decide (is_Some (positions b !! symbol))
      then process_symbols rest available_slots b
      else
        match _fetch_data_for_symbol symbol b with
        | (b, None) => process_symbols rest available_slots (log (no_data_available symbol) b)
        | (b, Some data) =>
            if empty data
            then process_symbols rest available_slots (log (no_data_available symbol) b)
            else
              match apply_strategies symbol data (strategies b) available_slots b with
              | (b, _, true) => b
              | (b, available_slots, false) => process_symbols rest available_slots b
              end
        end
  end.

(** [available_slots] as [_trading_cycle] computes it, after the refresh. *)
Definition available_slots_of (b : TradingBot) : Z :=
  Z.max 0 (max_positions b - Z.of_nat (size (positions b))).

(** [_trading_cycle()] *)
Definition _trading_cycle (b : TradingBot) : TradingBot :=
  let b := _update_account_info b in
  let b := _update_positions b in
  let available_slots := available_slots_of b in
  if available_slots =? 0 then log maximum_positions_reached b
  else process_symbols (symbols b) available_slots b.

(** [_cleanup()]: [await self.data_provider.close()] *)
Definition _cleanup (b : TradingBot) : TradingBot :=
  let '(p, _) := Provider.await Provider.close (data_provider b) in
  set_provider p b.

(** The [while self.is_running] loop of [run]. An interrupt handled before
    the n-th test of the loop condition ([_handle_exit]) clears
    [is_running]; [stop_request n] tells whether one arrived. [None] when
    the loop is still running after [fuel] rounds. *)
Variable stop_request : nat -> bool.

Fixpoint main_loop (fuel : nat) (round : nat) (b : TradingBot) : option TradingBot :=
  match fuel with
  | O => None
  | S fuel =>
      let b := if stop_request round then set_running false b else b in
      if is_running b then
        if market_hours_only b then
          match _check_market_status b with
          | (b, false) => main_loop fuel (S round) b
          | (b, true) => main_loop fuel (S round) (_trading_cycle b)
          end
        else main_loop fuel (S round) (_trading_cycle b)
      else Some b
  end.

(** [run()]: the initial refresh, the loop, and [_cleanup] in the [finally]
    clause. *)
Definition run (fuel : nat) (b : TradingBot) : option TradingBot :=
  let b := set_running true b in
  let b := _update_account_info b in
  let b := _update_positions b in
  _cleanup <$> main_loop fuel 0 b.

End WithClient.

End Trader.

(** ** [src/data/provider.py]: the queries built on [get_bars] *)

Module Queries.
Import Py Pandas Provider.

(** The range of [datetime], in microseconds since the epoch:
    0001-01-01T00:00:00 to 9999-12-31T23:59:59.999999. *)
Definition datetime_min : Z := -62135596800000000.
Definition datetime_max : Z := 253402300799999999.

(** [timedelta(days=n)]: the span in microseconds; it raises
    [OverflowError] beyond 999999999 days. *)
Definition timedelta_days (n : Z) : Outcome Z :=
  if Z.abs n <=? 999999999 then Ret (n * 86400000000) else Raise.

(** [t - delta] on a [datetime]; it raises [OverflowError] outside the
    range. *)
Definition datetime_sub (t delta : Z) : Outcome Z :=
  let r := t - delta in
  if (datetime_min <=? r) && (r <=? datetime_max) then Ret r else Raise.

(** [self.get_cache_stats()] *)
Record CacheStats : Type := mkCacheStats {
  cache_size : Z;
  stat_cache_hits : Z;
  stat_requests : Z;
  hit_ratio : float;
  stat_failed_requests : Z;
  stat_last_request_time : option string
}.

Section WithClient.

Variable client_get_bars : list Request -> Request -> Outcome (gmap string DataFrame).

(** [datetime.now()]: the n-th reading of the clock. *)
Variable now : nat -> Z.

(** [datetime.isoformat()] *)
Variable isoformat : Z -> string.

(** [get_latest_price(symbol)]: the last close of the latest one-minute
    bar, or [None]; an exception raised on the way ([KeyError] for a missing
    close column, a cell [float()] cannot read) is caught and printed. *)
Definition get_latest_price (symbol : string) (p : DataProvider)
    : DataProvider * option float :=
  let '(p, bars) :=
    get_bars client_get_bars now (mkRequest [symbol] "1Min" 1 None None) true p in
  let failed p := (print ("Error getting latest price for " ++ symbol) p, None) in
  match items bars !! symbol with
  | Some df =>
      if empty df then (p, None)
      else if has_column "close" df then
        match last (rows df) with
        | Some r =>
            match Strategy.float_of_cell (cell_at (columns df) "close" r) with
            | Some x => (p, Some x)
            | None => failed p
            end
        | None => failed p
        end
      else failed p
  | None => (p, None)
  end.

(** [get_daily_bars(symbols, lookback_days)]: [limit] and [use_cache] keep
    their defaults. The date arithmetic is outside any [try]. *)
Definition get_daily_bars (syms : list string) (lookback_days : Z) (p : DataProvider)
    : DataProvider * Outcome DictObj :=
  let '(p, end_) := read_clock now p in
  match timedelta_days lookback_days with
  | Raise => (p, Raise)
  | Ret delta =>
      match datetime_sub end_ delta with
      | Raise => (p, Raise)
      | Ret start =>
          let '(p, data) :=
            get_bars client_get_bars now
              (mkRequest syms "1D" 100 (Some (isoformat start)) (Some (isoformat end_)))
              true p in
          (p, Ret data)
      end
  end.

(** [get_multi_timeframe_data(symbol, timeframes, limit)]: the loop over the
    timeframes, with the result dictionary built so far. *)
Fixpoint multi_timeframe_loop (symbol : string) (timeframes : list string) (lim : Z)
    (result : gmap string DataFrame) (p : DataProvider)
    : DataProvider * gmap string DataFrame :=
  match timeframes with
  | [] => (p, result)
  | tf :: rest =>
      let '(p, data) :=
        get_bars client_get_bars now (mkRequest [symbol] tf lim None None) true p in
      let result :=
        match items data !! symbol with
        | Some df => <[tf := df]> result
        | None => result
        end in
      multi_timeframe_loop symbol rest lim result p
  end.

Definition get_multi_timeframe_data (symbol : string) (timeframes : list string)
    (lim : Z) (p : DataProvider) : DataProvider * gmap string DataFrame :=
  multi_timeframe_loop symbol timeframes lim ∅ p.

(** [get_cache_stats()]; the ratio of two ints is the quotient of their
    floats. *)
Definition get_cache_stats (p : DataProvider) : CacheStats :=
  mkCacheStats (Z.of_nat (size (cache p)))
               (cache_hits (stats p))
               (requests (stats p))
               (float_of_int (cache_hits (stats p))
                / float_of_int (Z.max 1 (requests (stats p))))%float
               (failed_requests (stats p))
               (isoformat <$> last_request_time (stats p)).

End WithClient.

End Queries.

(** ** [src/utils/api.py]: the retrying client of the fetcher *)

Module Api.
Import Py Pandas.

(** The exceptions this file tells apart: the REST library's [APIError] with
    its status code, [ValueError], and any other. *)
Inductive Exception : Type :=
| APIError (status_code : Z)
| ValueError
| OtherError.

(** What a call does: it returns a value or raises an exception. *)
Inductive Try (A : Type) : Type :=
| Returned (a : A)
| Raised (e : Exception).
Arguments Returned {A} a.
Arguments Raised {A} e.

(** A quantity: an [int] or a [float]. *)
Inductive Number : Type :=
| IntQ (n : Z)
| FloatQ (x : float).

(** [qty <= 0] *)
Definition le_zero (q : Number) : bool :=
  match q with
  | IntQ n => n <=? 0
  | FloatQ x => PrimFloat.leb x 0
  end.

(** The entities the REST library hands out, with the attributes read here.
    Entities are objects without [__bool__] or [__len__]: they count as
    true. *)
Record Account : Type := mkAccount {
  account_status : string;
  buying_power : Cell
}.

Record Order : Type := mkOrderEntity {
  order_id : string;
  order_status : string
}.

Record Position : Type := mkPositionEntity {
  position_qty : string
}.

(** The keyword arguments of [api.submit_order]. *)
Record OrderParams : Type := mkOrderParams {
  op_symbol : string;
  op_qty : Number;
  op_side : string;
  op_type : string;
  op_time_in_force : string;
  op_kwargs : list (string * Cell)
}.

(** A call to the REST library. *)
Inductive RestCall : Type :=
| api_get_account
| api_get_bars (symbol : string) (params : Fetcher.Params)
| api_submit_order (params : OrderParams)
| api_get_position (symbol : string).

(** The REST library: what each call answers, given the calls made before.
    [rest_get_bars] stands for [api.get_bars(symbol, **params).df]. *)
Record Rest : Type := mkRest {
  rest_get_account : list RestCall -> Try Account;
  rest_get_bars : list RestCall -> string -> Fetcher.Params -> Try DataFrame;
  rest_submit_order : list RestCall -> OrderParams -> Try Order;
  rest_get_position : list RestCall -> string -> Try Position
}.

(** The log: the structured events, and the plain lines that tell the
    branches apart. *)
Inductive Logged : Type :=
| api_call_failed (retries : Z)
| retrying_in (wait_time : Z)
| connection_success (status : string) (buying_power : float)
| failed_to_verify
| connection_failure
| invalid_order_side (side : string)
| invalid_order_quantity (qty : Number)
| order_attempt (params : OrderParams)
| order_submitted (order_id : string) (params : OrderParams) (status : string)
| order_submission_failed (params : OrderParams)
| found_position (symbol qty : string)
| no_position_found (symbol : string)
| position_error (symbol : string) (status_code : option Z)
| no_bars_returned (symbol : string)
| client_creation_failed.

(** [AlpacaClient] *)
Record AlpacaClient : Type := mkAlpacaClient {
  api_key : string;
  api_secret : string;
  base_url : string;
  max_retries : Z;
  retry_delay_base : Z
}.

(** What the client has done to the outside: the calls made to the REST
    library, the waits of [time.sleep] in seconds, and the log, all oldest
    first. *)
Record State : Type := mkState {
  rest_calls : list RestCall;
  slept : list Z;
  logged : list Logged
}.

Definition initial_state : State := mkState [] [] [].

Definition emit (e : Logged) (st : State) : State :=
  mkState (rest_calls st) (slept st) (logged st ++ [e])%list.

(** The longest wait [time.sleep] takes, in seconds: what fits in 64 bits
    of nanoseconds. *)
Definition max_sleep : Z := 9223372036.

(** [time.sleep(secs)]; a negative length raises [ValueError], one that is
    too long [OverflowError]. *)
Definition sleep (secs : Z) (st : State) : State * Try unit :=
  if secs <? 0 then (st, Raised ValueError)
  else if max_sleep <? secs then (st, Raised OtherError)
  else (mkState (rest_calls st) (slept st ++ [secs])%list (logged st), Returned tt).

(** The thunk [lambda: self.api.<call>(..)]: it makes the call when it is
    invoked. *)
Definition invoke {T : Type} (answer : list RestCall -> Try T) (c : RestCall)
    : State -> State * Try T :=
  fun st => (mkState (rest_calls st ++ [c])%list (slept st) (logged st),
             answer (rest_calls st)).

(** The loop of [retry_api_call]: [remaining] iterations of
    [for retry_count in range(max_retries)] are left. *)
Fixpoint retry_loop {T : Type} (func : State -> State * Try T)
    (base max_retries : Z) (remaining : nat) (retry_count : Z) (st : State)
    : State * Try (option T) :=
  match remaining with
  | O => (st, Returned None)
  | S remaining =>
      match func st with
      | (st, Returned v) => (st, Returned (Some v))
      | (st, Raised _) =>
          if retry_count =? max_retries - 1
          then (emit (api_call_failed max_retries) st, Returned None)
          else
            let wait_time := base ^ retry_count in
            match sleep wait_time (emit (retrying_in wait_time) st) with
            | (st, Raised e) => (st, Raised e)
            | (st, Returned _) =>
                retry_loop func base max_retries remaining (retry_count + 1) st
            end
      end
  end.

(** [retry_api_call(func, max_retries)] *)
Definition retry_api_call {T : Type} (self : AlpacaClient)
    (func : State -> State * Try T) (retries : option Z) (st : State)
    : State * Try (option T) :=
  let retries := int_or retries (max_retries self) in
  retry_loop func (retry_delay_base self) retries (Z.to_nat retries) 0 st.

Section WithRest.

Variable rest : Rest.

(** [get_account()] *)
Definition get_account (self : AlpacaClient) (st : State)
    : State * Try (option Account) :=
  retry_api_call self (invoke (rest_get_account rest) api_get_account) None st.

(** [verify_connection()] *)
Definition verify_connection (self : AlpacaClient) (st : State) : State * bool :=
  match get_account self st with
  | (st, Returned (Some account)) =>
      match Strategy.float_of_cell (buying_power account) with
      | Some bp => (emit (connection_success (account_status account) bp) st, true)
      | None => (emit connection_failure st, false)
      end
  | (st, Returned None) => (emit failed_to_verify st, false)
  | (st, Raised _) => (emit connection_failure st, false)
  end.

(** [get_bars(symbol, timeframe, limit, feed, **kwargs)]; of the keyword
    arguments only [end] is in use. *)
Definition get_bars (self : AlpacaClient) (symbol : string) (timeframe : string)
    (limit : Z) (feed : option string) (end_ : option Z) (st : State)
    : State * Try (option DataFrame) :=
  let feed := match feed with
              | Some f => if truthy_string f then Some f else None
              | None => None
              end in
  let params := Fetcher.mkParams limit timeframe feed end_ in
  match retry_api_call self
          (invoke (fun h => rest_get_bars rest h symbol params) (api_get_bars symbol params))
          None st with
  | (st, Raised e) => (st, Raised e)
  | (st, Returned (Some result)) =>
      if empty result then (emit (no_bars_returned symbol) st, Returned None)
      else (st, Returned (Some result))
  | (st, Returned None) => (emit (no_bars_returned symbol) st, Returned None)
  end.

(** [submit_order(symbol, qty, side, order_type, time_in_force, **kwargs)] *)
Definition submit_order (self : AlpacaClient) (symbol : string) (qty : Number)
    (side order_type time_in_force : string) (kwargs : list (string * Cell))
    (st : State) : State * Try (option Order) :=
  if negb (bool_decide (side ∈ ["buy"; "sell"]))
  then (emit (invalid_order_side side) st, Returned None)
  else if le_zero qty
  then (emit (invalid_order_quantity qty) st, Returned None)
  else
    let params := mkOrderParams symbol qty side order_type time_in_force kwargs in
    let st := emit (order_attempt params) st in
    match retry_api_call self
            (invoke (fun h => rest_submit_order rest h params) (api_submit_order params))
            None st with
    | (st, Raised e) => (st, Raised e)
    | (st, Returned (Some order)) =>
        (emit (order_submitted (order_id order) params (order_status order)) st,
         Returned (Some order))
    | (st, Returned None) =>
        (emit (order_submission_failed params) st, Returned None)
    end.

(** [get_position(symbol)], with its two handlers. *)
Definition get_position (self : AlpacaClient) (symbol : string) (st : State)
    : State * option Position :=
  match retry_api_call self
          (invoke (fun h => rest_get_position rest h symbol) (api_get_position symbol))
          None st with
  | (st, Returned (Some position)) =>
      (emit (found_position symbol (position_qty position)) st, Some position)
  | (st, Returned None) => (st, None)
  | (st, Raised (APIError status_code)) =>
      if status_code =? 404 then (emit (no_position_found symbol) st, None)
      else (emit (position_error symbol (Some status_code)) st, None)
  | (st, Raised _) => (emit (position_error symbol None) st, None)
  end.

(** [os.getenv] once [load_dotenv()] has run. *)
Variable getenv : string -> option string.

(** [x or os.getenv(name)] *)
Definition or_env (x : option string) (name : string) : option string :=
  match x with
  | Some s => if truthy_string s then Some s else getenv name
  | None => getenv name
  end.

(** [AlpacaClient.__init__]; [None] when it raises [ValueError]. *)
Definition new_client (key secret url : option string) (retries base : Z)
    : option AlpacaClient :=
  let key := or_env key "ALPACA_KEY" in
  let secret := or_env secret "ALPACA_SECRET" in
  let url := match url with
             | Some u => if truthy_string u then u else "https://paper-api.alpaca.markets"
             | None => "https://paper-api.alpaca.markets"
             end in
  match key, secret with
  | Some k, Some s =>
      if truthy_string k && truthy_string s
      then Some (mkAlpacaClient k s url retries base)
      else None
  | _, _ => None
  end.

(** [create_client(api_key, api_secret, base_url, max_retries, verify)] *)
Definition create_client (key secret url : option string) (retries : Z)
    (verify : bool) (st : State) : State * option AlpacaClient :=
  match new_client key secret url retries 2 with
  | None => (emit client_creation_failed st, None)
  | Some client =>
      if verify then
        match verify_connection client st with
        | (st, true) => (st, Some client)
        | (st, false) => (emit failed_to_verify st, None)
        end
      else (st, Some client)
  end.

End WithRest.

End Api.

(** ** [src/api/alpaca.py]: the rate-limited client of the bot *)

Module Alpaca.
Import Py Pandas.

(** A bar as the REST library hands it out. *)
Record Bar : Type := mkBar {
  bar_symbol : string;
  bar_t : Cell;
  bar_o : Cell;
  bar_h : Cell;
  bar_l : Cell;
  bar_c : Cell;
  bar_v : Cell
}.

(** The keyword arguments of [api.get_bars(symbols, **params)]. *)
Record BarParams : Type := mkBarParams {
  bp_timeframe : string;
  bp_limit : Z;
  bp_start : option string;
  bp_end : option string
}.

(** The arguments of [create_order]. *)
Record OrderRequest : Type := mkOrderRequest {
  req_symbol : string;
  req_qty : Z;
  req_side : string;
  req_type : string;
  req_time_in_force : string;
  req_limit_price : option float;
  req_stop_price : option float;
  req_client_order_id : option string;
  req_extended_hours : bool
}.

(** The keyword arguments of [api.submit_order] ([**params]); an absent key is
    [None]. *)
Record OrderParams : Type := mkOrderParams {
  par_symbol : string;
  par_qty : Z;
  par_side : string;
  par_type : string;
  par_time_in_force : string;
  par_extended_hours : bool;
  par_limit_price : option float;
  par_stop_price : option float;
  par_client_order_id : option string
}.

(** A call to the REST library. *)
Inductive RestCall : Type :=
| api_get_bars (symbols : list string) (params : BarParams)
| api_submit_order (params : OrderParams)
| api_close_position (symbol : string).

(** The client and what it has done to the outside: the calls made to the
    REST library, the waits of [time.sleep], the lines printed and the
    number of times the clock was read. Times are in seconds. *)
Record State : Type := mkState {
  last_request_time : float;
  rest_calls : list RestCall;
  slept : list float;
  printed : list string;
  clock_reads : nat
}.

(** [AlpacaClient.__init__] *)
Definition init : State := mkState 0 [] [] [] 0.

(** [self.min_request_interval] *)
Definition min_request_interval : float := 0.2%float.

Definition print (line : string) (st : State) : State :=
  mkState (last_request_time st) (rest_calls st) (slept st) (printed st ++ [line])%list
          (clock_reads st).

Definition record_call (c : RestCall) (st : State) : State :=
  mkState (last_request_time st) (rest_calls st ++ [c])%list (slept st) (printed st)
          (clock_reads st).

(** [time.sleep(secs)] on a float: it raises on [nan], on a negative length
    and on one that does not fit in 64 bits of nanoseconds; otherwise it
    waits and returns [None]. *)
Definition sleep (secs : float) (st : State) : State * Outcome unit :=
  if PrimFloat.is_nan secs || PrimFloat.ltb secs 0
     || PrimFloat.ltb 9223372036.854775807%float secs
  then (st, Raise)
  else (mkState (last_request_time st) (rest_calls st) (slept st ++ [secs])%list
                (printed st) (clock_reads st), Ret tt).

Section WithRest.

(** [time.time()]: the n-th reading of the clock. *)
Variable now : nat -> float.

(** The REST library: what each call answers, given the calls made before.
    An order entity is kept as it is. *)
Variable Order : Type.
Variable rest_get_bars : list RestCall -> list string -> BarParams -> Outcome (list Bar).
Variable rest_submit_order : list RestCall -> OrderParams -> Outcome Order.
Variable rest_close_position : list RestCall -> string -> Outcome Order.

(** The dictionary the client builds from an order entity; building it
    raises when a field cannot be read as a float. The empty dictionary,
    the failure value, is [None]. *)
Variable OrderDict : Type.
Variable order_dict : Order -> Outcome OrderDict.
Variable closed_dict : Order -> Outcome OrderDict.

(** The timezone of the bar times the library hands out. *)
Variable bars_tz : option string.

Definition read_clock (st : State) : State * float :=
  (mkState (last_request_time st) (rest_calls st) (slept st) (printed st)
           (S (clock_reads st)),
   now (clock_reads st)).

(** [_rate_limit()]. The wait is written [await time.sleep(..)]:
    [time.sleep] runs and returns [None], and awaiting [None] raises
    [TypeError], so the assignment after it is not reached. *)
Definition _rate_limit (st : State) : State * Outcome unit :=
  let '(st, t) := read_clock st in
  let elapsed := (t - last_request_time st)%float in
  if PrimFloat.ltb elapsed min_request_interval then
    match sleep (min_request_interval - elapsed)%float st with
    | (st, Raise) => (st, Raise)
    | (st, Ret _) => (st, Raise)
    end
  else
    let '(st, t) := read_clock st in
    (mkState t (rest_calls st) (slept st) (printed st) (clock_reads st), Ret tt).

(** A row of the table [get_bars] builds for a symbol; [None] when
    [float(..)], [int(..)] or [pd.to_datetime] raises. *)
Definition row_of_bar (b : Bar) : option Row :=
  o ← Strategy.float_of_cell (bar_o b);
  h ← Strategy.float_of_cell (bar_h b);
  l ← Strategy.float_of_cell (bar_l b);
  c ← Strategy.float_of_cell (bar_c b);
  v ← match bar_v b with
      | Num x => int_of_float x
      | Int n => Some n
      | Obj _ => None
      end;
  t ← to_datetime (bar_t b);
  Some (mkRow t [Num o; Num h; Num l; Num c; Int v]).

(** The loop of [get_bars] over the requested symbols, with the result
    built so far; [None] when a conversion raises. *)
Fixpoint bars_by_symbol (symbols : list string) (bars : list Bar)
    (result : gmap string DataFrame) : option (gmap string DataFrame) :=
  match symbols with
  | [] => Some result
  | symbol :: rest =>
      let symbol_bars := filter (fun b => bar_symbol b = symbol) bars in
      match symbol_bars with
      | [] => bars_by_symbol rest bars result
      | _ :: _ =>
          match mapM row_of_bar symbol_bars with
          | Some rows =>
              bars_by_symbol rest bars
                (<[symbol := mkDF (DatetimeIndex bars_tz)
                                  ["open"; "high"; "low"; "close"; "volume"] rows]>
                   result)
          | None => None
          end
      end
  end.

(** [get_bars(symbols, timeframe, limit, start, end)] *)
Definition get_bars (symbols : list string) (timeframe : string) (limit : Z)
    (start end_ : option string) (st : State)
    : State * Outcome (gmap string DataFrame) :=
  match _rate_limit st with
  | (st, Raise) => (st, Raise)
  | (st, Ret _) =>
      let keep (x : option string) :=
        match x with
        | Some s => if truthy_string s then Some s else None
        | None => None
        end in
      let params := mkBarParams timeframe limit (keep start) (keep end_) in
      let answer := rest_get_bars (rest_calls st) symbols params in
      let st := record_call (api_get_bars symbols params) st in
      match answer with
      | Raise => (print "Error getting bars" st, Ret ∅)
      | Ret bars =>
          match bars_by_symbol symbols bars ∅ with
          | Some result => (st, Ret result)
          | None => (print "Error getting bars" st, Ret ∅)
          end
      end
  end.

(** The parameters [create_order] hands to the REST library. *)
Definition order_params (r : OrderRequest) : OrderParams :=
  let is_limit := String.eqb (req_type r) "limit" || String.eqb (req_type r) "stop_limit" in
  let is_stop := String.eqb (req_type r) "stop" || String.eqb (req_type r) "stop_limit" in
  mkOrderParams (req_symbol r) (req_qty r) (req_side r) (req_type r)
    (req_time_in_force r) (req_extended_hours r)
    (if truthy_opt_float (req_limit_price r) && is_limit then req_limit_price r else None)
    (if truthy_opt_float (req_stop_price r) && is_stop then req_stop_price r else None)
    (match req_client_order_id r with
     | Some s => if truthy_string s then Some s else None
     | None => None
     end).

(** [create_order(..)] *)
Definition create_order (r : OrderRequest) (st : State)
    : State * Outcome (option OrderDict) :=
  match _rate_limit st with
  | (st, Raise) => (st, Raise)
  | (st, Ret _) =>
      let params := order_params r in
      let answer := rest_submit_order (rest_calls st) params in
      let st := record_call (api_submit_order params) st in
      match answer with
      | Raise => (print "Error creating order" st, Ret None)
      | Ret order =>
          match order_dict order with
          | Ret d => (st, Ret (Some d))
          | Raise => (print "Error creating order" st, Ret None)
          end
      end
  end.

(** [close_position(symbol)] *)
Definition close_position (symbol : string) (st : State)
    : State * Outcome (option OrderDict) :=
  match _rate_limit st with
  | (st, Raise) => (st, Raise)
  | (st, Ret _) =>
      let answer := rest_close_position (rest_calls st) symbol in
      let st := record_call (api_close_position symbol) st in
      match answer with
      | Raise => (print "Error closing position" st, Ret None)
      | Ret order =>
          match closed_dict order with
          | Ret d => (st, Ret (Some d))
          | Raise => (print "Error closing position" st, Ret None)
          end
      end
  end.

End WithRest.

End Alpaca.

(** ** [src/utils/data.py]: the feed diagnostic *)

Module Diagnostics.
Import Py Pandas Fetcher.

(** An entry of [results["feed_results"]] and of
    [results["timeframe_results"]]. *)
Record Entry : Type := mkEntry { success : bool; max_bars : Z }.

(** [results["best_combination"]] *)
Record Combination : Type := mkCombination { best_feed : string; best_timeframe : string }.

(** [results["enhanced_method"]] *)
Inductive Enhanced : Type :=
| enhanced_success (bar_count : Z) (range_start range_end : string)
| enhanced_failure.

(** The dictionary [test_data_feeds] builds and returns; the key
    [enhanced_method] is absent until the end. *)
Record Results : Type := mkResults {
  feed_results : gmap string Entry;
  timeframe_results : gmap string Entry;
  best_combination : option Combination;
  highest_bar_count : Z;
  enhanced_method : option Enhanced
}.

Definition initial_results : Results := mkResults ∅ ∅ None 0 None.

(** [feeds] of [test_data_feeds] *)
Definition feeds : list (option string) := [Some "sip"; None; Some "iex"].

(** [timeframes or ['1D', '1H', '15Min']] *)
Definition timeframes_or_default (timeframes : option (list string)) : list string :=
  match timeframes with
  | Some (tf :: rest) => tf :: rest
  | _ => ["1D"; "1H"; "15Min"]
  end.

(** [if k not in d: d[k] = {"success": False, "max_bars": 0}] *)
Definition init_entry (k : string) (d : gmap string Entry) : gmap string Entry :=
  match d !! k with
  | Some _ => d
  | None => <[k := mkEntry false 0]> d
  end.

(** [d[k]["success"] = True; d[k]["max_bars"] = max(d[k]["max_bars"], n)];
    the loop has made the entry before. *)
Definition record_success (k : string) (n : Z) (d : gmap string Entry) : gmap string Entry :=
  alter (fun e => mkEntry true (Z.max (max_bars e) n)) k d.

(** [df.index.max()] *)
Definition index_max (df : DataFrame) : option Z :=
  match keys df with
  | [] => None
  | k :: ks => Some (fold_right Z.max k ks)
  end.

Section WithClient.

Variable client_get_bars : list Call -> Call -> Outcome (option DataFrame).
Variable now : nat -> Z.

(** [Timestamp.isoformat()]; the minimum and the maximum of an empty index
    are [NaT]. *)
Variable isoformat : Z -> string.

Definition iso (t : option Z) : string :=
  match t with
  | Some t => isoformat t
  | None => "NaT"
  end.

(** The body of [for feed in feeds]: one probe of the client. A client call
    that raises is caught and the loop goes on. *)
Definition probe (symbol : string) (lookback_bars : Z) (tf : string) (f : option string)
    (st : State) (results : Results) : State * Results :=
  let feed_name := match f with
                   | Some s => if truthy_string s then s else "default"
                   | None => "default"
                   end in
  let results :=
    mkResults (init_entry feed_name (feed_results results)) (timeframe_results results)
              (best_combination results) (highest_bar_count results)
              (enhanced_method results) in
  let params :=
    mkParams lookback_bars tf
             (match f with
              | Some s => if truthy_string s then Some s else None
              | None => None
              end) None in
  match call_client client_get_bars symbol params st with
  | (st, Ret (Some bars_df)) =>
      if empty bars_df then (st, results)
      else
        let bar_count := len bars_df in
        let results :=
          mkResults (record_success feed_name bar_count (feed_results results))
                    (record_success tf bar_count (timeframe_results results))
                    (best_combination results) (highest_bar_count results)
                    (enhanced_method results) in
        if highest_bar_count results <? bar_count then
          (st, mkResults (feed_results results) (timeframe_results results)
                         (Some (mkCombination feed_name tf)) bar_count
                         (enhanced_method results))
        else (st, results)
  | (st, Ret None) => (st, results)
  | (st, Raise) => (st, results)
  end.

Fixpoint probe_feeds (symbol : string) (lookback_bars : Z) (tf : string)
    (fs : list (option string)) (st : State) (results : Results) : State * Results :=
  match fs with
  | [] => (st, results)
  | f :: rest =>
      let '(st, results) := probe symbol lookback_bars tf f st results in
      probe_feeds symbol lookback_bars tf rest st results
  end.

(** [for tf in timeframes] *)
Fixpoint probe_timeframes (symbol : string) (lookback_bars : Z) (tfs : list string)
    (st : State) (results : Results) : State * Results :=
  match tfs with
  | [] => (st, results)
  | tf :: rest =>
      let results :=
        mkResults (feed_results results) (init_entry tf (timeframe_results results))
                  (best_combination results) (highest_bar_count results)
                  (enhanced_method results) in
      let '(st, results) := probe_feeds symbol lookback_bars tf feeds st results in
      probe_timeframes symbol lookback_bars rest st results
  end.

(** [test_data_feeds(symbol, timeframes, lookback_bars)]; [None] only when
    the fuel of the call to [get_bars] runs out. Log lines and the two
    diagnostic events are left out. *)
Definition test_data_feeds (fuel : nat) (symbol : string)
    (timeframes : option (list string)) (lookback_bars : Z) (st : State)
    : option (State * Results) :=
  let timeframes := timeframes_or_default timeframes in
  let '(st, results) :=
    probe_timeframes symbol lookback_bars timeframes st initial_results in
  match get_bars client_get_bars now fuel symbol lookback_bars "1H" None st with
  | None => None
  | Some (st, bars) =>
      let enhanced :=
        match bars with
        | Some df =>
            if empty df then enhanced_failure
            else enhanced_success (len df) (iso (index_min df)) (iso (index_max df))
        | None => enhanced_failure
        end in
      Some (st, mkResults (feed_results results) (timeframe_results results)
                          (best_combination results) (highest_bar_count results)
                          (Some enhanced))
  end.

End WithClient.

End Diagnostics.

(** * What the statements speak of

    Observations on the states and journals of the model, the functions the
    specification names in its own words, and the concrete clients, clocks,
    tables and bots the examples run on. *)

Import Py Pandas.

(** ** Fetcher: fallback steps, size reductions, fuel *)

Module FetcherTerms.
Import Fetcher.

(** The timeframe steps among the events, as (from, to) pairs. *)
Definition fallback_steps (evs : list Event) : list (string * string) :=
  omap (fun e => match e with
                 | timeframe_fallback _ a b => Some (a, b)
                 | _ => None
                 end) evs.

(** The size reductions among the events, as (from, to) pairs. *)
Definition reductions (evs : list Event) : list (Z * Z) :=
  omap (fun e => match e with
                 | request_size_reduction _ a b => Some (a, b)
                 | _ => None
                 end) evs.

(** Events of the feed loop: neither a timeframe step nor a size reduction. *)
Definition feed_event (e : Event) : Prop :=
  match e with
  | timeframe_fallback _ _ _ | request_size_reduction _ _ _
  | data_fetch_complete_failure _ _ => False
  | _ => True
  end.

(** The fuel a call needs: one unit per timeframe down the chain, and one
    more for the reduced daily retry. *)
Definition fuel_needed (tf : string) (lookback : Z) : nat :=
  (S (rank tf) + (if (100 <? lookback)%Z then 1 else 0))%nat.

(** The timeframe steps from [tf] down to the end of the chain. *)
Fixpoint steps_from (n : nat) (tf : string) : list (string * string) :=
  match n with
  | O => []
  | S n =>
      match next_timeframe tf with
      | Some tf' => (tf, tf') :: steps_from n tf'
      | None => []
      end
  end.

(** A call of one attempt: for [symbol], with the attempt's limit and
    timeframe. *)
Definition at_level (symbol : string) (lim : Z) (tf : string) (c : Call) : Prop :=
  call_symbol c = symbol /\ limit (call_params c) = lim /\ timeframe (call_params c) = tf.

(** The timeframes of a run of client calls, in order, repeats merged. *)
Definition timeframes_of (cs : list Call) : list string :=
  merge_runs (map (fun c => timeframe (call_params c)) cs).

(** The timeframes from [tf] down to the end of the chain. *)
Fixpoint path_from (n : nat) (tf : string) : list string :=
  tf :: match n with
        | O => []
        | S n =>
            match next_timeframe tf with
            | Some tf' => path_from n tf'
            | None => []
            end
        end.

(** A client that never has bars: every feed fails at every timeframe. *)
Definition no_bars : list Call -> Call -> Outcome (option DataFrame) :=
  fun _ _ => Ret None.

End FetcherTerms.

(** ** Tables: row order, sample tables, row-wise cleaning *)

Module FrameTerms.

(** The order of two rows by their labels. *)
Definition key_le (a b : Row) : Prop := key a <= key b.

(** A bar: its timestamp and the five required values. *)
Definition bar (t : Z) (o h l c v : float) : Row :=
  mkRow t [Num o; Num h; Num l; Num c; Num v].


(** The same bars under a naive [DatetimeIndex]. *)
Definition naive_frame : DataFrame :=
  mkDF (DatetimeIndex None) ["open"; "high"; "low"; "close"; "volume"]
       [bar 120 10 11 9 10 100; bar 60 20 21 19 20 200].


End FrameTerms.

(** ** Provider: the order on symbols, cache keys, sample clients and clocks *)

Module ProviderTerms.
Import Provider.

(** [string_le] is a total order. *)
#[global] Instance string_le_total : Total string_le.
Proof. intros a b. apply String.leb_total. Qed.

#[global] Instance string_le_antisym : AntiSymm (=) string_le.
Proof. intros a b. apply String.leb_antisym. Qed.

#[global] Instance string_le_trans : Transitive string_le.
Proof.
  unfold string_le, String.leb. intros a.
  induction a as [|x a IH]; intros [|y b] [|z c]; simpl; try done.
  unfold Ascii.compare.
  destruct (N.compare_spec (Ascii.N_of_ascii x) (Ascii.N_of_ascii y)) as [E1|L1|G1];
    destruct (N.compare_spec (Ascii.N_of_ascii y) (Ascii.N_of_ascii z)) as [E2|L2|G2];
    try done.
  - rewrite E1, E2, N.compare_refl. apply IH.
  - intros _ _. rewrite E1. apply N.compare_lt_iff in L2. rewrite L2. done.
  - intros _ _. rewrite <- E2. apply N.compare_lt_iff in L1. rewrite L1. done.
  - intros _ _. assert (L : (Ascii.N_of_ascii x < Ascii.N_of_ascii z)%N) by lia.
    apply N.compare_lt_iff in L. rewrite L. done.
Qed.

(** Reduce the projections of the provider's records, and nothing else. *)
Ltac projections :=
  cbn [cache cache_timestamps cache_duration stats client_calls printed
       clock_reads next_oid requests cache_hits failed_requests last_request_time
       fst snd oid items] in *.

(** The cache key of a request. *)
Definition key_of (req : Request) : string :=
  cache_key (symbols req) (timeframe req) (limit req).

(** The state in which the fetch path starts when the request is not
    served from the cache. *)
Definition missed (now : nat -> Z) (req : Request) (p : DataProvider)
    : DataProvider :=
  let reads :=
    match cache p !! key_of req, cache_timestamps p !! key_of req with
    | Some _, Some _ => S (S (clock_reads p))
    | _, _ => S (clock_reads p)
    end in
  mkProvider (cache p) (cache_timestamps p) (cache_duration p)
    (mkStats (requests (stats p) + 1) (cache_hits (stats p))
             (failed_requests (stats p)) (Some (now (clock_reads p))))
    (client_calls p) (printed p) reads (next_oid p).

(** A request whose entry is absent, or as old as the TTL or older. *)
Definition stale (now : nat -> Z) (req : Request) (p : DataProvider) : Prop :=
  cache p !! key_of req = None
  \/ cache_timestamps p !! key_of req = None
  \/ exists t, cache_timestamps p !! key_of req = Some t
               /\ cache_duration p <= now (S (clock_reads p)) - t.

(** A table of one bar at time [t], with all prices at [c]. *)
Definition one_bar (t : Z) (c : float) : DataFrame :=
  mkDF (DatetimeIndex (Some "UTC")) ["open"; "high"; "low"; "close"; "volume"]
       [mkRow t [Num c; Num c; Num c; Num c; Num 100]].

(** Two symbols with one bar each, as a client would deliver them. *)
Definition two_symbols : gmap string DataFrame :=
  list_to_map [("AAPL", one_bar 60 10); ("MSFT", one_bar 60 20)].

(** A client that delivers them at every call. *)
Definition steady_client : list Request -> Request -> Outcome (gmap string DataFrame) :=
  fun _ _ => Ret two_symbols.

(** A client that delivers once and has nothing afterwards. *)
Definition drying_client : list Request -> Request -> Outcome (gmap string DataFrame) :=
  fun before _ => match before with [] => Ret two_symbols | _ => Ret ∅ end.

(** One second between clock readings. *)
Definition ticking : nat -> Z := fun n => Z.of_nat n * 1000000.

(** The first two readings at time zero, the later ones 400 seconds on. *)
Definition jumping : nat -> Z := fun n => if (n <? 2)%nat then 0 else 400000000.

(** The same two symbols asked for in both orders. *)
Definition request_ab : Request := mkRequest ["AAPL"; "MSFT"] "1Min" 100 None None.
Definition request_ba : Request := mkRequest ["MSFT"; "AAPL"] "1Min" 100 None None.

(** What the fetch path works with: the client's answer with every table
    cleaned, or an exception (the client's, or one raised while cleaning). *)
Definition cleaned_answer (answer : Outcome (gmap string DataFrame))
    : Outcome (gmap string DataFrame) :=
  match answer with
  | Ret raw => match clean_all raw with
               | Some cleaned => Ret cleaned
               | None => Raise
               end
  | Raise => Raise
  end.

End ProviderTerms.

(** ** Strategy: a sample series *)

Module StrategyTerms.

(** Four hourly bars: the two-bar mean crosses above the three-bar mean on
    the last one. *)
Definition rising : DataFrame :=
  mkDF (DatetimeIndex (Some "UTC")) ["open"; "high"; "low"; "close"; "volume"]
       [mkRow 1 [Num 10; Num 10; Num 10; Num 10; Num 100];
        mkRow 2 [Num 8; Num 8; Num 8; Num 8; Num 100];
        mkRow 3 [Num 9; Num 9; Num 9; Num 9; Num 100];
        mkRow 4 [Num 14; Num 14; Num 14; Num 14; Num 100]].

End StrategyTerms.

(** ** Sizer: the floor of a float, a sample client *)

Module SizerTerms.
Import Trader.

(** [floor(x)] on a float, in the words of the specification: the greatest
    integer not above [x]; undefined on [nan] and the infinities. *)
Definition floor_of_float (x : float) : option Z :=
  match Prim2SF x with
  | S754_zero _ => Some 0
  | S754_finite s m e =>
      let n := if s then Z.neg m else Z.pos m in
      Some (if 0 <=? e then n * 2 ^ e else n / 2 ^ (- e))
  | S754_infinity _ => None
  | S754_nan => None
  end.

(** One bar for AAPL. *)
Definition single_bar : DataFrame :=
  mkDF (DatetimeIndex (Some "UTC")) ["open"; "high"; "low"; "close"; "volume"]
       [mkRow 60 [Num 100; Num 100; Num 100; Num 100; Num 1000]].

(** A client that accepts every order, reports an equity of 10000 and no
    open position, and has one bar for AAPL. *)
Definition accepting : Client :=
  mkClient (fun _ => Ret {[ "equity" := 10000%float ]})
           (fun _ => Ret true)
           (fun _ => Ret [])
           (fun _ _ => Ret {[ "id" := "order-1" ]})
           (fun _ _ => Ret {[ "id" := "order-2" ]})
           (fun _ _ => Ret {[ "AAPL" := single_bar ]}).

(** A buy signal with its entry price and stop-loss. *)
Definition buy_at (entry stop : float) : Strategy.Signal :=
  Strategy.mkSignal (Some "buy") (Some entry) (Some stop) None None.

(** A bot with 2% risk per trade that has read its account. *)
Definition funded_bot : TradingBot :=
  _update_account_info accepting (init ["AAPL"] [] 1 0.02 "1Min" true 20).

End SizerTerms.

(** ** Trader: journals, requests, orders, sample bots *)

Module TraderTerms.
Import Trader SizerTerms.

(** The number of [slot_taken] entries of a journal. *)
Fixpoint taken (l : list LogLine) : Z :=
  match l with
  | [] => 0
  | slot_taken _ _ :: rest => 1 + taken rest
  | _ :: rest => taken rest
  end.

(** What a journal looks like when [slots] were free: fewer slots taken
    and no early stop, or all of them taken, the last one followed by the
    stop and nothing else. *)
Definition within (slots : Z) (new : list LogLine) : Prop :=
  (taken new < slots /\ reached_maximum_stopping ∉ new)
  \/ (taken new = slots
      /\ exists pre symbol order_id,
           new = (pre ++ [slot_taken symbol order_id; reached_maximum_stopping])%list
           /\ reached_maximum_stopping ∉ pre).

(** The fields of the bot that a cycle only reads once the refresh is done. *)
Definition same_setup (b b' : TradingBot) : Prop :=
  symbols b' = symbols b /\ strategies b' = strategies b
  /\ max_positions b' = max_positions b /\ risk_per_trade b' = risk_per_trade b
  /\ time_frame b' = time_frame b /\ positions b' = positions b.

(** The request [_fetch_data_for_symbol] makes for a symbol. *)
Definition request_for (b : TradingBot) (symbol : string) : Provider.Request :=
  Provider.mkRequest [symbol] (time_frame b) 100 None None.

(** A request of the cycle: for one tracked symbol without a position, at
    the bot's own timeframe, for 100 bars. *)
Definition cycle_request (b : TradingBot) (syms : list string) (r : Provider.Request)
    : Prop :=
  exists symbol, symbol ∈ syms /\ positions b !! symbol = None
                 /\ r = request_for b symbol.

(** The orders among the client calls that open or close a position: market
    buys and position closes (a protective stop is a sell). *)
Fixpoint primary (l : list ClientCall) : Z :=
  match l with
  | [] => 0
  | create_order o :: rest =>
      (if String.eqb (ord_side o) "buy" then 1 else 0) + primary rest
  | close_position _ :: rest => 1 + primary rest
  | _ :: rest => primary rest
  end.

(** The state of the bot after the refresh that opens a cycle. *)
Definition refreshed (client : Client) (b : TradingBot) : TradingBot :=
  _update_positions client (_update_account_info client b).

(** A bot on AAPL with the 20/50 moving-average strategy, one-minute bars
    configured. *)
Definition ma_bot : TradingBot :=
  init ["AAPL"]
       [Strategy.ma_strategy Strategy.plain_rolling_mean
          (Strategy.mkMA 20 50 "MA_Crossover")]
       5 0.02 "1Min" true 20.

(** A strategy that always signals a buy at 100 with a stop at 95. *)
Definition always_buy : Strategy.Strategy :=
  Strategy.mkStrategy "always_buy" (fun _ _ => Ret (Some (buy_at 100 95)))
                      (Strategy.mkRequired "1Min" 100 1).

(** A bot with that strategy on two symbols, allowed one position. *)
Definition eager_bot : TradingBot :=
  init ["AAPL"; "MSFT"] [always_buy] 1 0.02 "1Min" true 20.

(** A client like [accepting] with a bar for every symbol asked for, whose
    [create_order] raises on a sell order: the protective stop that follows
    a market buy fails, as it does in the rate-limited client when it comes
    within the minimum interval of the buy. *)
Definition stops_raise : Client :=
  mkClient (fun _ => Ret {[ "equity" := 10000%float ]})
           (fun _ => Ret true)
           (fun _ => Ret [])
           (fun _ o => if String.eqb (ord_side o) "sell" then Raise
                       else Ret {[ "id" := "order-1" ]})
           (fun _ _ => Ret {[ "id" := "order-2" ]})
           (fun _ r => Ret (list_to_map (map (fun s => (s, single_bar))
                                             (Provider.symbols r)))).

(** The order submissions among the client calls. *)
Definition orders (l : list ClientCall) : list OrderArgs :=
  omap (fun c => match c with create_order o => Some o | _ => None end) l.

(** The interrupt arrives during the first cycle. *)
Definition stop_after_first : nat -> bool := fun round => negb (Nat.eqb round 0).

(** The bot when [run] has returned, if it does within two rounds. *)
Definition after_run : option TradingBot :=
  run accepting ProviderTerms.ticking stop_after_first 2 ma_bot.

End TraderTerms.

(** ** Trading cycle: the calls of executed signals *)

Module CycleTerms.
Import Trader SizerTerms TraderTerms.

(** The two orders of the buy branch of [_execute_signal]. *)
Definition market_buy (symbol : string) (qty : Z) : OrderArgs :=
  mkOrder symbol qty "buy" "market" None "day".

Definition protective_stop (symbol : string) (qty : Z) (stop_loss : float) : OrderArgs :=
  mkOrder symbol qty "sell" "stop" (Some stop_loss) "gtc".

(** The account shows an equity other than zero. *)
Definition funded (b : TradingBot) : Prop := PrimFloat.eqb (equity_of b) 0 = false.

(** What one executed signal sends to the client for its symbol: nothing, a
    market buy, a market buy followed by its protective stop, or a position
    close; a buy needs an account that is [funded]. *)
Inductive signal_calls (funded : Prop) (symbol : string) : list ClientCall -> Prop :=
| sends_nothing : signal_calls funded symbol []
| sends_buy qty :
    funded -> 0 < qty ->
    signal_calls funded symbol [create_order (market_buy symbol qty)]
| sends_buy_and_stop qty stop_loss :
    funded -> 0 < qty -> truthy_float stop_loss = true ->
    signal_calls funded symbol
      [create_order (market_buy symbol qty);
       create_order (protective_stop symbol qty stop_loss)]
| sends_close : signal_calls funded symbol [close_position symbol].

(** A run of executed signals, each for a symbol that is [free]. *)
Inductive signal_runs (funded : Prop) (free : string -> Prop) : list ClientCall -> Prop :=
| runs_nil : signal_runs funded free []
| runs_app symbol calls rest :
    free symbol -> signal_calls funded symbol calls -> signal_runs funded free rest ->
    signal_runs funded free (calls ++ rest).

(** A tracked symbol without a position. *)
Definition unheld (b : TradingBot) (syms : list string) (symbol : string) : Prop :=
  symbol ∈ syms /\ positions b !! symbol = None.

(** A client whose clock says that the market is closed; it would accept
    every order. *)
Definition closed_market : Client :=
  mkClient (fun _ => Ret {[ "equity" := 10000%float ]})
           (fun _ => Ret false)
           (fun _ => Ret [])
           (fun _ _ => Ret {[ "id" := "order-1" ]})
           (fun _ _ => Ret {[ "id" := "order-2" ]})
           (fun _ _ => Ret {[ "AAPL" := single_bar ]}).

(** The interrupt arrives during the third round. *)
Definition stop_in_third : nat -> bool := fun round => Nat.leb 3 round.


End CycleTerms.

(** ** Fetcher: standard tables, requests within bounds *)

Module FetchTerms.
Import Fetcher.

(** A table as the fetcher hands it out: a UTC [DatetimeIndex] in ascending
    order over the five required columns, every cell a float. *)
Definition standard (df : DataFrame) : Prop :=
  kind df = DatetimeIndex (Some "UTC")
  /\ Sorted Z.le (keys df)
  /\ columns df = required_cols
  /\ Forall (fun r => length (cells r) = 5%nat
                      /\ Forall (fun c => exists x, c = Num x) (cells r)) (rows df).

(** What the fetcher may ask the client when it is asked for [lookback]
    bars of [symbol] at [tf]: that symbol, one of the three feeds, at most
    1000 bars and no more than [lookback], at [tf] or further down the
    chain. *)
Definition within_request (symbol : string) (lookback : Z) (tf : string) (c : Call) : Prop :=
  call_symbol c = symbol
  /\ limit (call_params c) <= 1000
  /\ limit (call_params c) <= lookback
  /\ feed (call_params c) ∈ feeds_to_try
  /\ (timeframe (call_params c) = tf
      \/ (rank (timeframe (call_params c)) < rank tf)%nat).

(** The feed a round of the feed loop puts in the parameters. *)
Definition feed_of (f : option string) : option string :=
  match f with
  | Some s => if truthy_string s then Some s else None
  | None => None
  end.

(** A client that has the same three hourly bars for every request. *)
Definition three_bars : DataFrame :=
  mkDF (DatetimeIndex None) ["open"; "high"; "low"; "close"; "volume"]
       [FrameTerms.bar 180 3 3 3 3 30; FrameTerms.bar 60 1 1 1 1 10;
        FrameTerms.bar 120 2 2 2 2 20].

Definition always_three : list Call -> Call -> Outcome (option DataFrame) :=
  fun _ _ => Ret (Some three_bars).

(** A client that has these bars at the daily timeframe only. *)
Definition daily_only : list Call -> Call -> Outcome (option DataFrame) :=
  fun _ c => if String.eqb (timeframe (call_params c)) "1D"
             then Ret (Some three_bars) else Ret None.

End FetchTerms.

(** ** Provider queries: sequences of operations, cache order, counters *)

Module QueryTerms.
Import Provider ProviderTerms Queries.

(** What a caller can do with a data provider. *)
Inductive Action : Type :=
| ask_bars (req : Request) (use_cache : bool)
| ask_latest_price (symbol : string)
| ask_daily_bars (syms : list string) (lookback_days : Z)
| ask_multi_timeframe (symbol : string) (timeframes : list string) (lim : Z)
| ask_clear_cache
| ask_close.

Section Client.
Variable client_get_bars : list Request -> Request -> Outcome (gmap string DataFrame).
Variable now : nat -> Z.
Variable isoformat : Z -> string.

(** The provider after an action. *)
Definition perform (p : DataProvider) (a : Action) : DataProvider :=
  match a with
  | ask_bars req use_cache => (get_bars client_get_bars now req use_cache p).1
  | ask_latest_price symbol => (get_latest_price client_get_bars now symbol p).1
  | ask_daily_bars syms days =>
      (get_daily_bars client_get_bars now isoformat syms days p).1
  | ask_multi_timeframe symbol tfs lim =>
      (get_multi_timeframe_data client_get_bars now symbol tfs lim p).1
  | ask_clear_cache => (await clear_cache p).1
  | ask_close => (await close p).1
  end.

(** A new provider after a sequence of actions. *)
Definition after (actions : list Action) : DataProvider := foldl perform init actions.

End Client.

(** The cache is in order: an entry and its timestamp go together, the
    timestamp is a reading of the clock taken earlier, no entry is an empty
    dictionary, and there are no more entries than calls made to the
    client. *)
Definition cache_in_order (now : nat -> Z) (p : DataProvider) : Prop :=
  (forall k, is_Some (cache p !! k) <-> is_Some (cache_timestamps p !! k))
  /\ (forall k t, cache_timestamps p !! k = Some t ->
                  exists i, (i < clock_reads p)%nat /\ t = now i)
  /\ (forall k d, cache p !! k = Some d -> dict_truthy (items d) = true)
  /\ (size (cache p) <= length (client_calls p))%nat.

(** The counters add up: every request was a cache hit or went to the
    client, and a failed request is one that went to the client. *)
Definition counters_add_up (p : DataProvider) : Prop :=
  requests (stats p) = cache_hits (stats p) + Z.of_nat (length (client_calls p))
  /\ 0 <= cache_hits (stats p)
  /\ 0 <= failed_requests (stats p) <= Z.of_nat (length (client_calls p)).

(** What one call of [get_bars] does to the provider: it answers from the
    cache, or it asks the client and leaves the cache alone, or it asks the
    client and stores the answer. *)
Inductive served (now : nat -> Z) (req : Request) (use_cache : bool)
    (p p' : DataProvider) (d : DictObj) : Prop :=
| from_cache :
    cache p !! key_of req = Some d -> is_Some (cache_timestamps p !! key_of req) ->
    cache p' = cache p -> cache_timestamps p' = cache_timestamps p ->
    client_calls p' = client_calls p ->
    cache_hits (stats p') = cache_hits (stats p) + 1 ->
    failed_requests (stats p') = failed_requests (stats p) ->
    use_cache = true ->
    served now req use_cache p p' d
| from_client_kept :
    (use_cache = true -> dict_truthy (items d) = false) ->
    cache p' = cache p -> cache_timestamps p' = cache_timestamps p ->
    client_calls p' = (client_calls p ++ [req])%list ->
    cache_hits (stats p') = cache_hits (stats p) ->
    failed_requests (stats p) <= failed_requests (stats p')
      <= failed_requests (stats p) + 1 ->
    served now req use_cache p p' d
| from_client_stored i :
    cache p' = <[key_of req := d]> (cache p) ->
    cache_timestamps p' = <[key_of req := now i]> (cache_timestamps p) ->
    (i < clock_reads p')%nat -> dict_truthy (items d) = true ->
    client_calls p' = (client_calls p ++ [req])%list ->
    cache_hits (stats p') = cache_hits (stats p) ->
    failed_requests (stats p') = failed_requests (stats p) ->
    use_cache = true ->
    served now req use_cache p p' d.

(** The provider may be [kept] from [p] to [p']: the clock has not gone back,
    and the cache and the counters are in order afterwards if they were
    before. *)
Definition kept (now : nat -> Z) (p p' : DataProvider) : Prop :=
  (clock_reads p <= clock_reads p')%nat
  /\ (cache_in_order now p -> cache_in_order now p')
  /\ (counters_add_up p -> counters_add_up p').

(** The requests [get_latest_price] and [get_daily_bars] make. *)
Definition price_request (symbol : string) : Request :=
  mkRequest [symbol] "1Min" 1 None None.

Definition daily_request (syms : list string) (start end_ : option string) : Request :=
  mkRequest syms "1D" 100 start end_.

(** A client with a new price at every call: 100 at the first, one more at
    each later one. *)
Definition moving_price : list Request -> Request -> Outcome (gmap string DataFrame) :=
  fun before _ =>
    Ret {[ "AAPL" := one_bar 60 (float_of_int (100 + Z.of_nat (length before))) ]}.

(** Timestamps in ISO format are out of reach here; any text does. *)
Definition plain_iso : Z -> string := fun t => str t.

(** A clock that starts in 2024 and ticks every second. *)
Definition year_2024 : nat -> Z := fun n => 1704067200000000 + Z.of_nat n * 1000000.

End QueryTerms.

(** ** Retrying client: backoff, log entries, sample REST libraries *)

Module ApiTerms.
Import Api.

(** The waits of the exponential backoff before the attempts 2 to [k + 1],
    counted from attempt [from]: [base ^ from], [base ^ (from + 1)], ... *)
Definition backoff (base : Z) (from : Z) (k : nat) : list Z :=
  map (fun i : nat => base ^ (from + Z.of_nat i)) (seq 0 k).

(** A wait [time.sleep] accepts. *)
Definition can_sleep (secs : Z) : Prop := 0 <= secs <= max_sleep.

(** The number of attempts [retry_api_call] allows. *)
Definition allowed (self : AlpacaClient) (retries : option Z) : Z :=
  int_or retries (max_retries self).

(** The log entries of [retry_api_call]. *)
Definition retry_entry (e : Logged) : Prop :=
  match e with
  | api_call_failed _ | retrying_in _ => True
  | _ => False
  end.

(** The entries of the two [APIError] branches of [get_position]. *)
Definition api_error_entry (e : Logged) : Prop :=
  match e with
  | no_position_found _ | position_error _ (Some _) => True
  | _ => False
  end.

(** The sum of a list of waits. *)
Definition total (l : list Z) : Z := foldr Z.add 0 l.

(** The default client of the file: three attempts, base two. *)
Definition default_client : AlpacaClient :=
  mkAlpacaClient "key" "secret" "https://paper-api.alpaca.markets" 3 2.

(** A REST library that answers every call with 404. *)
Definition not_found : Rest :=
  mkRest (fun _ => Raised (APIError 404)) (fun _ _ _ => Raised (APIError 404))
         (fun _ _ => Raised (APIError 404)) (fun _ _ => Raised (APIError 404)).

(** A REST library that fails twice and works from the third call on. *)
Definition third_time_lucky : Rest :=
  let after {T} (v : T) (h : list RestCall) : Try T :=
    if (length h <? 2)%nat then Raised OtherError else Returned v in
  mkRest (after (mkAccount "ACTIVE" (Num 1000)))
         (fun h _ _ => after FetchTerms.three_bars h)
         (fun h _ => after (mkOrderEntity "order-1" "accepted") h)
         (fun h _ => after (mkPositionEntity "10") h).

(** An environment without credentials, and one with them. *)
Definition no_env : string -> option string := fun _ => None.
Definition with_env : string -> option string :=
  fun name => if String.eqb name "ALPACA_KEY" then Some "key"
              else if String.eqb name "ALPACA_SECRET" then Some "secret" else None.

End ApiTerms.

(** ** Rate-limited client: spacing of requests, bars by symbol *)

Module AlpacaTerms.
Import Alpaca.

(** The request comes too soon: the clock reads less than the minimum
    interval after the last request. *)
Definition too_soon (now : nat -> float) (st : State) : bool :=
  PrimFloat.ltb (now (clock_reads st) - last_request_time st)%float min_request_interval.

(** [start] and [end] as [get_bars] passes them on: only when they are
    given and not empty. *)
Definition given (x : option string) : option string :=
  match x with
  | Some s => if truthy_string s then Some s else None
  | None => None
  end.

(** The columns of the tables [get_bars] builds. *)
Definition bar_columns : list string := ["open"; "high"; "low"; "close"; "volume"].

(** The bars of a symbol among those the library handed out. *)
Definition bars_of (symbol : string) (bars : list Bar) : list Bar :=
  filter (fun b => bar_symbol b = symbol) bars.

(** An order of the bot as [create_order] receives it: the arguments the
    bot does not give keep their defaults. *)
Definition as_request (o : Trader.OrderArgs) : OrderRequest :=
  mkOrderRequest (Trader.ord_symbol o) (Trader.ord_qty o) (Trader.ord_side o)
                 (Trader.ord_type o) (Trader.ord_time_in_force o)
                 None (Trader.ord_stop_price o) None false.

(** A clock that starts in 2024 and advances by a second at each reading,
    and one that advances by a hundredth of a second. *)
Definition seconds : nat -> float :=
  fun n => (1704067200 + float_of_int (Z.of_nat n))%float.
Definition hundredths : nat -> float :=
  fun n => (1704067200 + float_of_int (Z.of_nat n) * 0.01)%float.

(** A REST library with one good bar for AAPL and one for MSFT whose close
    cannot be read. *)
Definition good_bar : Bar :=
  mkBar "AAPL" (Int 60) (Num 10) (Num 11) (Num 9) (Num 10) (Int 100).
Definition bad_bar : Bar :=
  mkBar "MSFT" (Int 60) (Num 10) (Num 11) (Num 9) (Obj "n/a") (Int 100).
Definition mixed_bars : list RestCall -> list string -> BarParams -> Outcome (list Bar) :=
  fun _ _ _ => Ret [good_bar; bad_bar].

(** The table of [good_bar]. *)
Definition good_table : DataFrame :=
  mkDF (DatetimeIndex None) bar_columns
       [mkRow 60 [Num 10; Num 11; Num 9; Num 10; Int 100]].

(** The rest of a REST library that accepts every order; an order entity is
    its id, and so is the dictionary built from it. *)
Definition accept_order : list RestCall -> OrderParams -> Outcome string :=
  fun _ _ => Ret "order-1".
Definition accept_close : list RestCall -> string -> Outcome string :=
  fun _ _ => Ret "order-2".
Definition id_dict : string -> Outcome string := fun id => Ret id.

(** The client after a first request, on the clock that advances by a
    hundredth of a second. *)
Definition second_request : State :=
  (create_order hundredths string accept_order string id_dict
     (mkOrderRequest "AAPL" 40 "buy" "market" "day" None None None false) init).1.

End AlpacaTerms.

(** ** Feed diagnostic: probes, answers, consistent results *)

Module DiagnosticTerms.
Import Fetcher Diagnostics.

(** The name the diagnostic gives a feed. *)
Definition feed_name (f : option string) : string :=
  match f with
  | Some s => if truthy_string s then s else "default"
  | None => "default"
  end.

(** The probes of the diagnostic, in the order it makes them: for each
    timeframe the three feeds, each asked for [lookback] bars. *)
Definition probes (symbol : string) (lookback : Z) (tfs : list string) : list Call :=
  flat_map (fun tf => map (fun f => mkCall symbol (mkParams lookback tf f None)) feeds) tfs.

(** The number of bars a probe gets: the rows of the table, 0 when the
    client raises, returns [None] or returns an empty table. *)
Definition bars_got (a : Outcome (option DataFrame)) : Z :=
  match a with
  | Ret (Some df) => if empty df then 0 else len df
  | _ => 0
  end.

(** What the client gives when [cs] are called in turn after the calls
    [h]: each call with the number of bars it gets. *)
Fixpoint answers (client : list Call -> Call -> Outcome (option DataFrame))
    (h : list Call) (cs : list Call) : list (Call * Z) :=
  match cs with
  | [] => []
  | c :: rest => (c, bars_got (client h c)) :: answers client (h ++ [c]) rest
  end.

(** The feed and timeframe of a probe. *)
Definition combination_of (c : Call) : Combination :=
  mkCombination (feed_name (feed (call_params c))) (timeframe (call_params c)).

(** The running recommendation: a probe replaces it when it gets more bars
    than the highest count so far. *)
Definition step (acc : Z * option Combination) (x : Call * Z) : Z * option Combination :=
  if acc.1 <? x.2 then (x.2, Some (combination_of x.1)) else acc.

(** The entries of a results table under a highest count [hi]: none above
    it, and [success] set exactly on those with bars. *)
Definition sound_entries (hi : Z) (d : gmap string Entry) : Prop :=
  forall k e, d !! k = Some e ->
              0 <= max_bars e <= hi /\ (success e = true <-> 0 < max_bars e).

(** The results agree with each other: no entry above the highest count;
    the recommended feed and timeframe both show the highest count; no
    recommendation exactly when the highest count is 0. *)
Definition consistent (r : Results) : Prop :=
  sound_entries (highest_bar_count r) (feed_results r)
  /\ sound_entries (highest_bar_count r) (timeframe_results r)
  /\ match best_combination r with
     | Some b =>
         0 < highest_bar_count r
         /\ (exists e, feed_results r !! best_feed b = Some e
                       /\ max_bars e = highest_bar_count r)
         /\ (exists e, timeframe_results r !! best_timeframe b = Some e
                       /\ max_bars e = highest_bar_count r)
     | None => highest_bar_count r = 0
     end.

(** A client with three bars on the default feed at 1D, two on iex at 1H
    and nothing else. *)
Definition two_bars : DataFrame :=
  mkDF (DatetimeIndex None) ["open"; "high"; "low"; "close"; "volume"]
       [FrameTerms.bar 60 1 1 1 1 10; FrameTerms.bar 120 2 2 2 2 20].

Definition patchy : list Call -> Call -> Outcome (option DataFrame) :=
  fun _ c =>
    match feed (call_params c) with
    | None => if String.eqb (timeframe (call_params c)) "1D"
              then Ret (Some FetchTerms.three_bars) else Ret None
    | Some f => if String.eqb f "iex" && String.eqb (timeframe (call_params c)) "1H"
                then Ret (Some two_bars) else Raise
    end.

End DiagnosticTerms.

(** * Properties *)

(** ** The fetcher's fallback chain and its termination *)

Module FetcherFacts.
Import Fetcher FetcherTerms.

(** The fallback table, case by case: no entry past the front of the chain,
    or a first fallback one rank below. *)
Lemma fallbacks_cases (tf : string) :
  default [] (fallbacks !! tf) = []
  \/ exists tf' rest, default [] (fallbacks !! tf) = tf' :: rest
                      /\ rank tf = S (rank tf')
                      /\ (tf, tf') ∈ [("1Min","2Min"); ("2Min","5Min"); ("5Min","15Min");
                                      ("15Min","30Min"); ("30Min","1H"); ("1H","1D")].
Proof.
  unfold fallbacks. cbn [list_to_map foldr uncurry fst snd].
  repeat (rewrite lookup_insert; case_decide;
          [ subst tf; first [ left; reflexivity
                            | right; do 2 eexists; split; [reflexivity|];
                              split; [reflexivity | repeat constructor] ] | ]).
  rewrite lookup_empty. left. reflexivity.
Qed.

(** Merging repeats keeps the first element. *)
Lemma merge_runs_head (l : list string) : head (merge_runs l) = head l.
Proof.
  induction l as [|x l IH]; [reflexivity|]. destruct l as [|y r]; [reflexivity|].
  change (merge_runs (x :: y :: r))
    with (if String.eqb x y then merge_runs (y :: r) else x :: merge_runs (y :: r)).
  destruct (String.eqb_spec x y) as [-> | N]; [exact IH | reflexivity].
Qed.

(** A run of equal timeframes in front of a list merges into one, or into
    the list when that starts with the same timeframe. *)
Lemma merge_runs_block (x : string) (l1 l2 : list string) :
  l1 <> [] -> Forall (fun y => y = x) l1 ->
  merge_runs (l1 ++ l2)
  = match head l2 with
    | Some y => if String.eqb x y then merge_runs l2 else x :: merge_runs l2
    | None => [x]
    end.
Proof.
  induction l1 as [|a l1 IH]; [congruence|]. intros _ F.
  apply Forall_cons in F as [-> F]. destruct l1 as [|b l1].
  - destruct l2 as [|y r]; reflexivity.
  - pose proof F as F'. apply Forall_cons in F' as [-> _].
    change (merge_runs ((x :: x :: l1) ++ l2))
      with (if String.eqb x x then merge_runs ((x :: l1) ++ l2)
            else x :: merge_runs ((x :: l1) ++ l2)).
    rewrite String.eqb_refl. apply IH; [discriminate | exact F].
Qed.

Lemma merge_runs_all (x : string) (l : list string) :
  l <> [] -> Forall (fun y => y = x) l -> merge_runs l = [x].
Proof.
  intros N F. rewrite <- (app_nil_r l). rewrite (merge_runs_block x l [] N F). reflexivity.
Qed.

(** The path from a timeframe starts there, and ends there when the table
    has no fallback for it. *)
Lemma path_from_end (n : nat) (tf : string) :
  next_timeframe tf = None -> path_from n tf = [tf].
Proof. intros E. destruct n; simpl; rewrite ?E; reflexivity. Qed.

Lemma path_from_step (n : nat) (tf tf' : string) :
  next_timeframe tf = Some tf' -> path_from (S n) tf = tf :: path_from n tf'.
Proof. intros E. simpl. rewrite E. reflexivity. Qed.

Section Client.
Variable client_get_bars : list Call -> Call -> Outcome (option DataFrame).
Variable now : nat -> Z.

(** One round of the feed loop calls the client at least once, always for
    the symbol and with the limit and timeframe of the attempt. *)
Lemma try_feed_level symbol lookback tf mr f params st :
  let r := try_feed client_get_bars now symbol lookback tf mr f params st in
  limit r.1.1 = limit params /\ timeframe r.1.1 = timeframe params
  /\ exists c more,
       calls r.1.2 = (calls st ++ c :: more)%list
       /\ Forall (at_level symbol (limit params) (timeframe params)) (c :: more).
Proof.
  cbv zeta. unfold try_feed, paginate, call_client, read_clock, emit, with_stats, at_level.
  repeat (case_match; simplify_eq/=);
    (split; [reflexivity|]); (split; [reflexivity|]);
    first [ eexists _, []; split; [reflexivity|]; repeat constructor
          | eexists _, [_]; rewrite <- (assoc_L app); split; [reflexivity|];
            repeat constructor ].
Qed.

(** So does the feed loop, when there is a feed to try. *)
Lemma try_feeds_level symbol lookback tf mr feeds :
  forall params st,
    let r := try_feeds client_get_bars now symbol lookback tf mr feeds params st in
    exists new,
      calls r.1 = (calls st ++ new)%list
      /\ (feeds <> [] -> new <> [])
      /\ Forall (at_level symbol (limit params) (timeframe params)) new.
Proof.
  induction feeds as [|f feeds IH]; intros params st; cbv zeta; simpl.
  - exists []. rewrite app_nil_r. split; [reflexivity|]. split; [congruence | constructor].
  - pose proof (try_feed_level symbol lookback tf mr f params st)
      as (L & T & c & more & C1 & F1).
    destruct (try_feed _ _ _ _ _ _ _ _ _) as [[params' st'] [df|]]; simpl in *.
    + exists (c :: more). split; [exact C1|]. split; [discriminate | exact F1].
    + specialize (IH params' st'). cbv zeta in IH. destruct IH as (n2 & C2 & _ & F2).
      exists ((c :: more) ++ n2)%list. rewrite C2, C1, <- (assoc_L app).
      split; [reflexivity|]. split; [discriminate|].
      apply Forall_app. split; [exact F1|]. rewrite <- L, <- T. exact F2.
Qed.

(** One round of the feed loop emits feed events only. *)
Lemma try_feed_events symbol lookback tf mr f params st :
  exists new,
    events (try_feed client_get_bars now symbol lookback tf mr f params st).1.2
    = (events st ++ new)%list /\ Forall feed_event new.
Proof.
  unfold try_feed, paginate, call_client, read_clock, emit, with_stats.
  repeat (case_match; simplify_eq/=);
    repeat rewrite <- (assoc_L app);
    eexists; (split; [first [reflexivity | symmetry; apply app_nil_r]|]);
    repeat constructor.
Qed.

(** So does the whole feed loop. *)
Lemma try_feeds_events symbol lookback tf mr feeds params st :
  exists new,
    events (try_feeds client_get_bars now symbol lookback tf mr feeds params st).1
    = (events st ++ new)%list /\ Forall feed_event new.
Proof.
  revert params st. induction feeds as [|f feeds IH]; intros params st; simpl.
  - exists []. split; [symmetry; apply app_nil_r | constructor].
  - destruct (try_feed_events symbol lookback tf mr f params st) as (n1 & E1 & F1).
    destruct (try_feed _ _ _ _ _ _ _ _ _) as [[params' st'] [df|]]; simpl in *.
    + eauto.
    + destruct (IH params' st') as (n2 & E2 & F2).
      exists (n1 ++ n2)%list. split.
      * rewrite E2, E1, (assoc_L app). reflexivity.
      * apply Forall_app; auto.
Qed.

(** Feed events add no timeframe step *)
Lemma fallback_steps_feed l new :
  Forall feed_event new -> fallback_steps (l ++ new) = fallback_steps l.
Proof.
  intros F. unfold fallback_steps. rewrite omap_app.
  induction F as [|e new He _ IH]; [apply app_nil_r|].
  destruct e; simpl in *; tauto.
Qed.

(** and no size reduction. *)
Lemma reductions_feed l new :
  Forall feed_event new -> reductions (l ++ new) = reductions l.
Proof.
  intros F. unfold reductions. rewrite omap_app.
  induction F as [|e new He _ IH]; [apply app_nil_r|].
  destruct e; simpl in *; tauto.
Qed.

(** With the fuel it needs, [get_bars] returns; it reduces the request size at
    most once, to at most 100, and only from a lookback above 100. *)
Lemma get_bars_enough_fuel fuel :
  forall symbol lookback tf mr st,
    (fuel_needed tf lookback <= fuel)%nat ->
    exists st' res new,
      get_bars client_get_bars now fuel symbol lookback tf mr st = Some (st', res)
      /\ reductions (events st') = (reductions (events st) ++ new)%list
      /\ (length new <= if (100 <? lookback)%Z then 1 else 0)%nat
      /\ Forall (fun p => p.2 <= 100) new.
Proof.
  induction fuel as [|fuel IH]; intros symbol lookback tf mr st Hf.
  { unfold fuel_needed in Hf. lia. }
  cbn [get_bars].
  set (st0 := count_attempt st).
  destruct (try_feeds_events symbol lookback tf (int_or mr lookback) feeds_to_try
              (mkParams (Z.min 1000 lookback) tf None None) st0) as (n1 & E1 & F1).
  destruct (try_feeds _ _ _ _ _ _ _ _ _) as [st1 [df|]]; simpl in E1.
  - exists st1, (Some df), []. rewrite E1, reductions_feed by done.
    repeat split; [symmetry; apply app_nil_r | simpl; case_match; lia | constructor].
  - assert (R1 : reductions (events st1) = reductions (events st)).
    { rewrite E1. apply reductions_feed, F1. }
    unfold _try_timeframe_fallbacks.
    destruct (fallbacks_cases tf) as [-> | (tf' & rest & -> & Hr & _)].
    + destruct (String.eqb tf "1D" && (100 <? lookback)) eqn:Hc.
      * apply andb_true_iff in Hc as [Htf Hl]. apply String.eqb_eq in Htf. subst tf.
        destruct (IH symbol (Z.min 100 (int_or mr lookback)) "1D"
                    (Some (int_or mr lookback))
                    (emit (request_size_reduction symbol lookback
                             (Z.min 100 (int_or mr lookback))) st1))
          as (st' & res & new & -> & E & L & F).
        { unfold fuel_needed in *. rewrite Hl in Hf.
          replace (100 <? Z.min 100 (int_or mr lookback)) with false; [simpl in *; lia|].
          symmetry. apply Z.ltb_ge. lia. }
        replace (100 <? Z.min 100 (int_or mr lookback)) with false in L
          by (symmetry; apply Z.ltb_ge; lia).
        destruct new; [|simpl in L; lia].
        exists st', res, [(lookback, Z.min 100 (int_or mr lookback))].
        split; [reflexivity|]. rewrite Hl. split; [|split; [simpl; lia|]].
        -- rewrite E, app_nil_r. unfold emit, reductions; simpl.
           rewrite omap_app. simpl. fold (reductions (events st1)). rewrite R1. done.
        -- repeat constructor. simpl. lia.
      * eexists _, None, []. split; [reflexivity|].
        unfold emit; simpl. split; [|split; [case_match; lia | constructor]].
        unfold reductions. rewrite omap_app. simpl.
        fold (reductions (events st1)). rewrite R1. done.
    + destruct (IH symbol lookback tf' (Some (int_or mr lookback))
                  (emit (timeframe_fallback symbol tf tf') st1))
        as (st' & res & new & -> & E & L & F).
      { unfold fuel_needed in *. lia. }
      exists st', res, new. split; [reflexivity|]. split; [|done].
      rewrite E. f_equal. unfold emit, reductions; simpl. rewrite omap_app. simpl.
      fold (reductions (events st1)). rewrite R1. apply app_nil_r.
Qed.

(** Eight units are always enough. *)
Lemma fuel_needed_bound tf lookback : (fuel_needed tf lookback <= 8)%nat.
Proof.
  unfold fuel_needed, rank.
  assert (forall i, position tf chain = Some i -> (i <= 6)%nat) as H.
  { unfold chain. simpl. intros i.
    repeat (case_match; [intros [= <-]; lia|]).
    simpl. discriminate. }
  destruct (position tf chain) as [i|] eqn:E; [specialize (H i eq_refl)|];
    case_match; lia.
Qed.

(** More fuel does not change a result. *)
Lemma get_bars_fuel_mono fuel :
  forall symbol lookback tf mr st r,
    get_bars client_get_bars now fuel symbol lookback tf mr st = Some r ->
    get_bars client_get_bars now (S fuel) symbol lookback tf mr st = Some r.
Proof.
  induction fuel as [|fuel IH]; intros symbol lookback tf mr st r; [discriminate|].
  intros H. cbn [get_bars] in H. change (get_bars client_get_bars now (S (S fuel)))
    with (fun symbol lookback tf mr st =>
            let st := count_attempt st in
            let m := int_or mr lookback in
            match try_feeds client_get_bars now symbol lookback tf m feeds_to_try
                    (mkParams (Z.min 1000 lookback) tf None None) st with
            | (st, Some bars_df) => Some (st, Some bars_df)
            | (st, None) =>
                _try_timeframe_fallbacks (get_bars client_get_bars now (S fuel))
                  symbol lookback tf m st
            end).
  cbv beta zeta. destruct (try_feeds _ _ _ _ _ _ _ _ _) as [st1 [df|]]; [exact H|].
  unfold _try_timeframe_fallbacks in *.
  destruct (default [] (fallbacks !! tf)) as [|tf' rest].
  - destruct (String.eqb tf "1D" && (100 <? lookback)); [apply IH|]; exact H.
  - apply IH, H.
Qed.

Lemma get_bars_more_fuel k :
  forall fuel symbol lookback tf mr st r,
    get_bars client_get_bars now fuel symbol lookback tf mr st = Some r ->
    get_bars client_get_bars now (fuel + k) symbol lookback tf mr st = Some r.
Proof.
  induction k as [|k IH]; intros fuel symbol lookback tf mr st r H.
  - rewrite Nat.add_0_r. exact H.
  - rewrite Nat.add_succ_r. apply get_bars_fuel_mono, IH, H.
Qed.

(** A fetch that fails altogether has logged every step from its timeframe
    to the end of the chain, in order. *)
Lemma get_bars_failure_steps fuel :
  forall symbol lookback tf mr st st',
    get_bars client_get_bars now fuel symbol lookback tf mr st = Some (st', None) ->
    fallback_steps (events st')
    = (fallback_steps (events st) ++ steps_from (rank tf) tf)%list.
Proof.
  induction fuel as [|fuel IH]; intros symbol lookback tf mr st st'; [discriminate|].
  cbn [get_bars].
  destruct (try_feeds_events symbol lookback tf (int_or mr lookback) feeds_to_try
              (mkParams (Z.min 1000 lookback) tf None None) (count_attempt st))
    as (n1 & E1 & F1).
  destruct (try_feeds _ _ _ _ _ _ _ _ _) as [st1 [df|]]; simpl in E1; [discriminate|].
  assert (R1 : fallback_steps (events st1) = fallback_steps (events st)).
  { rewrite E1. apply fallback_steps_feed, F1. }
  unfold _try_timeframe_fallbacks.
  destruct (fallbacks_cases tf) as [E | (tf' & rest & E & Hr & _)].
  - assert (steps_from (rank tf) tf = []) as ->.
    { destruct (rank tf); [reflexivity|]. simpl. unfold next_timeframe.
      rewrite E. reflexivity. }
    rewrite E, app_nil_r.
    destruct (String.eqb tf "1D" && (100 <? lookback)) eqn:Hc.
    + apply andb_true_iff in Hc as [Htf _]. apply String.eqb_eq in Htf. subst tf.
      intros H. apply IH in H. rewrite H. simpl. rewrite app_nil_r.
      unfold fallback_steps. rewrite omap_app. simpl.
      fold (fallback_steps (events st1)). rewrite R1. apply app_nil_r.
    + intros [= <-]. simpl. unfold fallback_steps. rewrite omap_app. simpl.
      fold (fallback_steps (events st1)). rewrite R1. apply app_nil_r.
  - rewrite E. intros H. apply IH in H. rewrite H, Hr. simpl.
    unfold next_timeframe at 1. rewrite E. simpl.
    unfold fallback_steps at 1. rewrite omap_app. simpl.
    fold (fallback_steps (events st1)). rewrite R1, <- (assoc_L app). reflexivity.
Qed.

(** The attempts of a fetch, read off its client calls: the first call is
    for the symbol at the requested timeframe, and the timeframes that
    follow go down the chain one step at a time, to its end when the fetch
    fails altogether. *)
Lemma get_bars_path fuel :
  forall symbol lookback tf mr st st' res,
    get_bars client_get_bars now fuel symbol lookback tf mr st = Some (st', res) ->
    exists c more,
      calls st' = (calls st ++ c :: more)%list
      /\ at_level symbol (Z.min 1000 lookback) tf c
      /\ timeframes_of (c :: more) `prefix_of` path_from (rank tf) tf
      /\ (res = None -> timeframes_of (c :: more) = path_from (rank tf) tf).
Proof.
  induction fuel as [|fuel IH]; intros symbol lookback tf mr st st' res; [discriminate|].
  cbn [get_bars].
  pose proof (try_feeds_level symbol lookback tf (int_or mr lookback) feeds_to_try
                (mkParams (Z.min 1000 lookback) tf None None) (count_attempt st))
    as (new1 & C1 & N1 & F1). cbv zeta in C1.
  destruct (try_feeds _ _ _ _ _ _ _ _ _) as [st1 [df|]]; cbn [fst snd] in C1;
    cbn [limit timeframe] in F1;
    (destruct new1 as [|c more1]; [exfalso; apply N1; [discriminate | reflexivity]|]).
  - intros [= <- <-]. exists c, more1. split; [exact C1|].
    split; [apply (Forall_inv F1)|]. split; [|discriminate].
    unfold timeframes_of. rewrite (merge_runs_all tf).
    + destruct (rank tf); simpl; apply prefix_cons, prefix_nil.
    + discriminate.
    + apply Forall_fmap. eapply Forall_impl; [exact F1|]. intros ? (_ & _ & T). exact T.
  - assert (A1 : at_level symbol (Z.min 1000 lookback) tf c) by apply (Forall_inv F1).
    assert (T1 : Forall (fun y => y = tf)
                   (map (fun c => timeframe (call_params c)) (c :: more1))).
    { apply Forall_fmap. eapply Forall_impl; [exact F1|]. intros ? (_ & _ & T). exact T. }
    assert (B : forall l2,
              merge_runs (map (fun c => timeframe (call_params c)) ((c :: more1) ++ l2))
              = match head (map (fun c => timeframe (call_params c)) l2) with
                | Some y => if String.eqb tf y
                            then merge_runs (map (fun c => timeframe (call_params c)) l2)
                            else tf :: merge_runs (map (fun c => timeframe (call_params c)) l2)
                | None => [tf]
                end).
    { intros l2. rewrite map_app. apply merge_runs_block; [discriminate | exact T1]. }
    unfold _try_timeframe_fallbacks.
    destruct (fallbacks_cases tf) as [E | (tf' & rest & E & Hr & _)]; rewrite E.
    + destruct (String.eqb tf "1D" && (100 <? lookback)) eqn:Hc.
      * apply andb_true_iff in Hc as [Htf _]. apply String.eqb_eq in Htf. subst tf.
        intros H. apply IH in H as (c2 & more2 & C2 & A2 & P2 & Q2).
        exists c, (more1 ++ c2 :: more2)%list.
        split; [rewrite C2; simpl; rewrite C1, <- (assoc_L app); reflexivity|].
        split; [exact A1|].
        assert (M : timeframes_of (c :: more1 ++ c2 :: more2)
                    = timeframes_of (c2 :: more2)).
        { unfold timeframes_of.
          change (c :: more1 ++ c2 :: more2)%list with ((c :: more1) ++ c2 :: more2)%list.
          rewrite (B (c2 :: more2)). cbn [map head].
          destruct A2 as (_ & _ & ->). reflexivity. }
        rewrite M. split; [exact P2 | exact Q2].
      * intros [= <- <-]. exists c, more1. split; [exact C1|]. split; [exact A1|].
        assert (M : timeframes_of (c :: more1) = path_from (rank tf) tf).
        { unfold timeframes_of. rewrite (merge_runs_all tf); [|discriminate | exact T1].
          symmetry. apply path_from_end. unfold next_timeframe. rewrite E. reflexivity. }
        rewrite M. split; [reflexivity | reflexivity].
    + intros H. apply IH in H as (c2 & more2 & C2 & A2 & P2 & Q2).
      exists c, (more1 ++ c2 :: more2)%list.
      split; [rewrite C2; simpl; rewrite C1, <- (assoc_L app); reflexivity|].
      split; [exact A1|].
      assert (N : String.eqb tf tf' = false).
      { apply String.eqb_neq. intros ->. lia. }
      assert (M : timeframes_of (c :: more1 ++ c2 :: more2)
                  = tf :: timeframes_of (c2 :: more2)).
      { unfold timeframes_of.
        change (c :: more1 ++ c2 :: more2)%list with ((c :: more1) ++ c2 :: more2)%list.
        rewrite (B (c2 :: more2)). cbn [map head].
        destruct A2 as (_ & _ & ->). rewrite N. reflexivity. }
      rewrite M, Hr, (path_from_step _ tf tf')
        by (unfold next_timeframe; rewrite E; reflexivity).
      split; [apply prefix_cons, P2 | intros R; rewrite (Q2 R); reflexivity].
Qed.

End Client.

(** The first fallback of the table is the next element of the chain, for
    every string. *)
Lemma next_timeframe_chain_next (tf : string) : next_timeframe tf = chain_next tf.
Proof.
  unfold next_timeframe, fallbacks. cbn [list_to_map foldr uncurry fst snd].
  repeat (rewrite lookup_insert; case_decide; [subst tf; reflexivity|]).
  rewrite lookup_empty. unfold chain_next, chain. cbn [position head default].
  repeat (rewrite (proj2 (String.eqb_neq tf _)) by congruence; cbn [fmap option_fmap option_map]).
  reflexivity.
Qed.

(** C2. When all feeds fail at a timeframe that has a fallback entry, the
    fetch goes on and returns: its next attempt is a call of [get_bars] with
    the same symbol, lookback and minimum at the timeframe that follows in
    the chain 1Min, 2Min, 5Min, 15Min, 30Min, 1H, 1D, and the first client
    call after the failed feeds is for the symbol at that timeframe. The
    timeframes a fetch from 1Min attempts are the chain from its start, in
    order, as far as the fetch goes, and the whole chain when the fetch
    fails altogether; 1D has no successor. *)
Theorem timeframe_fallback_follows_chain
    (client_get_bars : list Call -> Call -> Outcome (option DataFrame))
    (now : nat -> Z) (fuel : nat) (symbol : string) (lookback : Z)
    (tf tf' : string) (mr : option Z) (st st1 : State) :
  try_feeds client_get_bars now symbol lookback tf (int_or mr lookback)
    feeds_to_try (mkParams (Z.min 1000 lookback) tf None None) (count_attempt st)
  = (st1, None) ->
  next_timeframe tf = Some tf' ->
  get_bars client_get_bars now (S fuel) symbol lookback tf mr st
  = get_bars client_get_bars now fuel symbol lookback tf' (Some (int_or mr lookback))
      (emit (timeframe_fallback symbol tf tf') st1)
  /\ (exists st' res c more,
        (forall k, get_bars client_get_bars now (8 + k) symbol lookback tf mr st
                   = Some (st', res))
        /\ (forall k, get_bars client_get_bars now (7 + k) symbol lookback tf'
                        (Some (int_or mr lookback))
                        (emit (timeframe_fallback symbol tf tf') st1)
                      = Some (st', res))
        /\ calls st' = (calls st1 ++ c :: more)%list
        /\ at_level symbol (Z.min 1000 lookback) tf' c
        /\ timeframes_of (c :: more) `prefix_of` path_from (rank tf') tf'
        /\ (res = None -> timeframes_of (c :: more) = path_from (rank tf') tf'))
  /\ chain_next tf = Some tf'
  /\ (forall n lb m s0 s',
        get_bars client_get_bars now n symbol lb "1Min" m s0 = Some (s', None) ->
        fallback_steps (events s')
        = (fallback_steps (events s0)
           ++ [("1Min", "2Min"); ("2Min", "5Min"); ("5Min", "15Min");
               ("15Min", "30Min"); ("30Min", "1H"); ("1H", "1D")])%list)
  /\ (forall lb m s0,
        exists s' res c more,
          (forall k, get_bars client_get_bars now (8 + k) symbol lb "1Min" m s0
                     = Some (s', res))
          /\ calls s' = (calls s0 ++ c :: more)%list
          /\ at_level symbol (Z.min 1000 lb) "1Min" c
          /\ timeframes_of (c :: more) `prefix_of` chain
          /\ (res = None -> timeframes_of (c :: more) = chain))
  /\ next_timeframe "1D" = None.
Proof.
  intros Hfeeds Hnext.
  assert (Step : forall n,
            get_bars client_get_bars now (S n) symbol lookback tf mr st
            = get_bars client_get_bars now n symbol lookback tf'
                (Some (int_or mr lookback))
                (emit (timeframe_fallback symbol tf tf') st1)).
  { intros n. cbn [get_bars]. rewrite Hfeeds. unfold _try_timeframe_fallbacks.
    unfold next_timeframe in Hnext.
    destruct (default [] (fallbacks !! tf)) as [|x rest]; [discriminate|].
    injection Hnext as ->. reflexivity. }
  split; [apply Step|]. split; [|split; [|split; [|split]]].
  - assert (Hr : rank tf = S (rank tf')).
    { unfold next_timeframe in Hnext.
      destruct (fallbacks_cases tf) as [E | (x & rest & E & Hr & _)];
        rewrite E in Hnext; [discriminate|]. injection Hnext as ->. exact Hr. }
    assert (Hf : (fuel_needed tf' lookback <= 7)%nat).
    { pose proof (fuel_needed_bound tf lookback) as B. unfold fuel_needed in *.
      rewrite Hr in B. lia. }
    destruct (get_bars_enough_fuel client_get_bars now 7 symbol lookback tf'
                (Some (int_or mr lookback))
                (emit (timeframe_fallback symbol tf tf') st1) Hf)
      as (st' & res & new & G & _).
    destruct (get_bars_path client_get_bars now 7 _ _ _ _ _ _ _ G)
      as (c & more & C & A & P & Q).
    exists st', res, c, more. split; [|split; [|split; [|split; [|split]]]].
    + intros k. change (8 + k)%nat with (S (7 + k)). rewrite Step.
      apply get_bars_more_fuel, G.
    + intros k. apply get_bars_more_fuel, G.
    + exact C.
    + exact A.
    + exact P.
    + exact Q.
  - rewrite <- next_timeframe_chain_next. exact Hnext.
  - intros n lb m s0 s' H.
    apply get_bars_failure_steps in H. rewrite H. reflexivity.
  - intros lb m s0.
    destruct (get_bars_enough_fuel client_get_bars now 8 symbol lb "1Min" m s0
                (fuel_needed_bound "1Min" lb)) as (s' & res & new & G & _).
    destruct (get_bars_path client_get_bars now 8 _ _ _ _ _ _ _ G)
      as (c & more & C & A & P & Q).
    exists s', res, c, more. split; [|split; [|split; [|split]]].
    + intros k. apply get_bars_more_fuel, G.
    + exact C.
    + exact A.
    + exact P.
    + exact Q.
  - reflexivity.
Qed.

(** At 15Min, with a client that never has bars: the fetch goes on at
    30Min, then 1H and 1D, and returns without a table; from 1Min it
    attempts the whole chain. *)
Lemma timeframe_fallback_follows_chain_witness :
  (exists st1,
      try_feeds no_bars (fun _ => 0) "AAPL" 60 "15Min" (int_or None 60)
        feeds_to_try (mkParams (Z.min 1000 60) "15Min" None None)
        (count_attempt initial_state) = (st1, None)
      /\ next_timeframe "15Min" = Some "30Min"
      /\ get_bars no_bars (fun _ => 0) 5 "AAPL" 60 "15Min" None initial_state
         = get_bars no_bars (fun _ => 0) 4 "AAPL" 60 "30Min" (Some 60)
             (emit (timeframe_fallback "AAPL" "15Min" "30Min") st1)
      /\ exists st' c more,
           (forall k, get_bars no_bars (fun _ => 0) (8 + k) "AAPL" 60 "15Min" None
                        initial_state = Some (st', None))
           /\ calls st' = (calls st1 ++ c :: more)%list
           /\ at_level "AAPL" 60 "30Min" c
           /\ timeframes_of (c :: more) = ["30Min"; "1H"; "1D"])
  /\ exists s' c more,
       (forall k, get_bars no_bars (fun _ => 0) (8 + k) "AAPL" 60 "1Min" None
                    initial_state = Some (s', None))
       /\ calls s' = c :: more
       /\ at_level "AAPL" 60 "1Min" c
       /\ timeframes_of (c :: more) = chain.
Proof.
  assert (Hf : try_feeds no_bars (fun _ => 0) "AAPL" 60 "15Min" (int_or None 60)
                 feeds_to_try (mkParams (Z.min 1000 60) "15Min" None None)
                 (count_attempt initial_state)
               = ((try_feeds no_bars (fun _ => 0) "AAPL" 60 "15Min" (int_or None 60)
                     feeds_to_try (mkParams (Z.min 1000 60) "15Min" None None)
                     (count_attempt initial_state)).1, None))
    by (vm_compute; reflexivity).
  destruct (timeframe_fallback_follows_chain no_bars (fun _ => 0) 4 "AAPL" 60
              "15Min" "30Min" None initial_state _ Hf eq_refl)
    as (O1 & (st' & res & c & more & G8 & _ & C & A & _ & Q) & _ & _ & B & _).
  split.
  - eexists. split; [exact Hf|]. split; [reflexivity|]. split; [exact O1|].
    pose proof (G8 0%nat) as E8. vm_compute in E8. injection E8 as <- <-.
    eexists _, c, more. split; [exact G8|]. split; [exact C|]. split; [exact A|].
    exact (Q eq_refl).
  - destruct (B 60 None initial_state) as (s' & res' & c' & more' & G & C' & A' & _ & Q').
    pose proof (G 0%nat) as E8. vm_compute in E8. injection E8 as <- <-.
    eexists _, c', more'. split; [exact G|]. split; [exact C'|]. split; [exact A'|].
    exact (Q' eq_refl).
Defined.

(** C10. [get_bars] returns for every symbol, lookback, timeframe and
    minimum, whatever the client answers: eight rounds are always enough.
    A timeframe fallback moves strictly down the chain, and the reduced daily
    retry asks for at most 100 bars, happens at most once, and never when
    the lookback is 100 or less. *)
Theorem get_bars_terminates
    (client_get_bars : list Call -> Call -> Outcome (option DataFrame))
    (now : nat -> Z) (symbol : string) (lookback : Z) (tf : string)
    (mr : option Z) (st : State) :
  exists st' res new,
    (forall k, get_bars client_get_bars now (8 + k) symbol lookback tf mr st
               = Some (st', res))
    /\ (forall tf', next_timeframe tf = Some tf' -> (rank tf' < rank tf)%nat)
    /\ reductions (events st') = (reductions (events st) ++ new)%list
    /\ (length new <= 1)%nat
    /\ (lookback <= 100 -> new = [])
    /\ Forall (fun p => p.2 <= 100) new.
Proof.
  destruct (get_bars_enough_fuel client_get_bars now 8 symbol lookback tf mr st
              (fuel_needed_bound tf lookback)) as (st' & res & new & H & E & L & F).
  exists st', res, new. repeat split; try assumption.
  - intros k. apply get_bars_more_fuel, H.
  - intros tf' Hn. unfold next_timeframe in Hn.
    destruct (fallbacks_cases tf) as [E0 | (x & rest & E0 & Hr & _)];
      rewrite E0 in Hn; [discriminate|].
    injection Hn as ->. lia.
  - case_match; lia.
  - intros Hl. replace (100 <? lookback) with false in L
      by (symmetry; apply Z.ltb_ge; lia).
    destruct new; [reflexivity | simpl in L; lia].
Qed.

End FetcherFacts.

(** ** Sorting, de-duplication and the two standardizers *)

Module PandasFacts.
Import FrameTerms.

(** [sort_rows] is an insertion sort: a permutation, *)
Lemma insert_row_perm r l : insert_row r l ≡ₚ r :: l.
Proof.
  induction l as [|x l IH]; simpl; [reflexivity|].
  case_match; [reflexivity|]. rewrite IH. apply Permutation_swap.
Qed.

Lemma sort_rows_perm l : sort_rows l ≡ₚ l.
Proof.
  induction l as [|x l IH]; simpl; [reflexivity|].
  rewrite insert_row_perm, IH. reflexivity.
Qed.

(** and sorted by label. *)
Lemma insert_row_sorted r l : Sorted key_le l -> Sorted key_le (insert_row r l).
Proof.
  induction 1 as [|x l Hs IH Hd]; simpl.
  - repeat constructor.
  - destruct (key r <=? key x) eqn:E.
    + apply Z.leb_le in E. repeat constructor; assumption.
    + apply Z.leb_gt in E. constructor; [exact IH|].
      destruct Hd as [|y l Hxy]; simpl.
      * constructor. unfold key_le. lia.
      * case_match; constructor; unfold key_le in *; lia.
Qed.

Lemma sort_rows_sorted l : Sorted key_le (sort_rows l).
Proof.
  induction l as [|x l IH]; simpl; [constructor | apply insert_row_sorted, IH].
Qed.


Lemma sorted_keys l : Sorted key_le l -> Sorted Z.le (map key l).
Proof.
  induction 1 as [|x l Hs IH Hd]; simpl; constructor; [exact IH|].
  destruct Hd; simpl; constructor. assumption.
Qed.





(** A row-wise conversion that keeps labels keeps the list of labels. *)
Lemma mapM_keys (f : Row -> option Row) (l l' : list Row) :
  (forall r r', f r = Some r' -> key r' = key r) ->
  mapM f l = Some l' -> map key l' = map key l.
Proof.
  intros Hf H. apply mapM_Some in H.
  induction H as [|r r' l l' Hr _ IH]; simpl; [reflexivity|].
  rewrite IH, (Hf _ _ Hr). reflexivity.
Qed.

Lemma astype_float_keys df out :
  astype_float df = Some out -> keys out = keys df /\ columns out = columns df.
Proof.
  unfold astype_float. destruct (mapM _ _) as [l|] eqn:E; [|discriminate].
  intros [= <-]. split; [|reflexivity]. unfold keys; simpl.
  eapply mapM_keys; [|exact E]. intros r r'. unfold row_astype_float.
  destruct (mapM cell_to_float (cells r)); intros ?; simplify_eq/=. reflexivity.
Qed.

Lemma select_keys cols df : keys (select cols df) = keys df.
Proof. unfold keys, select; simpl. rewrite map_map. reflexivity. Qed.

Lemma assign_column_keys c f df out :
  assign_column c f df = Some out ->
  keys out = keys df /\ columns out = columns df /\ kind out = kind df.
Proof.
  unfold assign_column. destruct (mapM _ _) as [l|] eqn:E; [|discriminate].
  intros [= <-]. repeat split. unfold keys; simpl.
  eapply mapM_keys; [|exact E]. intros r r'. unfold alter_cell.
  repeat case_match; intros ?; simplify_eq/=; reflexivity.
Qed.

Lemma keys_length df : length (keys df) = length (rows df).
Proof. apply length_map. Qed.

End PandasFacts.

Module StandardizerFacts.
Import FrameTerms PandasFacts.

(** The tail of the fetcher's standardizer: sorted, a permutation of the
    labels, the five columns, all of which were there. *)
Lemma sort_and_select_spec d out :
  Fetcher.sort_and_select d = Some out ->
  Sorted Z.le (keys out) /\ keys out ≡ₚ keys d
  /\ columns out = Fetcher.required_cols
  /\ forallb (fun col => has_column col d) Fetcher.required_cols = true.
Proof.
  unfold Fetcher.sort_and_select.
  destruct (forallb _ _) eqn:E; [|discriminate].
  intros H. apply astype_float_keys in H as [K C].
  rewrite K, select_keys, C. unfold keys, sort_index; simpl.
  split; [|split; [|split; [reflexivity|]]].
  - apply sorted_keys, sort_rows_sorted.
  - apply Permutation_map, sort_rows_perm.
  - rewrite <- E. reflexivity.
Qed.

Lemma renumber_length i l : length (renumber i l) = length l.
Proof. revert i. induction l; intros i; simpl; [reflexivity | rewrite IHl; reflexivity]. Qed.

Lemma set_datetime_index_length c d d' :
  set_datetime_index c d = Some d' -> length (rows d') = length (rows d).
Proof.
  unfold set_datetime_index. destruct (position c (columns d)); [|discriminate].
  destruct (mapM _ _) as [l|] eqn:E; [|discriminate]. intros ?; simplify_eq/=.
  symmetry. eapply length_mapM, E.
Qed.

Lemma remove_nth_subset {A} (i : nat) (l : list A) x : x ∈ remove_nth i l -> x ∈ l.
Proof.
  revert i. induction l as [|y l IH]; intros [|i]; simpl; try set_solver.
Qed.

(** A required column of the table the standardizer has re-indexed was a
    column of the input, or the name of its index. *)
#[local] Arguments String.eqb : simpl never.
#[local] Arguments position : simpl never.

Lemma reindexed_columns df d1 c d2 col :
  reset_index df = Some d1 ->
  set_datetime_index "timestamp" (rename_column c "timestamp" d1) = Some d2 ->
  col ∈ Fetcher.required_cols ->
  col ∈ columns d2 ->
  col ∈ columns df \/ kind df = PlainIndex (Some col).
Proof.
  unfold reset_index, set_datetime_index. cbv zeta.
  destruct (has_column _ df); [discriminate|]. intros ?; simplify_eq/=.
  intros H2 Hreq Hin.
  destruct (position "timestamp" _) as [i|]; [|discriminate].
  destruct (mapM _ _); simplify_eq/=.
  apply remove_nth_subset in Hin.
  rewrite elem_of_cons in Hin. destruct Hin as [Hin | Hin].
  - destruct (String.eqb _ c) eqn:E; [subst col; set_solver|].
    subst col. destruct (kind df) as [tz|[n|]]; [| right; reflexivity |];
      case_match; set_solver.
  - apply list_elem_of_fmap in Hin as (x & -> & Hx).
    destruct (String.eqb x c); [set_solver|]. left. exact Hx.
Qed.

Lemma reset_index_length df d1 :
  reset_index df = Some d1 -> length (rows d1) = length (rows df).
Proof.
  unfold reset_index. cbv zeta. destruct (has_column _ df); [discriminate|].
  intros [= <-]. apply renumber_length.
Qed.


(** The fetcher's standardizer, case by case. *)
Lemma standardize_cases df out :
  (Fetcher._standardize_dataframe df).2 = Some out ->
  exists d, Fetcher.sort_and_select d = Some out
            /\ length (rows d) = length (rows df)
            /\ forall col, col ∈ Fetcher.required_cols -> col ∈ columns d ->
                           col ∈ columns df \/ kind df = PlainIndex (Some col).
Proof.
  unfold Fetcher._standardize_dataframe.
  destruct (kind df) as [tz|name] eqn:K.
  - simpl. intros H. eexists. split; [exact H|]. split; [reflexivity|].
    simpl. intros col _ Hc. left. exact Hc.
  - destruct (reset_index df) as [d1|] eqn:R; [|discriminate].
    set (ts := if has_column "timestamp" d1 then _ else _).
    destruct ts as [c|] eqn:T; [|discriminate].
    destruct (set_datetime_index _ _) as [d2|] eqn:S; [|discriminate].
    simpl. intros H. exists d2. split; [exact H|]. split.
    + rewrite (set_datetime_index_length _ _ _ S). simpl.
      apply reset_index_length, R.
    + intros col Hreq Hc. rewrite <- K. eapply reindexed_columns; eauto.
Qed.









(** C7, at a table with a naive [DatetimeIndex]: after the call the table
    the caller passed carries a UTC index; it is no longer the table it
    was. *)
Theorem standardize_overwrites_index :
  kind naive_frame = DatetimeIndex None
  /\ kind (Fetcher._standardize_dataframe naive_frame).1 = DatetimeIndex (Some "UTC")
  /\ (Fetcher._standardize_dataframe naive_frame).1 <> naive_frame
  /\ (Provider._clean_and_prepare_data naive_frame).1 = naive_frame.
Proof.
  repeat split. intros H. apply (f_equal kind) in H. discriminate H.
Qed.

(** Where the caller's table stays as it was: always in the provider's
    cleaner, and in the fetcher's standardizer when the index is not a
    [DatetimeIndex]. *)
Lemma callers_table_unchanged (df : DataFrame) :
  (Provider._clean_and_prepare_data df).1 = df
  /\ (forall name, kind df = PlainIndex name ->
        (Fetcher._standardize_dataframe df).1 = df)
  /\ (forall tz, kind df = DatetimeIndex tz ->
        (Fetcher._standardize_dataframe df).1
        = mkDF (DatetimeIndex (Some "UTC")) (columns df) (rows df)).
Proof.
  split; [|split].
  - unfold Provider._clean_and_prepare_data. repeat case_match; reflexivity.
  - intros name K. unfold Fetcher._standardize_dataframe. rewrite K.
    repeat case_match; reflexivity.
  - intros tz K. unfold Fetcher._standardize_dataframe. rewrite K. reflexivity.
Qed.

End StandardizerFacts.

(** ** The provider's cache *)

Module ProviderFacts.
Import Provider ProviderTerms.

(** [sorted] does not depend on the order of its argument. *)
Lemma sorted_permutation (l1 l2 : list string) : l1 ≡ₚ l2 -> sorted l1 = sorted l2.
Proof.
  intros P. unfold sorted.
  apply (Sorted_unique string_le); try apply Sorted_merge_sort; try apply _.
  rewrite !merge_sort_Permutation. exact P.
Qed.

(** So the cache key does not depend on the order of the symbols. *)
Lemma cache_key_permutation (l1 l2 : list string) (tf : string) (lim : Z) :
  l1 ≡ₚ l2 -> cache_key l1 tf lim = cache_key l2 tf lim.
Proof. intros P. unfold cache_key. rewrite (sorted_permutation _ _ P). reflexivity. Qed.

Section Client.
Variable client_get_bars : list Request -> Request -> Outcome (gmap string DataFrame).
Variable now : nat -> Z.

(** A request whose entry is in the cache and younger than the TTL. *)
Lemma get_bars_hit (req : Request) (p : DataProvider) (entry : DictObj) (t : Z) :
  cache p !! key_of req = Some entry ->
  cache_timestamps p !! key_of req = Some t ->
  now (S (clock_reads p)) - t < cache_duration p ->
  get_bars client_get_bars now req true p
  = (mkProvider (cache p) (cache_timestamps p) (cache_duration p)
       (mkStats (requests (stats p) + 1) (cache_hits (stats p) + 1)
                (failed_requests (stats p)) (Some (now (clock_reads p))))
       (client_calls p) (printed p) (S (S (clock_reads p))) (next_oid p),
     entry).
Proof.
  intros Hc Ht Hage. unfold get_bars, read_clock, with_stats, key_of in *.
  projections. rewrite Hc, Ht. unfold _is_cache_valid. projections. rewrite Ht.
  apply Z.ltb_lt in Hage. rewrite Hage. reflexivity.
Qed.

(** Such a request goes down the fetch path. *)
Lemma get_bars_miss (req : Request) (p : DataProvider) :
  stale now req p ->
  get_bars client_get_bars now req true p
  = fetch client_get_bars now req true (key_of req) (missed now req p).
Proof.
  intros Hs. unfold stale, get_bars, missed, read_clock, with_stats, key_of in *. projections.
  destruct (cache p !! _) as [entry|] eqn:Hc; [|reflexivity].
  destruct (cache_timestamps p !! _) as [t|] eqn:Ht; [|reflexivity].
  unfold _is_cache_valid. projections. rewrite Ht.
  destruct Hs as [Hs | [Hs | (t' & Ht' & Hage)]]; try discriminate.
  injection Ht' as <-. apply Z.ltb_ge in Hage. rewrite Hage. reflexivity.
Qed.

(** The fetch path: one call to the client; the result is stored under the
    key, with a new clock reading, exactly when it is a non-empty
    dictionary. *)
Lemma fetch_spec (req : Request) (key : string) (p : DataProvider) :
  let '(p', d) := fetch client_get_bars now req true key p in
  client_calls p' = (client_calls p ++ [req])%list
  /\ cache_hits (stats p') = cache_hits (stats p)
  /\ requests (stats p') = requests (stats p)
  /\ match client_get_bars (client_calls p) req with
     | Ret raw =>
         match clean_all raw with
         | Some cleaned =>
             items d = cleaned /\ oid d = next_oid p
             /\ if dict_truthy cleaned
                then cache p' = <[key := d]> (cache p)
                     /\ cache_timestamps p'
                        = <[key := now (clock_reads p)]> (cache_timestamps p)
                     /\ clock_reads p' = S (clock_reads p)
                else cache p' = cache p /\ cache_timestamps p' = cache_timestamps p
         | None => items d = ∅ /\ cache p' = cache p
                   /\ cache_timestamps p' = cache_timestamps p
                   /\ failed_requests (stats p') = failed_requests (stats p) + 1
         end
     | Raise => items d = ∅ /\ cache p' = cache p
                /\ cache_timestamps p' = cache_timestamps p
                /\ failed_requests (stats p') = failed_requests (stats p) + 1
     end.
Proof.
  unfold fetch, call_client, new_dict, with_stats, print, read_clock, store.
  projections.
  destruct (client_get_bars (client_calls p) req) as [raw|]; projections.
  - destruct (clean_all raw) as [cleaned|]; projections.
    + destruct (dict_truthy cleaned); projections; repeat split; reflexivity.
    + repeat split; reflexivity.
  - repeat split; reflexivity.
Qed.

(** A request adds at most one call to the client, its own. *)
Lemma get_bars_calls (req : Request) (p : DataProvider) :
  client_calls (get_bars client_get_bars now req true p).1 = client_calls p
  \/ client_calls (get_bars client_get_bars now req true p).1
     = (client_calls p ++ [req])%list.
Proof.
  destruct (cache p !! key_of req) as [entry|] eqn:Hc.
  - destruct (cache_timestamps p !! key_of req) as [t|] eqn:Ht.
    + destruct (Z.ltb_spec (now (S (clock_reads p)) - t) (cache_duration p)) as [L|L].
      * left. rewrite (get_bars_hit req p entry t Hc Ht L). reflexivity.
      * right. rewrite get_bars_miss by (right; right; eauto).
        pose proof (fetch_spec req (key_of req) (missed now req p)) as F.
        destruct (fetch _ _ _ _ _ _) as [p' d]. apply F.
    + right. rewrite get_bars_miss by (right; left; exact Ht).
      pose proof (fetch_spec req (key_of req) (missed now req p)) as F.
      destruct (fetch _ _ _ _ _ _) as [p' d]. apply F.
  - right. rewrite get_bars_miss by (left; exact Hc).
    pose proof (fetch_spec req (key_of req) (missed now req p)) as F.
    destruct (fetch _ _ _ _ _ _) as [p' d]. apply F.
Qed.

End Client.

(** C8, against the claim as stated: the entry has reached the TTL, the
    fetch path runs (a second client call), it returns an empty dictionary,
    and the entry stays as it was, under its old timestamp. *)
Lemma expired_entry_not_replaced :
  let p1 := (get_bars drying_client jumping request_ab true init).1 in
  let p2 := (get_bars drying_client jumping request_ab true p1).1 in
  cache_timestamps p1 !! key_of request_ab = Some 0
  /\ cache_duration p1 <= jumping (S (clock_reads p1)) - 0
  /\ client_calls p2 = [request_ab; request_ab]
  /\ cache p2 !! key_of request_ab = cache p1 !! key_of request_ab
  /\ is_Some (cache p1 !! key_of request_ab)
  /\ cache_timestamps p2 !! key_of request_ab = Some 0.
Proof.
  cbv zeta. split; [vm_compute; reflexivity|]. split; [vm_compute; discriminate|].
  split; [vm_compute; reflexivity|]. split; [vm_compute; reflexivity|].
  split; [|vm_compute; reflexivity].
  eexists. vm_compute. reflexivity.
Qed.

(** C8, as amended. The cache key does not depend on the order of the
    symbols. A request whose entry is younger than the TTL (five minutes in
    a new provider) is answered with the stored object itself, without a
    client call, and counts one hit. A request whose entry is absent or has
    reached the TTL makes one client call and counts no hit; the result is
    stored under the key with the clock reading taken at that moment when it
    is a non-empty dictionary, and otherwise (empty result, or an exception)
    cache and timestamps stay as they were. *)
Theorem cache_hit_and_refetch
    (client_get_bars : list Request -> Request -> Outcome (gmap string DataFrame))
    (now : nat -> Z) (req : Request) (p : DataProvider) :
  (forall syms',
      syms' ≡ₚ symbols req ->
      key_of (mkRequest syms' (timeframe req) (limit req) (start req) (end_ req))
      = key_of req)
  /\ cache_duration init = 300 * 1000000
  /\ (forall entry t,
        cache p !! key_of req = Some entry ->
        cache_timestamps p !! key_of req = Some t ->
        now (S (clock_reads p)) - t < cache_duration p ->
        let '(p', d) := get_bars client_get_bars now req true p in
        d = entry
        /\ client_calls p' = client_calls p
        /\ cache_hits (stats p') = cache_hits (stats p) + 1
        /\ cache p' = cache p
        /\ cache_timestamps p' = cache_timestamps p)
  /\ (stale now req p ->
        let '(p', d) := get_bars client_get_bars now req true p in
        client_calls p' = (client_calls p ++ [req])%list
        /\ cache_hits (stats p') = cache_hits (stats p)
        /\ match cleaned_answer (client_get_bars (client_calls p) req) with
           | Ret cleaned =>
               items d = cleaned
               /\ if dict_truthy cleaned
                  then cache p' !! key_of req = Some d
                       /\ cache_timestamps p' !! key_of req
                          = Some (now (pred (clock_reads p')))
                       /\ (clock_reads p < pred (clock_reads p'))%nat
                  else cache p' = cache p /\ cache_timestamps p' = cache_timestamps p
           | Raise =>
               items d = ∅ /\ cache p' = cache p
               /\ cache_timestamps p' = cache_timestamps p
           end).
Proof.
  split; [|split; [reflexivity|split]].
  - intros syms' P. unfold key_of. simpl. apply cache_key_permutation, P.
  - intros entry t Hc Ht Hage.
    rewrite (get_bars_hit client_get_bars now req p entry t Hc Ht Hage).
    repeat split; reflexivity.
  - intros Hs. rewrite (get_bars_miss client_get_bars now req p Hs).
    pose proof (fetch_spec client_get_bars now req (key_of req) (missed now req p)) as F.
    destruct (fetch _ _ _ _ _ _) as [p' d].
    destruct F as (Hcalls & Hhits & _ & F).
    split; [exact Hcalls|]. split; [exact Hhits|].
    change (client_calls (missed now req p)) with (client_calls p) in F.
    unfold cleaned_answer.
    destruct (client_get_bars (client_calls p) req) as [raw|].
    + destruct (clean_all raw) as [cleaned|].
      * destruct F as (Hi & _ & F). split; [exact Hi|].
        destruct (dict_truthy cleaned).
        -- destruct F as (Hc & Ht & Hr). rewrite Hc, Ht, Hr, !lookup_insert_eq.
           repeat split. unfold missed; simpl. repeat case_match; lia.
        -- exact F.
      * destruct F as (Hi & Hc & Ht & _). auto.
    + destruct F as (Hi & Hc & Ht & _). auto.
Qed.

(** Two requests for the same symbols in different orders, one second
    apart: the second is answered with the object the first one stored. *)
Lemma cache_hit_and_refetch_witness :
  let first := get_bars steady_client ticking request_ab true init in
  let second := get_bars steady_client ticking request_ba true first.1 in
  second.2 = first.2
  /\ client_calls second.1 = [request_ab]
  /\ cache_hits (stats second.1) = 1.
Proof.
  cbv zeta.
  pose proof (proj1 (proj2 (proj2 (cache_hit_and_refetch steady_client ticking request_ba
                (get_bars steady_client ticking request_ab true init).1)))
              (get_bars steady_client ticking request_ab true init).2 1000000) as H.
  destruct (get_bars steady_client ticking request_ba true _) as [p' d].
  destruct H as (Hd & Hc & Hh & _).
  - vm_compute. reflexivity.
  - vm_compute. reflexivity.
  - vm_compute. reflexivity.
  - simpl. rewrite Hd, Hc, Hh. repeat split.
Defined.

End ProviderFacts.

(** ** Float comparisons and the MA crossover *)

Module FloatFacts.

(** Swapping the arguments of a float comparison reverses its result. *)
Lemma SFcompare_antisym (x y : spec_float) :
  SFcompare y x = option_map CompOpp (SFcompare x y).
Proof.
  destruct x as [sx|sx| |sx mx ex], y as [sy|sy| |sy my ey]; simpl; try reflexivity;
    try (destruct sx; reflexivity); try (destruct sy; reflexivity);
    try (destruct sx, sy; reflexivity).
  change (Pos.compare_cont Eq my mx) with (my ?= mx)%positive.
  change (Pos.compare_cont Eq mx my) with (mx ?= my)%positive.
  destruct sx, sy; simpl; try reflexivity;
    rewrite (Z.compare_antisym ex ey); destruct (ex ?= ey); simpl; try reflexivity;
    rewrite (Pos.compare_antisym mx my); destruct (mx ?= my)%positive; reflexivity.
Qed.

(** A float other than [nan] equals itself. *)
Lemma SFcompare_refl (x : spec_float) :
  x <> S754_nan -> SFcompare x x = Some Eq.
Proof.
  destruct x as [s|s| |s m e]; simpl; intros H; try congruence.
  - destruct s; reflexivity.
  - change (Pos.compare_cont Eq m m) with (m ?= m)%positive.
    destruct s; rewrite Z.compare_refl, Pos.compare_refl; reflexivity.
Qed.

(** A comparison with a result has no [nan] argument. *)
Lemma SFcompare_not_nan (x y : spec_float) c :
  SFcompare x y = Some c -> x <> S754_nan /\ y <> S754_nan.
Proof. destruct x, y; simpl; intros H; split; congruence. Qed.

(** [a < b] and [b < a] cannot both hold. *)
Lemma ltb_asym (a b : float) : PrimFloat.ltb a b = true -> PrimFloat.ltb b a = false.
Proof.
  rewrite !FloatAxioms.ltb_spec. unfold SFltb. rewrite (SFcompare_antisym (Prim2SF a) (Prim2SF b)).
  destruct (SFcompare (Prim2SF a) (Prim2SF b)) as [[]|]; simpl; congruence.
Qed.

Lemma not_nan_of_compare (a : float) :
  Prim2SF a <> S754_nan -> PrimFloat.is_nan a = false.
Proof.
  intros H. unfold PrimFloat.is_nan. rewrite FloatAxioms.eqb_spec. unfold SFeqb.
  rewrite SFcompare_refl by exact H. reflexivity.
Qed.

(** A comparison that holds has no [nan] on either side. *)
Lemma ltb_not_nan (a b : float) :
  PrimFloat.ltb a b = true -> PrimFloat.is_nan a = false /\ PrimFloat.is_nan b = false.
Proof.
  rewrite FloatAxioms.ltb_spec. unfold SFltb.
  destruct (SFcompare _ _) as [c|] eqn:E; [|discriminate].
  intros _. apply SFcompare_not_nan in E as [Ha Hb].
  split; apply not_nan_of_compare; assumption.
Qed.

Lemma leb_not_nan (a b : float) :
  PrimFloat.leb a b = true -> PrimFloat.is_nan a = false /\ PrimFloat.is_nan b = false.
Proof.
  rewrite FloatAxioms.leb_spec. unfold SFleb.
  destruct (SFcompare _ _) as [c|] eqn:E; [|discriminate].
  intros _. apply SFcompare_not_nan in E as [Ha Hb].
  split; apply not_nan_of_compare; assumption.
Qed.

End FloatFacts.

Module StrategyFacts.
Import Strategy FloatFacts StrategyTerms.

Section Rolling.
Variable rolling_mean : Z -> list Cell -> option (list float).

(** When [calculate_moving_averages] succeeds, the table is the input with
    two columns as long as itself, and has [long_window] rows at least. *)
Lemma calculate_spec (self : MAStrategy) (data : DataFrame) (w : WithMA) :
  calculate_moving_averages rolling_mean self (Some data) = Some w ->
  base w = data
  /\ long_window self <= len data
  /\ length (MA_short w) = length (rows data)
  /\ length (MA_long w) = length (rows data).
Proof.
  unfold calculate_moving_averages.
  destruct (len data <? long_window self) eqn:L; [discriminate|].
  apply Z.ltb_ge in L.
  destruct (has_column "close" data); [|discriminate].
  destruct (rolling_mean (short_window self) _) as [s|]; [|discriminate].
  destruct (rolling_mean (long_window self) _) as [l|]; [|discriminate].
  destruct (bool_decide _ && bool_decide _) eqn:B; [|discriminate].
  apply andb_true_iff in B as [B1 B2].
  apply bool_decide_eq_true in B1, B2.
  intros [= <-]. simpl. auto.
Qed.

Lemma before_last_length {A : Type} (l : list A) (x : A) :
  iloc_before_last l = Some x -> (2 <= length l)%nat.
Proof.
  unfold iloc_before_last. rewrite <- (length_rev l).
  destruct (rev l) as [|a [|b r]]; simpl; [discriminate.. | lia].
Qed.

(** C4. With fewer than [long_window] bars [analyze] gives the no-signal
    action. With the four averages at hand and the latest close [c]:
    previous short <= previous long and current short > current long give
    "buy" at [c] with stop-loss [c * 0.95]; previous short >= previous long
    and current short < current long give "sell" at [c] without stop-loss;
    the two rules never hold together; an undefined ([nan]) average gives the
    no-signal action, and so does the absence of a crossover. *)
Theorem ma_crossover_signal (self : MAStrategy) (symbol : string) (data : DataFrame) :
  (len data < long_window self ->
   ma_analyze rolling_mean self symbol data = null_signal
   /\ action null_signal = None)
  /\ (forall w current_short current_long prev_short prev_long c,
        calculate_moving_averages rolling_mean self (Some data) = Some w ->
        iloc_last (MA_short w) = Some current_short ->
        iloc_last (MA_long w) = Some current_long ->
        iloc_before_last (MA_short w) = Some prev_short ->
        iloc_before_last (MA_long w) = Some prev_long ->
        latest_close data = Some c ->
        (PrimFloat.leb prev_short prev_long = true ->
         PrimFloat.ltb current_long current_short = true ->
         let s := ma_analyze rolling_mean self symbol data in
         action s = Some "buy" /\ price s = Some c
         /\ stop_loss s = Some (c * 0.95)%float)
        /\ (PrimFloat.leb prev_long prev_short = true ->
            PrimFloat.ltb current_short current_long = true ->
            let s := ma_analyze rolling_mean self symbol data in
            action s = Some "sell" /\ price s = Some c /\ stop_loss s = None)
        /\ golden_cross prev_short prev_long current_short current_long
           && death_cross prev_short prev_long current_short current_long = false
        /\ (PrimFloat.is_nan current_short || PrimFloat.is_nan current_long
            || PrimFloat.is_nan prev_short || PrimFloat.is_nan prev_long = true ->
            action (ma_analyze rolling_mean self symbol data) = None)
        /\ (golden_cross prev_short prev_long current_short current_long = false ->
            death_cross prev_short prev_long current_short current_long = false ->
            action (ma_analyze rolling_mean self symbol data) = None)).
Proof.
  split.
  - intros L. split; [|reflexivity].
    unfold ma_analyze, calculate_moving_averages.
    apply Z.ltb_lt in L. rewrite L. reflexivity.
  - intros w cs cl ps pl c Hw Hcs Hcl Hps Hpl Hc.
    destruct (calculate_spec _ _ _ Hw) as (Hb & _ & Ls & _).
    assert (Hlen : (len (base w) <? 2) = false).
    { apply Z.ltb_ge. rewrite Hb. unfold len.
      apply before_last_length in Hps. lia. }
    assert (Hex : golden_cross ps pl cs cl && death_cross ps pl cs cl = false).
    { unfold golden_cross, death_cross.
      destruct (PrimFloat.ltb cl cs) eqn:E; [|rewrite andb_false_r; reflexivity].
      rewrite (ltb_asym _ _ E), !andb_false_r. reflexivity. }
    unfold ma_analyze. rewrite Hw, Hlen, Hcs, Hcl, Hps, Hpl, Hb, Hc.
    split; [|split; [|split; [exact Hex|split]]].
    + intros H1 H2. cbv zeta.
      destruct (leb_not_nan _ _ H1) as [-> ->].
      destruct (ltb_not_nan _ _ H2) as [-> ->].
      unfold golden_cross. rewrite H1, H2. simpl. auto.
    + intros H1 H2. cbv zeta.
      destruct (leb_not_nan _ _ H1) as [-> ->].
      destruct (ltb_not_nan _ _ H2) as [-> ->].
      assert (Hd : death_cross ps pl cs cl = true)
        by (unfold death_cross; rewrite H1, H2; reflexivity).
      rewrite Hd in Hex. rewrite andb_true_r in Hex. rewrite Hex, Hd. simpl. auto.
    + intros ->. reflexivity.
    + intros -> ->. case_match; reflexivity.
Qed.

End Rolling.

(** On the four rising bars with windows 2 and 3: a buy at 14 with stop
    [14 * 0.95]. *)
Lemma ma_crossover_signal_witness :
  let s := ma_analyze plain_rolling_mean (mkMA 2 3 "MA_Crossover") "AAPL" rising in
  action s = Some "buy" /\ price s = Some 14%float
  /\ stop_loss s = Some (14 * 0.95)%float.
Proof.
  edestruct (proj2 (ma_crossover_signal plain_rolling_mean
                      (mkMA 2 3 "MA_Crossover") "AAPL" rising)) as (Hbuy & _);
    [vm_compute; reflexivity .. | ].
  apply Hbuy; vm_compute; reflexivity.
Defined.

End StrategyFacts.

(** ** Position sizing *)

Module SizerFacts.
Import Trader SizerTerms.

(** [int(x)] and [floor(x)] are defined on the same floats, agree where
    they are positive, and are non-positive together. *)
Lemma int_of_float_floor (x : float) :
  match int_of_float x, floor_of_float x with
  | Some q, Some f => (0 < f -> q = f) /\ (f <= 0 -> q <= 0)
  | None, None => True
  | _, _ => False
  end.
Proof.
  unfold int_of_float, floor_of_float.
  destruct (Prim2SF x) as [s|s| |s m e]; try exact I; [lia|].
  cbv zeta. destruct (0 <=? e) eqn:E.
  - apply Z.leb_le in E. assert (0 < 2 ^ e) by (apply Z.pow_pos_nonneg; lia).
    destruct s; split; intros; nia.
  - apply Z.leb_gt in E. assert (P : 0 < 2 ^ (- e)) by (apply Z.pow_pos_nonneg; lia).
    destruct s.
    + pose proof (Z.div_pos (Z.pos m) (2 ^ (- e)) ltac:(lia) P).
      assert (Z.neg m / 2 ^ (- e) < 0).
      { apply Z.div_lt_upper_bound; lia. }
      split; intros; lia.
    + split; intros; lia.
Qed.

Section Client.
Variable client : Client.

(** Past the guards, the quantity is the floor of the quotient when that is
    positive, and the signal is rejected otherwise. *)
Lemma position_size_floor equity risk pr sl :
  truthy_float pr = true -> truthy_float sl = true ->
  PrimFloat.leb (PrimFloat.abs (pr - sl)) 0 = false ->
  position_size equity risk (Some pr) (Some sl)
  = match floor_of_float (equity * risk / PrimFloat.abs (pr - sl)) with
    | Some f => if f <=? 0 then None else Some f
    | None => None
    end.
Proof.
  intros Hp Hs Hr. unfold position_size. simpl. rewrite Hp, Hs, Hr. simpl.
  pose proof (int_of_float_floor (equity * risk / PrimFloat.abs (pr - sl))) as H.
  destruct (int_of_float _) as [q|], (floor_of_float _) as [f|]; try tauto.
  destruct H as [H1 H2].
  destruct (f <=? 0) eqn:F.
  - apply Z.leb_le in F. specialize (H2 F). apply Z.leb_le in H2. rewrite H2. reflexivity.
  - rewrite (H1 (proj1 (Z.leb_gt _ _) F)), F. reflexivity.
Qed.

(** C5, as amended. A buy signal is rejected, and nothing is sent to the
    client, when the entry price or the stop-loss is missing or zero, when
    [risk_per_share = |entry - stop_loss|] is at most zero, when
    [risk_amount / risk_per_share] has no floor (it is [nan] or infinite),
    or when that floor is at most zero; otherwise the first call to the
    client is a market buy for [floor(risk_amount / risk_per_share)] shares,
    with [risk_amount = equity * risk_fraction]. Equity 10000, fraction
    0.02, entry 100 and stop 95 give 40 shares; entry equal to stop gives
    no order. *)
Theorem buy_signal_sizing (symbol : string) (signal : Strategy.Signal) (b : TradingBot) :
  Strategy.action signal = Some "buy" ->
  (truthy_opt_float (Strategy.price signal) = false
   \/ truthy_opt_float (Strategy.stop_loss signal) = false ->
   _execute_signal client symbol signal b = (b, None))
  /\ (forall entry stop,
        Strategy.price signal = Some entry ->
        Strategy.stop_loss signal = Some stop ->
        truthy_float entry = true -> truthy_float stop = true ->
        let risk_amount := (equity_of b * risk_per_trade b)%float in
        let risk_per_share := PrimFloat.abs (entry - stop) in
        (PrimFloat.leb risk_per_share 0 = true ->
         _execute_signal client symbol signal b = (b, None))
        /\ (PrimFloat.leb risk_per_share 0 = false ->
            match floor_of_float (risk_amount / risk_per_share) with
            | None => _execute_signal client symbol signal b = (b, None)
            | Some qty =>
                if qty <=? 0 then _execute_signal client symbol signal b = (b, None)
                else exists rest,
                    client_calls (_execute_signal client symbol signal b).1
                    = (client_calls b
                       ++ create_order (mkOrder symbol qty "buy" "market" None "day")
                          :: rest)%list
            end))
  /\ position_size 10000 0.02 (Some 100%float) (Some 95%float) = Some 40
  /\ position_size 10000 0.02 (Some 100%float) (Some 100%float) = None.
Proof.
  intros Ha. split; [|split; [|split; reflexivity]].
  - intros H. unfold _execute_signal, position_size. rewrite Ha.
    destruct H as [-> | ->]; [|rewrite orb_true_r]; reflexivity.
  - intros entry stop Hp Hs Tp Ts. cbv zeta. split.
    + intros Hr. unfold _execute_signal, position_size.
      rewrite Ha, Hp, Hs. simpl. rewrite Tp, Ts, Hr. reflexivity.
    + intros Hr. unfold _execute_signal. rewrite Ha, Hp, Hs.
      rewrite (position_size_floor _ _ _ _ Tp Ts Hr).
      destruct (floor_of_float _) as [q|]; [|reflexivity].
      destruct (q <=? 0); [reflexivity|].
      unfold record_call. simpl.
      repeat case_match; simpl; eexists; try reflexivity;
        rewrite <- (assoc_L app); reflexivity.
Qed.

End Client.

(** C5, against the claim as stated: the stop-loss is present (at price
    zero), the risk per share is 100 and the quotient's floor is 2, yet the
    signal is rejected and no order is sent. *)
Lemma zero_stop_rejected :
  Strategy.stop_loss (buy_at 100 0) = Some 0%float
  /\ PrimFloat.leb (PrimFloat.abs (100 - 0)) 0 = false
  /\ floor_of_float (equity_of funded_bot * risk_per_trade funded_bot
                     / PrimFloat.abs (100 - 0)) = Some 2
  /\ _execute_signal accepting "AAPL" (buy_at 100 0) funded_bot = (funded_bot, None).
Proof. repeat split; vm_compute; reflexivity. Qed.

(** Equity 10000, 2% risk, entry 100, stop 95: the first call that follows is
    a market buy for 40 shares. *)
Lemma buy_signal_sizing_witness :
  exists rest,
    client_calls (_execute_signal accepting "AAPL" (buy_at 100 95) funded_bot).1
    = (client_calls funded_bot
       ++ create_order (mkOrder "AAPL" 40 "buy" "market" None "day") :: rest)%list.
Proof.
  exact (proj2 (proj1 (proj2 (buy_signal_sizing accepting "AAPL" (buy_at 100 95)
                                funded_bot eq_refl))
                  100%float 95%float eq_refl eq_refl eq_refl eq_refl) eq_refl).
Defined.

End SizerFacts.

(** ** The trading cycle and the shutdown *)

Module TraderFacts.
Import Trader SizerTerms TraderTerms.

Lemma taken_app l1 l2 : taken (l1 ++ l2) = taken l1 + taken l2.
Proof. induction l1 as [|[] l1 IH]; simpl; lia. Qed.

Lemma taken_nonneg l : 0 <= taken l.
Proof. induction l as [|[] l IH]; simpl; lia. Qed.

Lemma same_setup_refl b : same_setup b b.
Proof. repeat split. Qed.

Lemma same_setup_trans a b c : same_setup a b -> same_setup b c -> same_setup a c.
Proof. unfold same_setup. intuition congruence. Qed.

Section Client.
Variable client : Client.
Variable now : nat -> Z.

(** Executing a signal touches neither the journal, nor the provider, nor
    the setup; *)
Lemma execute_signal_frame symbol signal b :
  let b' := (_execute_signal client symbol signal b).1 in
  journal b' = journal b /\ data_provider b' = data_provider b /\ same_setup b b'.
Proof.
  unfold _execute_signal, record_call.
  repeat case_match; simpl; repeat split; reflexivity.
Qed.

(** fetching data touches neither the journal, nor the client calls, nor the
    setup. *)
Lemma fetch_data_frame symbol b :
  let b' := (_fetch_data_for_symbol client now symbol b).1 in
  journal b' = journal b /\ client_calls b' = client_calls b /\ same_setup b b'.
Proof.
  unfold _fetch_data_for_symbol. destruct (Provider.get_bars _ _ _ _ _) as [p d].
  simpl. repeat split; reflexivity.
Qed.

(** Journals within a number of slots: an entry that takes none may come
    first, *)
Lemma within_skip slots line new :
  taken [line] = 0 -> line <> reached_maximum_stopping ->
  within slots new -> within slots (line :: new).
Proof.
  intros T N [[H1 H2] | [H1 (pre & s & id & -> & H2)]].
  - left. split.
    + change (line :: new) with ([line] ++ new)%list. rewrite taken_app. lia.
    + rewrite not_elem_of_cons. split; [congruence | exact H2].
  - right. split.
    + change (line :: ?l) with ([line] ++ l)%list. rewrite taken_app. lia.
    + exists (line :: pre), s, id. split; [reflexivity|].
      rewrite not_elem_of_cons. split; [congruence | exact H2].
Qed.

(** and a prefix that took some slots without stopping may precede a journal
    within the remaining ones. *)
Lemma within_app slots slots' new1 new2 :
  1 <= slots' ->
  taken new1 = slots - slots' -> reached_maximum_stopping ∉ new1 ->
  within slots' new2 -> within slots (new1 ++ new2).
Proof.
  intros Hs T N [[H1 H2] | [H1 (pre & s & id & -> & H2)]].
  - left. rewrite taken_app, not_elem_of_app. split; [lia | tauto].
  - right. rewrite taken_app. split; [lia|].
    exists (new1 ++ pre)%list, s, id. rewrite (assoc_L app). split; [reflexivity|].
    rewrite not_elem_of_app. tauto.
Qed.

(** The strategies loop on one symbol, started with a free slot. *)
Lemma apply_strategies_journal symbol data strats :
  forall slots b b' slots' stop,
    1 <= slots ->
    apply_strategies client symbol data strats slots b = (b', slots', stop) ->
    same_setup b b'
    /\ data_provider b' = data_provider b
    /\ exists new,
         journal b' = (journal b ++ new)%list
         /\ taken new = slots - slots'
         /\ (stop = false -> 1 <= slots' /\ reached_maximum_stopping ∉ new)
         /\ (stop = true ->
             slots' = 0
             /\ exists pre s id,
                  new = (pre ++ [slot_taken s id; reached_maximum_stopping])%list
                  /\ reached_maximum_stopping ∉ pre).
Proof.
  induction strats as [|strategy rest IH]; intros slots b b' slots' stop Hs; simpl.
  - intros [= <- <- <-]. split; [apply same_setup_refl|]. split; [reflexivity|].
    exists []. rewrite app_nil_r. split; [reflexivity|]. split; [simpl; lia|].
    split; [intros _; split; [lia | apply not_elem_of_nil] | discriminate].
  - set (line := analysing symbol (Strategy.name strategy)).
    assert (step : forall b1 extra,
               journal b1 = (journal b ++ line :: extra)%list ->
               same_setup b b1 -> data_provider b1 = data_provider b ->
               taken extra = 0 -> reached_maximum_stopping ∉ extra ->
               apply_strategies client symbol data rest slots b1 = (b', slots', stop) ->
               same_setup b b'
               /\ data_provider b' = data_provider b
               /\ exists new,
                    journal b' = (journal b ++ new)%list
                    /\ taken new = slots - slots'
                    /\ (stop = false -> 1 <= slots' /\ reached_maximum_stopping ∉ new)
                    /\ (stop = true ->
                        slots' = 0
                        /\ exists pre s id,
                             new = (pre ++ [slot_taken s id; reached_maximum_stopping])%list
                             /\ reached_maximum_stopping ∉ pre)).
    { intros b1 extra J S P T N H.
      destruct (IH _ _ _ _ _ Hs H) as (S' & P' & new & J' & T' & F & G).
      split; [eapply same_setup_trans; eauto|]. split; [congruence|].
      exists (line :: extra ++ new)%list. rewrite J', J, <- (assoc_L app). simpl.
      split; [reflexivity|]. rewrite taken_app. split; [lia|]. split.
      - intros E. destruct (F E) as [F1 F2]. split; [exact F1|].
        rewrite not_elem_of_cons, not_elem_of_app. unfold line. split; [congruence|tauto].
      - intros E. destruct (G E) as (G1 & pre & s & id & -> & G2). split; [exact G1|].
        exists (line :: extra ++ pre)%list, s, id. simpl. rewrite (assoc_L app).
        split; [reflexivity|].
        rewrite not_elem_of_cons, not_elem_of_app. unfold line. split; [congruence|tauto]. }
    destruct (Strategy.analyze strategy symbol data) as [[signal|]|].
    + pose proof (execute_signal_frame symbol signal (log line b)) as (J & P & S).
      destruct (_execute_signal client symbol signal (log line b)) as [b1 [order_id|]];
        simpl in J, P, S.
      * destruct (truthy_string order_id).
        -- destruct (slots - 1 <=? 0) eqn:Z0.
           ++ intros [= <- <- <-]. apply Z.leb_le in Z0. simpl.
              split; [exact S|]. split; [exact P|].
              exists [line; slot_taken symbol order_id; reached_maximum_stopping].
              rewrite J. simpl. rewrite <- !(assoc_L app). simpl.
              split; [reflexivity|]. split; [lia|]. split; [discriminate|].
              intros _. split; [lia|]. exists [line], symbol, order_id.
              split; [reflexivity|]. rewrite not_elem_of_cons. unfold line.
              split; [congruence | apply not_elem_of_nil].
           ++ apply Z.leb_gt in Z0. intros H.
              assert (Hs' : 1 <= slots - 1) by lia.
              destruct (IH _ _ _ _ _ Hs' H) as (S' & P' & new & J' & T' & F & G).
              split; [eapply same_setup_trans; eauto; exact S|].
              split; [simpl in P'; congruence|].
              exists ([line; slot_taken symbol order_id] ++ new)%list.
              rewrite J'. simpl. rewrite J. simpl. rewrite <- !(assoc_L app). simpl.
              split; [reflexivity|]. split; [lia|]. split.
              ** intros E. destruct (F E) as [F1 F2]. split; [lia|].
                 rewrite !not_elem_of_cons. unfold line. repeat split; congruence || tauto.
              ** intros E. destruct (G E) as (G1 & pre & s & id & -> & G2). split; [exact G1|].
                 exists ([line; slot_taken symbol order_id] ++ pre)%list, s, id.
                 split; [reflexivity|]. simpl.
                 rewrite !not_elem_of_cons. unfold line. repeat split; congruence || tauto.
        -- apply (step b1 []); auto using not_elem_of_nil.
      * apply (step b1 []); auto using not_elem_of_nil.
    + apply (step (log line b) []); auto using not_elem_of_nil.
      repeat split; reflexivity.
    + apply (step (log (strategy_error symbol (Strategy.name strategy)) (log line b))
                  [strategy_error symbol (Strategy.name strategy)]); auto.
      * simpl. rewrite <- (assoc_L app). reflexivity.
      * repeat split; reflexivity.
      * rewrite not_elem_of_cons. split; [congruence | apply not_elem_of_nil].
Qed.

(** Fetching data for a symbol sends at most one request, the symbol's own. *)
Lemma fetch_data_requests symbol b :
  exists reqs,
    Provider.client_calls (data_provider (_fetch_data_for_symbol client now symbol b).1)
    = (Provider.client_calls (data_provider b) ++ reqs)%list
    /\ (reqs = [] \/ reqs = [request_for b symbol]).
Proof.
  unfold _fetch_data_for_symbol.
  pose proof (ProviderFacts.get_bars_calls (client_get_bars client) now
                (request_for b symbol) (data_provider b)) as H.
  unfold request_for in *.
  destruct (Provider.get_bars _ _ _ _ _) as [p d]. simpl in *.
  destruct H as [-> | ->].
  - exists []. rewrite app_nil_r. auto.
  - eexists. split; [reflexivity|]. auto.
Qed.

Lemma cycle_request_tail b b1 symbol rest r :
  same_setup b b1 -> cycle_request b1 rest r -> cycle_request b (symbol :: rest) r.
Proof.
  intros (_ & _ & _ & _ & Ht & Hp) (s & Hin & Hn & ->).
  exists s. unfold request_for. rewrite Ht, <- Hp.
  split; [right; exact Hin|]. split; [exact Hn|reflexivity].
Qed.

(** The symbols loop, started with a free slot. *)
Lemma process_symbols_spec syms :
  forall slots b,
    1 <= slots ->
    let b' := process_symbols client now syms slots b in
    same_setup b b'
    /\ (exists new, journal b' = (journal b ++ new)%list /\ within slots new)
    /\ exists reqs,
         Provider.client_calls (data_provider b')
         = (Provider.client_calls (data_provider b) ++ reqs)%list
         /\ Forall (cycle_request b syms) reqs.
Proof.
  induction syms as [|symbol rest IH]; intros slots b Hs; cbn zeta.
  - simpl. split; [apply same_setup_refl|]. split.
    + exists []. rewrite app_nil_r. split; [reflexivity|].
      left. simpl. split; [lia | apply not_elem_of_nil].
    + exists []. rewrite app_nil_r. split; [reflexivity | constructor].
  - simpl. case_bool_decide as Hpos.
    { destruct (IH slots b Hs) as (S & J & reqs & R & F).
      split; [exact S|]. split; [exact J|]. exists reqs. split; [exact R|].
      eapply Forall_impl; [exact F|]. intros r.
      apply cycle_request_tail, same_setup_refl. }
    assert (Hnone : positions b !! symbol = None).
    { destruct (positions b !! symbol) eqn:E; [|reflexivity].
      exfalso. apply Hpos. eauto. }
    pose proof (fetch_data_frame symbol b) as (J1 & _ & S1).
    destruct (fetch_data_requests symbol b) as (reqs1 & R1 & Q1).
    assert (F1 : Forall (cycle_request b (symbol :: rest)) reqs1).
    { destruct Q1 as [-> | ->]; repeat constructor.
      exists symbol. split; [left|]. split; [exact Hnone | reflexivity]. }
    destruct (_fetch_data_for_symbol client now symbol b) as [b1 data]; simpl in *.
    assert (skip :
      let b' := process_symbols client now rest slots (log (no_data_available symbol) b1) in
      same_setup b b'
      /\ (exists new, journal b' = (journal b ++ new)%list /\ within slots new)
      /\ exists reqs,
           Provider.client_calls (data_provider b')
           = (Provider.client_calls (data_provider b) ++ reqs)%list
           /\ Forall (cycle_request b (symbol :: rest)) reqs).
    { destruct (IH slots (log (no_data_available symbol) b1) Hs)
        as (S & (new & J & W) & reqs & R & F).
      cbn zeta. split; [eapply same_setup_trans; [exact S1 | exact S]|]. split.
      - exists (no_data_available symbol :: new). rewrite J. simpl.
        rewrite J1, <- (assoc_L app). split; [reflexivity|].
        apply within_skip; [reflexivity | discriminate | exact W].
      - exists (reqs1 ++ reqs)%list. rewrite R. simpl. rewrite R1, (assoc_L app).
        split; [reflexivity|]. apply Forall_app. split; [exact F1|].
        eapply Forall_impl; [exact F|]. intros r.
        apply cycle_request_tail. exact S1. }
    destruct data as [data|]; [|exact skip].
    destruct (empty data); [exact skip|]. clear skip.
    destruct (apply_strategies client symbol data (strategies b1) slots b1)
      as [[b2 slots'] stop] eqn:A.
    destruct (apply_strategies_journal _ _ _ _ _ _ _ _ Hs A)
      as (S2 & P2 & new1 & J2 & T2 & Fc & Gs).
    destruct stop.
    + destruct (Gs eq_refl) as (Z0 & pre & s & id & -> & Npre).
      split; [eapply same_setup_trans; eauto|]. split.
      * eexists. rewrite J2, J1. split; [reflexivity|]. right.
        split; [lia|]. eauto.
      * exists reqs1. rewrite P2. split; [exact R1 | exact F1].
    + destruct (Fc eq_refl) as (Hs' & N1).
      destruct (IH slots' b2 Hs') as (S & (new & J & W) & reqs & R & F).
      split; [eapply same_setup_trans; [|exact S]; eapply same_setup_trans; eauto|].
      split.
      * exists (new1 ++ new)%list. rewrite J, J2, J1, (assoc_L app).
        split; [reflexivity|]. eapply within_app; eauto.
      * exists (reqs1 ++ reqs)%list. rewrite R, P2, R1, (assoc_L app).
        split; [reflexivity|]. apply Forall_app. split; [exact F1|].
        eapply Forall_impl; [exact F|]. intros r.
        apply cycle_request_tail. eapply same_setup_trans; eauto.
Qed.

Lemma primary_app l1 l2 : primary (l1 ++ l2) = primary l1 + primary l2.
Proof. induction l1 as [|[] l1 IH]; simpl; lia. Qed.

(** An execution that returns an order id has sent exactly one order that
    opens or closes a position. *)
Lemma execute_signal_calls symbol signal b :
  exists calls,
    client_calls (_execute_signal client symbol signal b).1
    = (client_calls b ++ calls)%list
    /\ (is_Some (_execute_signal client symbol signal b).2 -> primary calls = 1).
Proof.
  unfold _execute_signal, record_call, order_id_of.
  repeat case_match; simpl;
    try (exists []; rewrite app_nil_r; split; [reflexivity | intros [? [=]]]);
    try (eexists [_]; split; [reflexivity|];
         first [intros _; reflexivity | intros [? [=]]]);
    try (eexists [_; _]; rewrite <- (assoc_L app); split; [reflexivity|];
         first [intros _; reflexivity | intros [? [=]]]).
Qed.

(** Every slot taken stands for an order that opened or closed a position. *)
Lemma apply_strategies_calls symbol data strats :
  forall slots b,
    let b' := (apply_strategies client symbol data strats slots b).1.1 in
    exists new calls,
      journal b' = (journal b ++ new)%list
      /\ client_calls b' = (client_calls b ++ calls)%list
      /\ taken new <= primary calls.
Proof.
  induction strats as [|strategy rest IH]; intros slots b; cbn zeta; simpl.
  - exists [], []. rewrite !app_nil_r. repeat split; simpl; lia.
  - set (line := analysing symbol (Strategy.name strategy)).
    assert (step : forall b1 extra calls1 slots1,
               journal b1 = (journal b ++ line :: extra)%list ->
               client_calls b1 = (client_calls b ++ calls1)%list ->
               taken extra <= primary calls1 ->
               exists new calls,
                 journal (apply_strategies client symbol data rest slots1 b1).1.1
                 = (journal b ++ new)%list
                 /\ client_calls (apply_strategies client symbol data rest slots1 b1).1.1
                    = (client_calls b ++ calls)%list
                 /\ taken new <= primary calls).
    { intros b1 extra calls1 slots1 J C T.
      destruct (IH slots1 b1) as (new & calls & J' & C' & T').
      exists (line :: extra ++ new)%list, (calls1 ++ calls)%list.
      rewrite J', C', J, C, <- !(assoc_L app). simpl.
      repeat split. rewrite taken_app, primary_app. unfold line. simpl. lia. }
    destruct (Strategy.analyze strategy symbol data) as [[signal|]|].
    + pose proof (execute_signal_frame symbol signal (log line b)) as (J & _ & _).
      destruct (execute_signal_calls symbol signal (log line b)) as (calls1 & C & P).
      destruct (_execute_signal client symbol signal (log line b)) as [b1 [order_id|]];
        simpl in J, C, P.
      * specialize (P ltac:(eauto)).
        destruct (truthy_string order_id).
        -- destruct (slots - 1 <=? 0).
           ++ simpl. exists [line; slot_taken symbol order_id; reached_maximum_stopping], calls1.
              rewrite J, C, <- !(assoc_L app). simpl. repeat split. lia.
           ++ destruct (step (log (slot_taken symbol order_id) b1)
                          [slot_taken symbol order_id] calls1 (slots - 1))
                as (new & calls & H); simpl; [| exact C | lia | eauto].
              rewrite J, <- (assoc_L app). reflexivity.
        -- apply (step b1 [] calls1); [rewrite J; reflexivity | exact C | simpl; lia].
      * apply (step b1 [] calls1); [rewrite J; reflexivity | exact C |].
        simpl. clear. induction calls1 as [|[] l IH]; simpl; try case_match; lia.
    + apply (step (log line b) [] []); simpl; rewrite ?app_nil_r; try reflexivity; lia.
    + apply (step (log (strategy_error symbol (Strategy.name strategy)) (log line b))
                  [strategy_error symbol (Strategy.name strategy)] []);
        simpl; rewrite ?app_nil_r, <- ?(assoc_L app); try reflexivity; lia.
Qed.

Lemma primary_nonneg l : 0 <= primary l.
Proof. induction l as [|[] l IH]; simpl; try case_match; lia. Qed.

(** The same for the symbols loop. *)
Lemma process_symbols_calls syms :
  forall slots b,
    let b' := process_symbols client now syms slots b in
    exists new calls,
      journal b' = (journal b ++ new)%list
      /\ client_calls b' = (client_calls b ++ calls)%list
      /\ taken new <= primary calls.
Proof.
  induction syms as [|symbol rest IH]; intros slots b; cbn zeta; simpl.
  - exists [], []. rewrite !app_nil_r. repeat split; simpl; lia.
  - case_bool_decide; [apply IH|].
    pose proof (fetch_data_frame symbol b) as (J1 & C1 & _).
    destruct (_fetch_data_for_symbol client now symbol b) as [b1 data]; simpl in *.
    assert (skip :
      exists new calls,
        journal (process_symbols client now rest slots (log (no_data_available symbol) b1))
        = (journal b ++ new)%list
        /\ client_calls (process_symbols client now rest slots
                           (log (no_data_available symbol) b1))
           = (client_calls b ++ calls)%list
        /\ taken new <= primary calls).
    { destruct (IH slots (log (no_data_available symbol) b1)) as (new & calls & J & C & T).
      exists (no_data_available symbol :: new), calls.
      rewrite J, C. simpl. rewrite J1, C1, <- (assoc_L app). repeat split. exact T. }
    destruct data as [data|]; [|exact skip].
    destruct (empty data); [exact skip|]. clear skip.
    pose proof (apply_strategies_calls symbol data (strategies b1) slots b1)
      as (new1 & calls1 & J2 & C2 & T2).
    destruct (apply_strategies client symbol data (strategies b1) slots b1)
      as [[b2 slots'] stop]; simpl in *.
    destruct stop.
    + exists new1, calls1. rewrite J2, C2, J1, C1. repeat split. exact T2.
    + destruct (IH slots' b2) as (new & calls & J & C & T).
      exists (new1 ++ new)%list, (calls1 ++ calls)%list.
      rewrite J, C, J2, C2, J1, C1, !(assoc_L app). repeat split.
      rewrite taken_app, primary_app. lia.
Qed.

(** The refresh makes two client calls and leaves journal, provider and
    configuration alone. *)
Lemma refreshed_frame b :
  journal (refreshed client b) = journal b
  /\ data_provider (refreshed client b) = data_provider b
  /\ symbols (refreshed client b) = symbols b
  /\ max_positions (refreshed client b) = max_positions b
  /\ time_frame (refreshed client b) = time_frame b
  /\ client_calls (refreshed client b) = (client_calls b ++ [get_account; list_positions])%list.
Proof.
  unfold refreshed, _update_positions, _update_account_info.
  repeat case_match; simpl; rewrite <- ?(assoc_L app); repeat split; reflexivity.
Qed.

(** The slot counter of a cycle. After the refresh the cycle has
    [slots = max(0, max_positions - position count)] free slots. With none
    it only logs that the maximum is reached: no analysis, no order, no data
    request. Otherwise every signal whose execution returns an order id
    takes one slot, at most [slots] are taken in the cycle, the cycle stops
    right after the one that takes the last, and every slot taken stands
    for a market buy or a position close sent to the client (a buy may be
    followed by a protective stop order, which takes no slot). *)
Theorem cycle_respects_slots (b : TradingBot) :
  let slots := Z.max 0 (max_positions b - Z.of_nat (size (positions (refreshed client b)))) in
  let b' := _trading_cycle client now b in
  (slots = 0 -> b' = log maximum_positions_reached (refreshed client b))
  /\ exists new calls,
       journal b' = (journal b ++ new)%list
       /\ client_calls b'
          = (client_calls b ++ [get_account; list_positions] ++ calls)%list
       /\ 0 <= taken new <= slots
       /\ taken new <= primary calls
       /\ (taken new < slots -> reached_maximum_stopping ∉ new)
       /\ (0 < slots -> taken new = slots ->
           exists pre symbol order_id,
             new = (pre ++ [slot_taken symbol order_id; reached_maximum_stopping])%list
             /\ reached_maximum_stopping ∉ pre).
Proof.
  cbv zeta. unfold _trading_cycle. fold (refreshed client b).
  destruct (refreshed_frame b) as (J & _ & _ & M & _ & C).
  unfold available_slots_of. rewrite M.
  set (slots := Z.max 0 _).
  destruct (slots =? 0) eqn:Z0.
  - apply Z.eqb_eq in Z0. split; [reflexivity|].
    exists [maximum_positions_reached], []. simpl. rewrite J, C, Z0.
    repeat split; intros; simpl in *; lia.
  - apply Z.eqb_neq in Z0. assert (Hs : 1 <= slots) by (unfold slots in *; lia).
    split; [intros; lia|].
    destruct (process_symbols_spec (symbols (refreshed client b)) slots (refreshed client b) Hs)
      as (_ & (new & Jn & W) & _).
    destruct (process_symbols_calls (symbols (refreshed client b)) slots (refreshed client b))
      as (new' & calls & Jn' & Cn & T).
    rewrite Jn in Jn'. apply app_inv_head in Jn'. subst new'.
    exists new, calls. rewrite Jn, Cn, J, C, <- (assoc_L app).
    split; [reflexivity|]. split; [reflexivity|].
    pose proof (taken_nonneg new).
    destruct W as [[W1 W2] | [W1 W2]].
    + split; [lia|]. split; [lia|]. split; [intros _; exact W2 | intros; lia].
    + split; [lia|]. split; [lia|]. split; [intros; lia | intros _ _; exact W2].
Qed.

(** C1, as amended. Every data request of a cycle goes to the caching data
    provider and asks, for one tracked symbol without an open position, for
    100 bars at the bot's configured timeframe (what the strategies declare
    in [get_required_data] plays no part); when the fetch for a symbol
    gives nothing or an empty table, the symbol is skipped and the loop goes
    on with the next one. *)
Theorem cycle_data_requests (b : TradingBot) :
  (exists reqs,
      Provider.client_calls (data_provider (_trading_cycle client now b))
      = (Provider.client_calls (data_provider b) ++ reqs)%list
      /\ Forall (cycle_request (refreshed client b) (symbols b)) reqs)
  /\ (forall symbol,
        _fetch_data_for_symbol client now symbol b
        = let '(p, data) :=
            Provider.get_bars (client_get_bars client) now (request_for b symbol)
              true (data_provider b) in
          (set_provider p b, Provider.items data !! symbol))
  /\ (forall symbol rest slots,
        positions b !! symbol = None ->
        let '(b1, data) := _fetch_data_for_symbol client now symbol b in
        (data = None \/ exists d, data = Some d /\ empty d = true) ->
        process_symbols client now (symbol :: rest) slots b
        = process_symbols client now rest slots (log (no_data_available symbol) b1)).
Proof.
  split; [|split].
  - unfold _trading_cycle. fold (refreshed client b).
    destruct (refreshed_frame b) as (_ & P & Sy & _ & _ & _).
    destruct (available_slots_of (refreshed client b) =? 0) eqn:Z0.
    + exists []. simpl. rewrite P, app_nil_r. split; [reflexivity | constructor].
    + apply Z.eqb_neq in Z0.
      assert (Hs : 1 <= available_slots_of (refreshed client b))
        by (unfold available_slots_of in *; lia).
      destruct (process_symbols_spec (symbols (refreshed client b)) _ (refreshed client b) Hs)
        as (_ & _ & reqs & R & F).
      exists reqs. rewrite R, P. split; [reflexivity|]. rewrite <- Sy. exact F.
  - intros symbol. reflexivity.
  - intros symbol rest slots Hn. simpl.
    assert (bool_decide (is_Some (positions b !! symbol)) = false) as ->.
    { apply bool_decide_eq_false. rewrite Hn. intros [? [=]]. }
    destruct (_fetch_data_for_symbol client now symbol b) as [b1 data].
    intros [-> | (d & -> & ->)]; reflexivity.
Qed.

(** What [_cleanup] does to the provider: it prints one line and leaves
    the cache and its timestamps as they are. *)
Lemma cleanup_keeps_cache (b : TradingBot) :
  Provider.cache (data_provider (_cleanup b)) = Provider.cache (data_provider b)
  /\ Provider.cache_timestamps (data_provider (_cleanup b))
     = Provider.cache_timestamps (data_provider b)
  /\ Provider.printed (data_provider (_cleanup b))
     = (Provider.printed (data_provider b) ++ ["Data provider closed"])%list.
Proof. repeat split. Qed.

End Client.


(** C1, against the claim as stated: the only strategy declares hourly bars
    and a lookback of 60, and the cycle asks the data provider for 100
    one-minute bars. *)
Lemma data_request_ignores_requirements :
  map (fun s => (Strategy.timeframe (Strategy.get_required_data s),
                 Strategy.lookback_bars (Strategy.get_required_data s)))
      (strategies ma_bot) = [("1H", 60)]
  /\ Provider.client_calls (data_provider (_trading_cycle accepting ProviderTerms.ticking ma_bot))
     = [Provider.mkRequest ["AAPL"] "1Min" 100 None None].
Proof. split; vm_compute; reflexivity. Qed.

(** One free slot, and the cycle submits two orders, the market buy and its
    protective stop; the stop takes no slot. *)
Lemma one_slot_two_orders :
  let b' := _trading_cycle accepting ProviderTerms.ticking eager_bot in
  max_positions eager_bot - Z.of_nat (size (positions b')) = 1
  /\ orders (client_calls b')
     = [mkOrder "AAPL" 40 "buy" "market" None "day";
        mkOrder "AAPL" 40 "sell" "stop" (Some 95%float) "gtc"]
  /\ journal b' = [analysing "AAPL" "always_buy"; slot_taken "AAPL" "order-1";
                   reached_maximum_stopping].
Proof. cbv zeta. repeat split; vm_compute; reflexivity. Qed.

(** C3, the code against the claim. One free slot, two tracked symbols with
    a buy signal each, and a client whose [create_order] raises on the
    protective stop: [_execute_signal] has sent the market buy when the
    stop raises, returns no order id from its handler, and the cycle, which
    counts returned ids, takes no slot and goes on. It sends two market buys
    (four order submissions in all) with one slot free, and never logs that
    the maximum is reached. With a client that accepts the stop, the same
    bot stops after the first buy. *)
Theorem buys_exceed_free_slots :
  let b' := _trading_cycle stops_raise ProviderTerms.ticking eager_bot in
  Z.max 0 (max_positions eager_bot
           - Z.of_nat (size (positions (refreshed stops_raise eager_bot)))) = 1
  /\ orders (client_calls b')
     = [mkOrder "AAPL" 40 "buy" "market" None "day";
        mkOrder "AAPL" 40 "sell" "stop" (Some 95%float) "gtc";
        mkOrder "MSFT" 40 "buy" "market" None "day";
        mkOrder "MSFT" 40 "sell" "stop" (Some 95%float) "gtc"]
  /\ primary (client_calls b') = 2
  /\ taken (journal b') = 0
  /\ journal b' = [analysing "AAPL" "always_buy"; analysing "MSFT" "always_buy"]
  /\ primary (client_calls (_trading_cycle accepting ProviderTerms.ticking eager_bot)) = 1.
Proof. cbv zeta. repeat split; vm_compute; reflexivity. Qed.

(** C9, on a run of one cycle: the loop exits, [_cleanup] runs, and the
    provider still holds the entry the cycle cached; [clear_cache] was never
    run (its line is not printed), and awaiting it would empty the cache. *)
Theorem cleanup_leaves_cache :
  is_running <$> after_run = Some false
  /\ (fun b => map fst (map_to_list (Provider.cache (data_provider b)))) <$> after_run
     = Some ["AAPL_1Min_100"]
  /\ (fun b => Provider.printed (data_provider b)) <$> after_run
     = Some ["Data provider closed"]
  /\ (fun b => map fst (map_to_list
                 (Provider.cache
                    (Provider.await Provider.clear_cache (data_provider b)).1)))
       <$> after_run
     = Some [].
Proof. repeat split; vm_compute; reflexivity. Qed.

End TraderFacts.

(** ** What a trading cycle sends, and when the loop ends *)

Module CycleFacts.
Import Trader SizerTerms TraderTerms CycleTerms.

(** A position size is positive, and it needs a stop-loss other than zero. *)
Lemma position_size_positive equity risk pr sl qty :
  position_size equity risk pr sl = Some qty ->
  0 < qty /\ exists s, sl = Some s /\ truthy_float s = true.
Proof.
  unfold position_size.
  destruct (truthy_opt_float pr) eqn:Tp; [|discriminate].
  destruct (truthy_opt_float sl) eqn:Ts; [|discriminate]. simpl.
  destruct pr as [p|]; [|discriminate]. destruct sl as [s|]; [|discriminate].
  destruct (PrimFloat.leb _ _); [discriminate|].
  destruct (int_of_float _) as [q|]; [|discriminate].
  destruct (q <=? 0) eqn:Q; [discriminate|].
  intros [= <-]. apply Z.leb_gt in Q. split; [exact Q|]. eauto.
Qed.

(** A float that compares equal to zero is a zero. *)
Lemma eqb_zero (x : float) :
  PrimFloat.eqb x 0 = true -> exists s, Prim2SF x = S754_zero s.
Proof.
  rewrite FloatAxioms.eqb_spec. change (Prim2SF 0) with (S754_zero false).
  unfold SFeqb. destruct (Prim2SF x) as [s|s| |s m e]; simpl; eauto; try discriminate.
  - destruct s; discriminate.
  - destruct s; discriminate.
Qed.

(** Zero times any float is a zero or [nan], *)
Lemma zero_mul (x r : float) :
  PrimFloat.eqb x 0 = true ->
  (exists s, Prim2SF (x * r) = S754_zero s) \/ Prim2SF (x * r) = S754_nan.
Proof.
  intros [s0 H]%eqb_zero. rewrite FloatAxioms.mul_spec, H.
  unfold SF64mul, SFmul. destruct (Prim2SF r); eauto.
Qed.

(** and such a float divided by any other has the integer part zero, or
    none. *)
Lemma zero_div (a d : float) :
  (exists s, Prim2SF a = S754_zero s) \/ Prim2SF a = S754_nan ->
  int_of_float (a / d) = Some 0 \/ int_of_float (a / d) = None.
Proof.
  intros H. unfold int_of_float. rewrite FloatAxioms.div_spec.
  unfold SF64div, SFdiv.
  destruct H as [[s ->] | ->]; destruct (Prim2SF d); simpl; auto.
Qed.

(** Without equity no size comes out, whatever the signal says. *)
Lemma position_size_no_equity equity risk pr sl :
  PrimFloat.eqb equity 0 = true -> position_size equity risk pr sl = None.
Proof.
  intros Z. unfold position_size. destruct (negb _ || negb _); [reflexivity|].
  destruct pr as [p|]; [|reflexivity]. destruct sl as [s|]; [|reflexivity].
  destruct (PrimFloat.leb _ _); [reflexivity|].
  destruct (zero_div (equity * risk) (PrimFloat.abs (p - s)) (zero_mul _ risk Z))
    as [-> | ->]; reflexivity.
Qed.

Section Client.
Variable client : Client.
Variable now : nat -> Z.

(** What one execution sends. *)
Lemma execute_signal_sends symbol signal b :
  exists calls,
    client_calls (_execute_signal client symbol signal b).1
    = (client_calls b ++ calls)%list
    /\ signal_calls (funded b) symbol calls.
Proof.
  unfold _execute_signal.
  destruct (Strategy.action signal) as [a|];
    [| exists []; rewrite app_nil_r; split; [reflexivity | constructor]].
  assert (N : exists calls, client_calls b = (client_calls b ++ calls)%list
                            /\ signal_calls (funded b) symbol calls)
    by (exists []; rewrite app_nil_r; split; [reflexivity | constructor]).
  assert (C : exists calls,
             client_calls
               (match client_close_position client (client_calls b) symbol with
                | Ret order => (record_call (close_position symbol) b, order_id_of order)
                | Raise => (record_call (close_position symbol) b, None)
                end).1 = (client_calls b ++ calls)%list
             /\ signal_calls (funded b) symbol calls).
  { exists [close_position symbol].
    destruct (client_close_position _ _ _); (split; [reflexivity | constructor]). }
  destruct (position_size _ _ _ _) as [qty|] eqn:P.
  - assert (Fu : funded b).
    { unfold funded. destruct (PrimFloat.eqb (equity_of b) 0) eqn:Z; [|reflexivity].
      rewrite (position_size_no_equity _ _ _ _ Z) in P. discriminate. }
    apply position_size_positive in P as (Q & s & Hs & T). rewrite Hs.
    repeat case_match; simplify_eq/=; try exact N; try exact C;
      try (eexists [_]; split; [reflexivity | apply (sends_buy _ symbol _ Fu Q)]);
      try (eexists [_; _]; rewrite <- (assoc_L app); split;
           [reflexivity | apply (sends_buy_and_stop _ symbol _ _ Fu Q T)]).
  - repeat case_match; simplify_eq/=; try exact N; try exact C.
Qed.

(** The flags and the account of the bot are not touched by a cycle once
    the refresh is done. *)
Lemma execute_signal_flags symbol signal b :
  let b' := (_execute_signal client symbol signal b).1 in
  is_running b' = is_running b /\ market_hours_only b' = market_hours_only b
  /\ account_info b' = account_info b.
Proof.
  unfold _execute_signal, record_call. repeat case_match; simpl; auto.
Qed.

Lemma apply_strategies_flags symbol data strats :
  forall slots b,
    let b' := (apply_strategies client symbol data strats slots b).1.1 in
    is_running b' = is_running b /\ market_hours_only b' = market_hours_only b
    /\ account_info b' = account_info b.
Proof.
  induction strats as [|st strats IH]; intros slots b; simpl; [auto|].
  destruct (Strategy.analyze st symbol data) as [[signal|]|];
    [| exact (IH slots (log (analysing symbol (Strategy.name st)) b))
     | exact (IH slots (log (strategy_error symbol (Strategy.name st))
                          (log (analysing symbol (Strategy.name st)) b)))].
  pose proof (execute_signal_flags symbol signal
                (log (analysing symbol (Strategy.name st)) b)) as (R & M & A).
  destruct (_execute_signal _ _ _) as [b1 [order_id|]]; simpl in R, M, A.
  - destruct (truthy_string order_id).
    + destruct (slots - 1 <=? 0); [simpl; auto|].
      destruct (IH (slots - 1) (log (slot_taken symbol order_id) b1)) as (-> & -> & ->).
      auto.
    + destruct (IH slots b1) as (-> & -> & ->). auto.
  - destruct (IH slots b1) as (-> & -> & ->). auto.
Qed.

Lemma process_symbols_flags syms :
  forall slots b,
    let b' := process_symbols client now syms slots b in
    is_running b' = is_running b /\ market_hours_only b' = market_hours_only b.
Proof.
  induction syms as [|symbol rest IH]; intros slots b; simpl; [auto|].
  case_bool_decide; [exact (IH slots b)|].
  unfold _fetch_data_for_symbol.
  destruct (Provider.get_bars _ _ _ _ _) as [p d].
  destruct (Provider.items d !! symbol) as [data|];
    [| destruct (IH slots (log (no_data_available symbol) (set_provider p b))) as [-> ->];
       auto].
  destruct (empty data);
    [destruct (IH slots (log (no_data_available symbol) (set_provider p b))) as [-> ->];
     auto|].
  pose proof (apply_strategies_flags symbol data (strategies (set_provider p b)) slots
                (set_provider p b)) as (R & M & _).
  destruct (apply_strategies _ _ _ _ _ _) as [[b2 slots'] stop]; simpl in R, M.
  destruct stop; [auto|]. destruct (IH slots' b2) as [-> ->]. auto.
Qed.

Lemma cycle_flags b :
  is_running (_trading_cycle client now b) = is_running b
  /\ market_hours_only (_trading_cycle client now b) = market_hours_only b.
Proof.
  unfold _trading_cycle.
  assert (F : is_running (_update_positions client (_update_account_info client b))
              = is_running b
              /\ market_hours_only (_update_positions client (_update_account_info client b))
                 = market_hours_only b).
  { unfold _update_positions, _update_account_info. repeat case_match; simpl; auto. }
  destruct (available_slots_of _ =? 0); [simpl; exact F|].
  destruct (process_symbols_flags
              (symbols (_update_positions client (_update_account_info client b)))
              (available_slots_of (_update_positions client (_update_account_info client b)))
              (_update_positions client (_update_account_info client b))) as [-> ->].
  exact F.
Qed.

Lemma signal_calls_impl (F G : Prop) symbol calls :
  (F -> G) -> signal_calls F symbol calls -> signal_calls G symbol calls.
Proof. intros H S. destruct S; constructor; auto. Qed.

Lemma signal_runs_impl (F G : Prop) (P Q : string -> Prop) calls :
  (F -> G) -> (forall s, P s -> Q s) -> signal_runs F P calls -> signal_runs G Q calls.
Proof.
  intros HF H R. induction R; econstructor; eauto using signal_calls_impl.
Qed.

Lemma signal_runs_app F free l1 l2 :
  signal_runs F free l1 -> signal_runs F free l2 -> signal_runs F free (l1 ++ l2).
Proof.
  intros R1 R2. induction R1; [exact R2|].
  rewrite <- (assoc_L app). econstructor; eauto.
Qed.

Lemma funded_account b b' : account_info b' = account_info b -> funded b' -> funded b.
Proof. unfold funded, equity_of. intros ->. auto. Qed.

(** The strategies loop sends runs for its symbol only. *)
Lemma apply_strategies_sends symbol data strats (free : string -> Prop) :
  free symbol ->
  forall slots b,
    exists calls,
      client_calls (apply_strategies client symbol data strats slots b).1.1
      = (client_calls b ++ calls)%list
      /\ signal_runs (funded b) free calls.
Proof.
  intros F. induction strats as [|strategy rest IH]; intros slots b; simpl.
  - exists []. rewrite app_nil_r. split; [reflexivity | constructor].
  - set (line := analysing symbol (Strategy.name strategy)).
    assert (step : forall b1 calls1 slots1,
               client_calls b1 = (client_calls b ++ calls1)%list ->
               account_info b1 = account_info b ->
               signal_calls (funded b) symbol calls1 ->
               exists calls,
                 client_calls (apply_strategies client symbol data rest slots1 b1).1.1
                 = (client_calls b ++ calls)%list
                 /\ signal_runs (funded b) free calls).
    { intros b1 calls1 slots1 C A S.
      destruct (IH slots1 b1) as (calls & C' & R).
      exists (calls1 ++ calls)%list. rewrite C', C, (assoc_L app).
      split; [reflexivity|]. econstructor; eauto.
      exact (signal_runs_impl _ _ _ _ _ (funded_account _ _ A) (fun _ H => H) R). }
    destruct (Strategy.analyze strategy symbol data) as [[signal|]|].
    + destruct (execute_signal_sends symbol signal (log line b)) as (calls1 & C & S).
      pose proof (execute_signal_flags symbol signal (log line b)) as (_ & _ & A).
      destruct (_execute_signal client symbol signal (log line b)) as [b1 [order_id|]];
        simpl in C, A.
      * destruct (truthy_string order_id).
        -- destruct (slots - 1 <=? 0).
           ++ simpl. exists calls1. rewrite C. split; [reflexivity|].
              rewrite <- (app_nil_r calls1). econstructor; eauto. constructor.
           ++ apply (step _ calls1); [exact C | exact A | exact S].
        -- apply (step _ calls1); [exact C | exact A | exact S].
      * apply (step _ calls1); [exact C | exact A | exact S].
    + apply (step _ []); [simpl; rewrite app_nil_r; reflexivity | reflexivity | constructor].
    + apply (step _ []); [simpl; rewrite app_nil_r; reflexivity | reflexivity | constructor].
Qed.

(** The symbols loop sends runs for tracked symbols without a position. *)
Lemma process_symbols_sends syms :
  forall slots b,
    exists calls,
      client_calls (process_symbols client now syms slots b)
      = (client_calls b ++ calls)%list
      /\ signal_runs (funded b) (unheld b syms) calls.
Proof.
  induction syms as [|symbol rest IH]; intros slots b; simpl.
  - exists []. rewrite app_nil_r. split; [reflexivity | constructor].
  - assert (tail : forall b1 slots1 calls1,
               client_calls b1 = (client_calls b ++ calls1)%list ->
               positions b1 = positions b ->
               account_info b1 = account_info b ->
               signal_runs (funded b) (unheld b (symbol :: rest)) calls1 ->
               exists calls,
                 client_calls (process_symbols client now rest slots1 b1)
                 = (client_calls b ++ calls)%list
                 /\ signal_runs (funded b) (unheld b (symbol :: rest)) calls).
    { intros b1 slots1 calls1 C P A R1.
      destruct (IH slots1 b1) as (calls & C' & R).
      exists (calls1 ++ calls)%list. rewrite C', C, (assoc_L app).
      split; [reflexivity|]. apply signal_runs_app; [exact R1|].
      refine (signal_runs_impl _ _ _ _ _ (funded_account _ _ A) _ R).
      intros s [Hin Hn]. split; [right; exact Hin | rewrite <- P; exact Hn]. }
    case_bool_decide as Hpos.
    { apply (tail b slots []);
        [rewrite app_nil_r; reflexivity | reflexivity | reflexivity | constructor]. }
    assert (Hnone : positions b !! symbol = None).
    { destruct (positions b !! symbol) eqn:E; [|reflexivity].
      exfalso. apply Hpos. eauto. }
    pose proof (TraderFacts.fetch_data_frame client now symbol b) as (_ & C1 & S1).
    assert (A1 : account_info (_fetch_data_for_symbol client now symbol b).1
                 = account_info b).
    { unfold _fetch_data_for_symbol. destruct (Provider.get_bars _ _ _ _ _). reflexivity. }
    destruct (_fetch_data_for_symbol client now symbol b) as [b1 data]; simpl in *.
    assert (P1 : positions b1 = positions b) by apply S1.
    assert (skip : exists calls,
               client_calls (process_symbols client now rest slots
                               (log (no_data_available symbol) b1))
               = (client_calls b ++ calls)%list
               /\ signal_runs (funded b) (unheld b (symbol :: rest)) calls).
    { apply (tail _ slots []); [simpl; rewrite C1, app_nil_r; reflexivity
                               | exact P1 | exact A1 | constructor]. }
    destruct data as [data|]; [|exact skip].
    destruct (empty data); [exact skip|]. clear skip.
    destruct (apply_strategies_sends symbol data (strategies b1)
                (unheld b (symbol :: rest)) ltac:(split; [left | exact Hnone]) slots b1)
      as (calls1 & C2 & R2).
    apply (signal_runs_impl _ (funded b) _ _ _ (funded_account _ _ A1) (fun _ H => H))
      in R2.
    pose proof (apply_strategies_flags symbol data (strategies b1) slots b1)
      as (_ & _ & A2).
    assert (P2 : positions (apply_strategies client symbol data (strategies b1) slots b1).1.1
                 = positions b).
    { rewrite <- P1.
      assert (G : forall strats sl b0,
                 positions (apply_strategies client symbol data strats sl b0).1.1
                 = positions b0).
      { induction strats as [|st strats IHs]; intros sl b0; simpl; [reflexivity|].
        destruct (Strategy.analyze st symbol data) as [[signal|]|];
          try (rewrite IHs; reflexivity).
        pose proof (TraderFacts.execute_signal_frame client symbol signal
                      (log (analysing symbol (Strategy.name st)) b0)) as (_ & _ & S).
        destruct (_execute_signal _ _ _ _) as [b3 [order_id|]]; simpl in S.
        - destruct (truthy_string order_id); [|rewrite IHs; apply S].
          destruct (sl - 1 <=? 0); [simpl; apply S | rewrite IHs; apply S].
        - rewrite IHs. apply S. }
      apply G. }
    destruct (apply_strategies client symbol data (strategies b1) slots b1)
      as [[b2 slots'] stop]; simpl in *.
    destruct stop.
    + exists calls1. rewrite C2, C1. split; [reflexivity | exact R2].
    + apply (tail b2 slots' calls1);
        [rewrite C2, C1; reflexivity | exact P2 | congruence | exact R2].
Qed.

(** A cycle makes the two refresh calls and then sends runs for tracked
    symbols that have no position after the refresh. *)
Lemma cycle_sends (b : TradingBot) :
  exists calls,
    client_calls (_trading_cycle client now b)
    = (client_calls b ++ [get_account; list_positions] ++ calls)%list
    /\ signal_runs (funded (refreshed client b))
                   (unheld (refreshed client b) (symbols b)) calls.
Proof.
  unfold _trading_cycle. fold (refreshed client b).
  destruct (TraderFacts.refreshed_frame client b) as (_ & _ & Sy & _ & _ & C).
  destruct (available_slots_of (refreshed client b) =? 0).
  - exists []. simpl. rewrite C. split; [reflexivity | constructor].
  - destruct (process_symbols_sends (symbols (refreshed client b))
                (available_slots_of (refreshed client b)) (refreshed client b))
      as (calls & C' & R).
    exists calls. rewrite C', C, <- (assoc_L app). split; [reflexivity|].
    rewrite <- Sy. exact R.
Qed.

(** Every call of a run is an order of a free symbol; a buy or a stop needs
    a funded account. *)
Lemma signal_runs_elem F free calls c :
  signal_runs F free calls -> c ∈ calls ->
  (exists o, c = create_order o /\ free (ord_symbol o) /\ 0 < ord_qty o /\ F)
  \/ (exists s, c = close_position s /\ free s).
Proof.
  intros R. induction R as [|symbol calls rest Fr S R IH]; [intros H; inversion H|].
  rewrite elem_of_app. intros [H | H]; [|auto].
  destruct S; set_solver.
Qed.

(** A stop order inside a run comes right after the market buy for the same
    symbol and quantity. *)
Lemma signal_runs_stop F free calls pre o post :
  signal_runs F free calls -> calls = (pre ++ create_order o :: post)%list ->
  ord_type o = "stop" ->
  exists pre' stop_loss,
    pre = (pre' ++ [create_order (market_buy (ord_symbol o) (ord_qty o))])%list
    /\ o = protective_stop (ord_symbol o) (ord_qty o) stop_loss
    /\ truthy_float stop_loss = true.
Proof.
  intros R. revert pre. induction R as [|symbol calls rest Fr S R IH]; intros pre E T.
  - destruct pre; discriminate.
  - symmetry in E. apply app_eq_inv in E as [(k & Ep & Er) | (k & Ec & Ep)].
    + destruct (IH k Er T) as (pre' & sl & -> & Ho & Ts).
      exists (calls ++ pre')%list, sl. rewrite Ep, (assoc_L app). auto.
    + destruct k as [|c k].
      { rewrite app_nil_r in Ec. simpl in Ep.
        destruct (IH [] (eq_sym Ep) T) as (pre' & sl & E' & _).
        destruct pre'; discriminate. }
      simpl in Ep. injection Ep as <- ->.
      destruct S.
      * destruct pre; discriminate.
      * destruct pre as [|? [|]]; simplify_eq/=.
      * destruct pre as [|? [|? [|]]]; simplify_eq/=.
        exists [], stop_loss. auto.
      * destruct pre as [|? [|]]; simplify_eq/=.
Qed.

(** In a trading cycle every order goes to a tracked symbol that has no
    position after the refresh: a [create_order] as well as a
    [close_position]. A position the bot holds is never closed by a cycle.
    After the two calls of the refresh the cycle asks the client for
    neither the account, the positions nor the clock again (its requests
    for bars go through the data provider and are not among these
    calls). *)
Theorem orders_only_without_position (b : TradingBot) :
  exists calls,
    client_calls (_trading_cycle client now b)
    = (client_calls b ++ [get_account; list_positions] ++ calls)%list
    /\ (forall o, create_order o ∈ calls ->
          ord_symbol o ∈ symbols b
          /\ positions (refreshed client b) !! ord_symbol o = None
          /\ 0 < ord_qty o)
    /\ (forall s, close_position s ∈ calls ->
          s ∈ symbols b /\ positions (refreshed client b) !! s = None)
    /\ (get_account ∉ calls) /\ (list_positions ∉ calls) /\ (get_clock ∉ calls).
Proof.
  destruct (cycle_sends b) as (calls & C & R). exists calls. split; [exact C|].
  pose proof (fun c => signal_runs_elem _ _ _ c R) as E.
  repeat split.
  - destruct (E _ H) as [(o' & [= <-] & [U _] & _) | (s & [=] & _)]. exact U.
  - destruct (E _ H) as [(o' & [= <-] & [_ U] & _) | (s & [=] & _)]. exact U.
  - destruct (E _ H) as [(o' & [= <-] & _ & Q & _) | (s & [=] & _)]. exact Q.
  - destruct (E _ H) as [(o' & [=] & _) | (s' & [= <-] & [U _])]. exact U.
  - destruct (E _ H) as [(o' & [=] & _) | (s' & [= <-] & [_ U])]. exact U.
  - intros H. destruct (E _ H) as [(? & [=] & _) | (? & [=] & _)].
  - intros H. destruct (E _ H) as [(? & [=] & _) | (? & [=] & _)].
  - intros H. destruct (E _ H) as [(? & [=] & _) | (? & [=] & _)].
Qed.

(** Every stop order of a trading cycle comes directly after a market buy
    for the same symbol and the same quantity; it is a good-till-cancelled
    sell with a stop price other than zero. *)
Theorem stop_follows_its_buy (b : TradingBot) (pre post : list ClientCall) (o : OrderArgs) :
  client_calls (_trading_cycle client now b)
  = (client_calls b ++ pre ++ create_order o :: post)%list ->
  ord_type o = "stop" ->
  exists pre' stop_loss,
    pre = (pre' ++ [create_order (market_buy (ord_symbol o) (ord_qty o))])%list
    /\ o = protective_stop (ord_symbol o) (ord_qty o) stop_loss
    /\ truthy_float stop_loss = true.
Proof.
  intros E T. destruct (cycle_sends b) as (calls & C & R).
  rewrite C in E. apply app_inv_head in E.
  destruct pre as [|c1 [|c2 pre]]; simplify_eq/=.
  destruct (signal_runs_stop _ _ _ _ _ _ R eq_refl T) as (pre' & sl & -> & Ho & Ts).
  exists (get_account :: list_positions :: pre'), sl. auto.
Qed.


Section Loop.
Variable stop_request : nat -> bool.

(** One round of the loop that is not interrupted keeps the bot running. *)
Lemma main_loop_step fuel round b :
  is_running b = true -> stop_request round = false ->
  exists b1, is_running b1 = true
             /\ main_loop client now stop_request (S fuel) round b
                = main_loop client now stop_request fuel (S round) b1.
Proof.
  intros R S. simpl. rewrite S, R.
  destruct (market_hours_only b).
  - unfold _check_market_status.
    destruct (client_get_clock client (client_calls b)) as [[|]|].
    + eexists. split; [|reflexivity]. rewrite (proj1 (cycle_flags _)). exact R.
    + eexists. split; [|reflexivity]. exact R.
    + eexists. split; [|reflexivity]. exact R.
  - eexists. split; [|reflexivity]. rewrite (proj1 (cycle_flags _)). exact R.
Qed.

Lemma main_loop_until k :
  forall round b,
    is_running b = true ->
    (forall j, (j < k)%nat -> stop_request (round + j) = false) ->
    (forall fuel, (fuel <= k)%nat -> main_loop client now stop_request fuel round b = None)
    /\ (stop_request (round + k) = true ->
        exists b', main_loop client now stop_request (S k) round b = Some b'
                   /\ is_running b' = false).
Proof.
  induction k as [|k IH]; intros round b R N.
  - split.
    + intros fuel L. assert (fuel = 0%nat) as -> by lia. reflexivity.
    + rewrite Nat.add_0_r. intros St. simpl. rewrite St. simpl. eauto.
  - assert (S0 : stop_request round = false).
    { rewrite <- (Nat.add_0_r round). apply N. lia. }
    assert (N' : forall b1, is_running b1 = true ->
               (forall fuel, (fuel <= k)%nat ->
                             main_loop client now stop_request fuel (S round) b1 = None)
               /\ (stop_request (S round + k) = true ->
                   exists b', main_loop client now stop_request (S k) (S round) b1 = Some b'
                              /\ is_running b' = false)).
    { intros b1 R1. apply IH; [exact R1|]. intros j L.
      replace (S round + j)%nat with (round + S j)%nat by lia. apply N. lia. }
    split.
    + intros [|fuel] L; [reflexivity|].
      destruct (main_loop_step fuel round b R S0) as (b1 & R1 & ->).
      apply (N' b1 R1). lia.
    + intros St.
      destruct (main_loop_step (S k) round b R S0) as (b1 & R1 & ->).
      apply (N' b1 R1). replace (S round + k)%nat with (round + S k)%nat by lia. exact St.
Qed.

(** While the clock says that the market is closed, or cannot be read, the
    loop only asks for the clock. *)
Lemma main_loop_closed fuel :
  forall round b,
    market_hours_only b = true ->
    (forall h, client_get_clock client h <> Ret true) ->
    match main_loop client now stop_request fuel round b with
    | Some b' =>
        exists k, client_calls b' = (client_calls b ++ replicate k get_clock)%list
                  /\ data_provider b' = data_provider b
                  /\ journal b' = journal b
    | None => True
    end.
Proof.
  induction fuel as [|fuel IH]; intros round b M Closed; simpl; [exact I|].
  assert (E : forall r : bool, is_running (if r then set_running false b else b) = false ->
              exists k, client_calls (if r then set_running false b else b)
                        = (client_calls b ++ replicate k get_clock)%list
                        /\ data_provider (if r then set_running false b else b)
                           = data_provider b
                        /\ journal (if r then set_running false b else b) = journal b).
  { intros r _. exists 0%nat. simpl. rewrite app_nil_r. destruct r; auto. }
  destruct (is_running (if stop_request round then _ else _)) eqn:R; [|apply E, R].
  assert (M' : market_hours_only (if stop_request round then set_running false b else b)
               = true) by (destruct (stop_request round); exact M).
  rewrite M'. unfold _check_market_status.
  set (b0 := if stop_request round then set_running false b else b) in *.
  assert (C0 : client_calls b0 = client_calls b
               /\ data_provider b0 = data_provider b /\ journal b0 = journal b)
    by (unfold b0; destruct (stop_request round); auto).
  destruct C0 as (C0 & P0 & J0).
  assert (next : match main_loop client now stop_request fuel (S round)
                         (record_call get_clock b0) with
                 | Some b' =>
                     exists k, client_calls b' = (client_calls b ++ replicate k get_clock)%list
                               /\ data_provider b' = data_provider b
                               /\ journal b' = journal b
                 | None => True
                 end).
  { specialize (IH (S round) (record_call get_clock b0) M' Closed).
    destruct (main_loop _ _ _ _ _ _) as [b'|]; [|exact I].
    destruct IH as (k & C & P & J). exists (S k). simpl in C, P, J.
    rewrite C, P, J, C0, <- (assoc_L app). auto. }
  destruct (client_get_clock client (client_calls b0)) as [[|]|] eqn:G;
    [exfalso; exact (Closed _ G) | exact next | exact next].
Qed.


(** While the brokerage clock says that the market is closed, or cannot be
    read, a bot that trades in market hours only does nothing but ask for
    the clock: when [run] returns at the first interrupt it has made the
    two calls of the initial refresh and then only [get_clock] calls, has
    sent no request for bars and has analysed nothing. *)
Theorem closed_market_no_trading (k : nat) (b : TradingBot) :
  market_hours_only b = true ->
  (forall h, client_get_clock client h <> Ret true) ->
  (forall j, (j < k)%nat -> stop_request j = false) ->
  stop_request k = true ->
  exists b' n,
    run client now stop_request (S k) b = Some b'
    /\ client_calls b'
       = (client_calls b ++ [get_account; list_positions] ++ replicate n get_clock)%list
    /\ Provider.client_calls (data_provider b') = Provider.client_calls (data_provider b)
    /\ journal b' = journal b.
Proof.
  intros M Closed N St. unfold run.
  set (b0 := _update_positions client (_update_account_info client (set_running true b))).
  assert (F0 : market_hours_only b0 = true
               /\ client_calls b0 = (client_calls b ++ [get_account; list_positions])%list
               /\ data_provider b0 = data_provider b /\ journal b0 = journal b
               /\ is_running b0 = true).
  { unfold b0, _update_positions, _update_account_info.
    repeat case_match; simpl; rewrite <- ?(assoc_L app); auto. }
  destruct F0 as (M0 & C0 & P0 & J0 & R0).
  destruct (main_loop_until k 0%nat b0 R0 N) as [_ H2].
  destruct (H2 St) as (b' & E & _).
  pose proof (main_loop_closed (S k) 0%nat b0 M0 Closed) as H.
  rewrite E in H |- *. destruct H as (n & C & P & J).
  exists (_cleanup b'), n. split; [reflexivity|]. simpl.
  rewrite C, C0, P, P0, J, J0, <- (assoc_L app). auto.
Qed.

End Loop.

End Client.

(** One free slot and a strategy that always buys: the stop order follows
    the market buy for 40 shares of AAPL. *)
Lemma stop_follows_its_buy_witness :
  exists pre' stop_loss,
    [get_account; list_positions; create_order (market_buy "AAPL" 40)]
    = (pre' ++ [create_order (market_buy "AAPL" 40)])%list
    /\ protective_stop "AAPL" 40 95 = protective_stop "AAPL" 40 stop_loss
    /\ truthy_float stop_loss = true.
Proof.
  apply (stop_follows_its_buy accepting ProviderTerms.ticking eager_bot
           [get_account; list_positions; create_order (market_buy "AAPL" 40)] []
           (protective_stop "AAPL" 40 95)); vm_compute; reflexivity.
Defined.



(** A closed market and an interrupt at the fourth test of the loop
    condition. *)
Lemma closed_market_no_trading_witness :
  exists b' n,
    run closed_market ProviderTerms.ticking stop_in_third 4 ma_bot = Some b'
    /\ client_calls b'
       = (client_calls ma_bot ++ [get_account; list_positions]
          ++ replicate n get_clock)%list
    /\ Provider.client_calls (data_provider b')
       = Provider.client_calls (data_provider ma_bot)
    /\ journal b' = journal ma_bot.
Proof.
  apply (closed_market_no_trading closed_market ProviderTerms.ticking stop_in_third 3
           ma_bot).
  - reflexivity.
  - intros h E. discriminate E.
  - intros [|[|[|j]]] L; try reflexivity. lia.
  - reflexivity.
Defined.

End CycleFacts.

(** ** What the fetcher returns, counts and asks *)

Module FetchFacts.
Import Fetcher FetcherTerms FetchTerms PandasFacts StandardizerFacts.

(** The cells [astype(float)] leaves are floats. *)
Lemma astype_float_cells df out :
  astype_float df = Some out ->
  kind out = kind df
  /\ Forall2 (fun r r' => length (cells r') = length (cells r)
                          /\ Forall (fun c => exists x, c = Num x) (cells r'))
             (rows df) (rows out).
Proof.
  unfold astype_float. destruct (mapM _ _) as [l|] eqn:E; [|discriminate].
  intros [= <-]. split; [reflexivity|]. simpl. apply mapM_Some in E.
  induction E as [|r r' l l' H _ IH]; constructor; [|exact IH].
  unfold row_astype_float in H.
  destruct (mapM cell_to_float (cells r)) as [cs|] eqn:C; [|discriminate].
  injection H as <-. simpl. apply mapM_Some in C.
  split; [symmetry; eapply Forall2_length, C|].
  clear -C. induction C as [|c c' ? ? H _ IH]; constructor; [|exact IH].
  destruct c; simplify_eq/=; eauto.
Qed.

(** The table the standardizer returns is standard and as long as its
    input. *)
Lemma standardized df out :
  (_standardize_dataframe df).2 = Some out ->
  standard out /\ length (rows out) = length (rows df).
Proof.
  intros H.
  assert (K : exists d, sort_and_select d = Some out
                        /\ kind d = DatetimeIndex (Some "UTC")
                        /\ length (rows d) = length (rows df)).
  { destruct (standardize_cases df out H) as (d & S & L & _).
    revert H. unfold _standardize_dataframe.
    destruct (kind df) as [tz|name].
    - simpl. intros H. eexists. split; [exact H|]. split; reflexivity.
    - destruct (reset_index df) as [d1|] eqn:R; [|discriminate].
      destruct (if has_column "timestamp" d1 then _ else _) as [c|]; [|discriminate].
      destruct (set_datetime_index _ _) as [d2|] eqn:Sd; [|discriminate].
      simpl. intros H. exists d2. split; [exact H|]. split.
      + revert Sd. unfold set_datetime_index.
        destruct (position _ _); [|discriminate].
        destruct (mapM _ _); intros ?; simplify_eq/=. reflexivity.
      + rewrite (set_datetime_index_length _ _ _ Sd). simpl.
        apply reset_index_length, R. }
  destruct K as (d & S & Kd & L).
  destruct (sort_and_select_spec d out S) as (So & P & C & _).
  revert S. unfold sort_and_select. destruct (forallb _ _); [|discriminate].
  intros S. apply astype_float_cells in S as [Ko F].
  split; [split; [|split; [|split]]|].
  - rewrite Ko. exact Kd.
  - exact So.
  - exact C.
  - simpl in F. apply Forall2_Forall_r with (Q := fun r' =>
      length (cells r') = 5%nat /\ Forall (fun c => exists x, c = Num x) (cells r')) in F.
    + exact F.
    + apply Forall_forall. intros r Hr r' [Hl Hf]. split; [|exact Hf].
      rewrite Hl. apply list_elem_of_fmap in Hr as (r0 & -> & _). reflexivity.
  - rewrite <- L, <- (keys_length out), <- (keys_length d).
    apply Permutation_length, P.
Qed.

Section Client.
Variable client_get_bars : list Call -> Call -> Outcome (option DataFrame).
Variable now : nat -> Z.

(** One round of the feed loop: at most two calls, with the parameters of
    the round; the statistics change only when the round returns a table,
    which then has the rows asked for and is standard. *)
Lemma try_feed_round symbol lookback tf mr f params st :
  let r := try_feed client_get_bars now symbol lookback tf mr f params st in
  limit r.1.1 = limit params /\ timeframe r.1.1 = timeframe params
  /\ (exists new,
        calls r.1.2 = (calls st ++ new)%list /\ (length new <= 2)%nat
        /\ Forall (fun c => call_symbol c = symbol
                            /\ limit (call_params c) = limit params
                            /\ timeframe (call_params c) = timeframe params
                            /\ feed (call_params c) = feed_of f) new)
  /\ attempts (data_stats r.1.2) = attempts (data_stats st)
  /\ match r.2 with
     | Some df =>
         successes (data_stats r.1.2) = successes (data_stats st) + 1
         /\ mr <= len df /\ standard df
     | None => data_stats r.1.2 = data_stats st
     end.
Proof.
  cbv zeta.
  unfold try_feed, paginate, call_client, read_clock, emit, with_stats, feed_of.
  repeat (case_match; simplify_eq/=);
    (split; [reflexivity|]); (split; [reflexivity|]);
    (split;
     [ first [ exists []; rewrite app_nil_r; split; [reflexivity|];
               split; [simpl; lia | constructor]
             | eexists [_]; split; [reflexivity|];
               split; [simpl; lia | repeat constructor]
             | eexists [_; _]; rewrite <- (assoc_L app); split; [reflexivity|];
               split; [simpl; lia | repeat constructor] ] | ]);
    (split; [reflexivity|]);
    try reflexivity;
    (split; [reflexivity|]); (split; [lia|]);
    match goal with
    | H : (_standardize_dataframe _).2 = Some _ |- _ => apply (standardized _ _ H)
    end.
Qed.

(** The feed loop: at most two calls per feed. *)
Lemma try_feeds_rounds symbol lookback tf mr feeds :
  forall params st,
    let r := try_feeds client_get_bars now symbol lookback tf mr feeds params st in
    (exists new,
        calls r.1 = (calls st ++ new)%list /\ (length new <= 2 * length feeds)%nat
        /\ Forall (fun c => call_symbol c = symbol
                            /\ limit (call_params c) = limit params
                            /\ timeframe (call_params c) = timeframe params
                            /\ feed (call_params c) ∈ map feed_of feeds) new)
    /\ attempts (data_stats r.1) = attempts (data_stats st)
    /\ match r.2 with
       | Some df =>
           successes (data_stats r.1) = successes (data_stats st) + 1
           /\ mr <= len df /\ standard df
       | None => data_stats r.1 = data_stats st
       end.
Proof.
  induction feeds as [|f feeds IH]; intros params st; cbv zeta; simpl.
  - split; [|auto]. exists []. rewrite app_nil_r. split; [reflexivity|].
    split; [simpl; lia | constructor].
  - pose proof (try_feed_round symbol lookback tf mr f params st)
      as (L & T & (n1 & C1 & L1 & F1) & A1 & R1).
    destruct (try_feed _ _ _ _ _ _ _ _ _) as [[params' st'] [df|]]; simpl in *.
    + split; [|auto]. exists n1. split; [exact C1|]. split; [lia|].
      eapply Forall_impl; [exact F1|]. intros c (? & ? & ? & ->). set_solver.
    + specialize (IH params' st'). cbv zeta in IH.
      destruct IH as ((n2 & C2 & L2 & F2) & A2 & R2).
      split; [|split; [congruence|]].
      * exists (n1 ++ n2)%list. rewrite C2, C1, (assoc_L app). split; [reflexivity|].
        rewrite length_app. split; [lia|]. apply Forall_app. split.
        -- eapply Forall_impl; [exact F1|]. intros c (? & ? & ? & ->). set_solver.
        -- eapply Forall_impl; [exact F2|]. intros c (? & ? & ? & ?).
           rewrite <- L, <- T. set_solver.
      * destruct (try_feeds _ _ _ _ _ _ _ _ _).2; [rewrite <- R1|]; [exact R2 | congruence].
Qed.

Lemma int_or_some (m y : Z) : m <> 0 -> int_or (Some m) y = m.
Proof. intros H. unfold int_or. apply Z.eqb_neq in H. rewrite H. reflexivity. Qed.

(** One level of [get_bars] asks within the request. *)
Lemma feed_calls_within symbol lookback tf new :
  Forall (fun c => call_symbol c = symbol
                   /\ limit (call_params c) = Z.min 1000 lookback
                   /\ timeframe (call_params c) = tf
                   /\ feed (call_params c) ∈ map feed_of feeds_to_try) new ->
  Forall (within_request symbol lookback tf) new.
Proof.
  intros H. eapply Forall_impl; [exact H|]. clear H.
  intros c (S & L & T & F). unfold within_request.
  split; [exact S|]. split; [lia|]. split; [lia|]. split; [exact F | left; exact T].
Qed.

Lemma within_request_weaken symbol lookback lookback' tf tf' c :
  lookback' <= lookback ->
  tf' = tf \/ (rank tf' < rank tf)%nat ->
  within_request symbol lookback' tf' c -> within_request symbol lookback tf c.
Proof.
  intros Hl Ht (S & L1 & L2 & F & T). unfold within_request.
  split; [exact S|]. split; [exact L1|]. split; [lia|]. split; [exact F|].
  destruct Ht as [-> | Ht]; [exact T|]. right.
  destruct T as [-> | T]; lia.
Qed.

(** A call of [get_bars] that returns: what it asked the client, what it
    did to the statistics, and what it returned. *)
Lemma get_bars_summary fuel :
  forall symbol lookback tf mr st st' res,
    get_bars client_get_bars now fuel symbol lookback tf mr st = Some (st', res) ->
    (exists new,
        calls st' = (calls st ++ new)%list
        /\ Z.of_nat (length new)
           <= 6 * (attempts (data_stats st') - attempts (data_stats st))
        /\ Forall (within_request symbol lookback tf) new)
    /\ attempts (data_stats st) < attempts (data_stats st')
       <= attempts (data_stats st) + Z.of_nat (fuel_needed tf lookback)
    /\ successes (data_stats st')
       = successes (data_stats st) + match res with Some _ => 1 | None => 0 end
    /\ match res with
       | Some df => int_or mr lookback <= len df /\ standard df
       | None => True
       end.
Proof.
  induction fuel as [|fuel IH]; intros symbol lookback tf mr st st' res; [discriminate|].
  cbn [get_bars].
  pose proof (try_feeds_rounds symbol lookback tf (int_or mr lookback) feeds_to_try
                (mkParams (Z.min 1000 lookback) tf None None) (count_attempt st))
    as ((n1 & C1 & L1 & F1) & A1 & R1).
  apply feed_calls_within in F1.
  destruct (try_feeds _ _ _ _ _ _ _ _ _) as [st1 [df|]]; simpl in *.
  - intros [= <- <-]. destruct R1 as (S1 & M1 & D1).
    split; [|split; [unfold fuel_needed; lia | split; [lia | auto]]].
    exists n1. split; [exact C1|]. split; [lia | exact F1].
  - unfold _try_timeframe_fallbacks.
    assert (S1 : successes (data_stats st1) = successes (data_stats st))
      by (rewrite R1; reflexivity).
    assert (A1' : attempts (data_stats st1) = attempts (data_stats st) + 1)
      by (rewrite R1; reflexivity).
    destruct (FetcherFacts.fallbacks_cases tf) as [-> | (tf' & rest & -> & Hr & _)].
    + destruct (String.eqb tf "1D" && (100 <? lookback)) eqn:Hc.
      * apply andb_true_iff in Hc as [Htf Hl]. apply String.eqb_eq in Htf. subst tf.
        apply Z.ltb_lt in Hl. intros H.
        apply IH in H as ((n2 & C2 & L2 & F2) & A2 & S2 & R2).
        unfold emit in *. cbn [calls data_stats] in *.
        assert (Hm : int_or mr lookback <> 0).
        { unfold int_or. destruct mr as [v|]; [|lia].
          destruct (v =? 0) eqn:E; [lia | apply Z.eqb_neq, E]. }
        split; [|split; [|split]].
        -- exists (n1 ++ n2)%list. rewrite C2, C1, (assoc_L app). split; [reflexivity|].
           rewrite length_app. split; [lia|]. apply Forall_app. split; [exact F1|].
           eapply Forall_impl; [exact F2|]. intros c.
           apply within_request_weaken; [lia | auto].
        -- unfold fuel_needed in *.
           replace (100 <? Z.min 100 (int_or mr lookback)) with false in A2
             by (symmetry; apply Z.ltb_ge; lia).
           replace (100 <? lookback) with true by (symmetry; apply Z.ltb_lt; lia).
           lia.
        -- lia.
        -- destruct res as [d|]; [|exact I].
           rewrite (int_or_some _ _ Hm) in R2. exact R2.
      * intros [= <- <-]. simpl.
        split; [|split; [unfold fuel_needed; lia | split; [lia | exact I]]].
        exists n1. split; [exact C1|]. split; [lia | exact F1].
    + intros H. apply IH in H as ((n2 & C2 & L2 & F2) & A2 & S2 & R2).
        unfold emit in *. cbn [calls data_stats] in *.
      split; [|split; [|split]].
      * exists (n1 ++ n2)%list. rewrite C2, C1, (assoc_L app). split; [reflexivity|].
        rewrite length_app. split; [lia|]. apply Forall_app. split; [exact F1|].
        eapply Forall_impl; [exact F2|]. intros c.
        apply within_request_weaken; [lia | right; lia].
      * unfold fuel_needed in *. lia.
      * lia.
      * destruct res as [d|]; [|exact I].
        replace (int_or (Some (int_or mr lookback)) lookback)
          with (int_or mr lookback) in R2; [exact R2|].
        unfold int_or. destruct mr as [v|]; [|destruct (lookback =? 0); reflexivity].
        destruct (v =? 0) eqn:E; [destruct (lookback =? 0); reflexivity|].
        rewrite E. reflexivity.
Qed.

(** A table that [get_bars] returns has at least [min_required_bars] rows
    ([lookback_bars] when no minimum is given), also when it comes from a
    fallback timeframe or from the reduced daily request; its index is a
    UTC [DatetimeIndex] in ascending order, its columns are exactly open,
    high, low, close and volume, and every cell is a float. *)
Theorem fetched_table_is_standard (fuel : nat) (symbol : string) (lookback : Z)
    (tf : string) (mr : option Z) (st st' : State) (df : DataFrame) :
  get_bars client_get_bars now fuel symbol lookback tf mr st = Some (st', Some df) ->
  int_or mr lookback <= len df /\ standard df.
Proof. intros H. apply get_bars_summary in H. apply H. Qed.

(** The counters of [data_stats]: a call of [get_bars] adds one to
    [attempts] for itself and for every nested call it makes for a fallback,
    between one and eight in all; it adds one to [successes] exactly when it
    returns a table. So [successes] never comes to exceed [attempts]. *)
Theorem fetch_counters (fuel : nat) (symbol : string) (lookback : Z)
    (tf : string) (mr : option Z) (st st' : State) (res : option DataFrame) :
  get_bars client_get_bars now fuel symbol lookback tf mr st = Some (st', res) ->
  attempts (data_stats st) + 1 <= attempts (data_stats st')
    <= attempts (data_stats st) + 8
  /\ successes (data_stats st')
     = successes (data_stats st) + match res with Some _ => 1 | None => 0 end
  /\ (successes (data_stats st) <= attempts (data_stats st) ->
      successes (data_stats st') <= attempts (data_stats st')).
Proof.
  intros H. apply get_bars_summary in H as (_ & A & S & _).
  pose proof (FetcherFacts.fuel_needed_bound tf lookback).
  destruct res; lia.
Qed.

(** What [get_bars] asks the client, fallbacks included: always the
    requested symbol, through one of the feeds sip, default and iex, for at
    most 1000 bars and never more than [lookback_bars], at the requested
    timeframe or one further down the chain; at most six calls for each
    attempt counted, 48 in all. *)
Theorem fetch_asks_within_request (fuel : nat) (symbol : string) (lookback : Z)
    (tf : string) (mr : option Z) (st st' : State) (res : option DataFrame) :
  get_bars client_get_bars now fuel symbol lookback tf mr st = Some (st', res) ->
  exists new,
    calls st' = (calls st ++ new)%list
    /\ Z.of_nat (length new)
       <= 6 * (attempts (data_stats st') - attempts (data_stats st))
    /\ (length new <= 48)%nat
    /\ Forall (within_request symbol lookback tf) new.
Proof.
  intros H. apply get_bars_summary in H as ((new & C & L & F) & A & _).
  pose proof (FetcherFacts.fuel_needed_bound tf lookback).
  exists new. repeat split; [exact C | exact L | lia | exact F].
Qed.

End Client.

(** Three hourly bars asked for, a client that has daily bars only: the
    fetch falls back to 1D and returns the three bars, standardized. *)
Lemma fetched_table_is_standard_witness :
  exists st' df,
    get_bars daily_only (fun _ => 0) 8 "AAPL" 3 "1H" None initial_state
    = Some (st', Some df)
    /\ 3 <= len df /\ standard df.
Proof.
  eexists _, _. split; [vm_compute; reflexivity|].
  eapply (fetched_table_is_standard daily_only (fun _ => 0) 8 "AAPL" 3 "1H" None
           initial_state).
  vm_compute. reflexivity.
Defined.

(** The same fetch counts two attempts and one success. *)
Lemma fetch_counters_witness :
  exists st' res,
    get_bars daily_only (fun _ => 0) 8 "AAPL" 3 "1H" None initial_state = Some (st', res)
    /\ (attempts (data_stats initial_state) + 1 <= attempts (data_stats st')
          <= attempts (data_stats initial_state) + 8
        /\ successes (data_stats st')
           = successes (data_stats initial_state)
             + match res with Some _ => 1 | None => 0 end
        /\ (successes (data_stats initial_state) <= attempts (data_stats initial_state) ->
            successes (data_stats st') <= attempts (data_stats st'))).
Proof.
  eexists _, _. split; [vm_compute; reflexivity|].
  apply (fetch_counters daily_only (fun _ => 0) 8 "AAPL" 3 "1H" None initial_state).
  vm_compute. reflexivity.
Defined.

(** The same fetch asks the three feeds at 1H and the first feed at 1D. *)
Lemma fetch_asks_within_request_witness :
  exists st' res,
    get_bars daily_only (fun _ => 0) 8 "AAPL" 3 "1H" None initial_state = Some (st', res)
    /\ exists new,
         calls st' = (calls initial_state ++ new)%list
         /\ Z.of_nat (length new)
            <= 6 * (attempts (data_stats st') - attempts (data_stats initial_state))
         /\ (length new <= 48)%nat
         /\ Forall (within_request "AAPL" 3 "1H") new.
Proof.
  eexists _, _. split; [vm_compute; reflexivity|].
  eapply (fetch_asks_within_request daily_only (fun _ => 0) 8 "AAPL" 3 "1H" None
           initial_state).
  vm_compute. reflexivity.
Defined.

End FetchFacts.

(** ** Signals on short tables and equal windows *)

Module SignalFacts.
Import Strategy FloatFacts StrategyTerms StrategyFacts.

(** No float is below itself. *)
Lemma ltb_irrefl (a : float) : PrimFloat.ltb a a = false.
Proof.
  destruct (PrimFloat.ltb a a) eqn:E; [|reflexivity].
  pose proof (ltb_asym _ _ E). congruence.
Qed.

(** The entry before the last one sits at position [length - 2]. *)
Lemma before_last_lookup {A : Type} (l : list A) (x : A) :
  iloc_before_last l = Some x -> l !! (length l - 2)%nat = Some x.
Proof.
  unfold iloc_before_last. intros H.
  destruct (rev l) as [|a [|b r]] eqn:E; try discriminate. injection H as ->.
  apply (f_equal (@rev A)) in E. rewrite rev_involutive in E. subst l.
  simpl. rewrite <- !(assoc_L app). simpl.
  rewrite !length_app. simpl.
  replace (length (rev r) + 2 - 2)%nat with (length (rev r) + 0)%nat by lia.
  rewrite lookup_app_r by lia.
  replace (length (rev r) + 0 - length (rev r))%nat with 0%nat by lia. reflexivity.
Qed.

(** The plain rolling mean is undefined until its window is filled. *)
Lemma rolling_from_warm_up (w : Z) (l : list float) :
  forall seen i x,
    rolling_from w seen l !! i = Some x ->
    Z.of_nat (length seen + i + 1) < w ->
    PrimFloat.is_nan x = true.
Proof.
  induction l as [|y l IH]; intros seen i x; simpl; [discriminate|].
  destruct i as [|i]; simpl.
  - intros [= <-] L. rewrite length_app. simpl.
    replace (w <=? Z.of_nat (length seen + 1)) with false
      by (symmetry; apply Z.leb_gt; lia).
    rewrite andb_false_r. reflexivity.
  - intros H L. apply (IH _ _ _ H). rewrite length_app. simpl. lia.
Qed.

Lemma plain_rolling_warm_up (w : Z) (col : list Cell) (l : list float) (i : nat) (x : float) :
  plain_rolling_mean w col = Some l -> l !! i = Some x -> Z.of_nat i + 1 < w ->
  PrimFloat.is_nan x = true.
Proof.
  unfold plain_rolling_mean. destruct (w <? 0); [discriminate|].
  destruct (mapM float_of_cell col) as [fs|]; [|discriminate].
  intros [= <-] H L. apply (rolling_from_warm_up _ _ _ _ _ H). simpl. lia.
Qed.

Section Rolling.
Variable rolling_mean : Z -> list Cell -> option (list float).

(** pandas leaves a rolling mean undefined where fewer than [w] values have
    been seen ([min_periods] defaults to the window). *)
Hypothesis rolling_warm_up :
  forall (w : Z) (col : list Cell) (l : list float) (i : nat) (x : float),
    rolling_mean w col = Some l -> l !! i = Some x -> Z.of_nat i + 1 < w ->
    PrimFloat.is_nan x = true.

(** [analyze] gives the no-signal dictionary on every table with fewer rows
    than the [min_required_bars] that [get_required_data] declares,
    [long_window + 1]: with exactly [long_window] rows the moving averages
    are computed, but the previous long average is still undefined. *)
Theorem too_few_bars_no_signal (self : MAStrategy) (symbol : string) (data : DataFrame) :
  len data < min_required_bars (ma_required_data self) ->
  ma_analyze rolling_mean self symbol data = null_signal.
Proof.
  simpl. intros L. unfold ma_analyze.
  destruct (calculate_moving_averages rolling_mean self (Some data)) as [w|] eqn:C;
    [|reflexivity].
  destruct (calculate_spec _ _ _ _ C) as (Hb & Hl & _ & Ll).
  destruct (len (base w) <? 2) eqn:L2; [reflexivity|].
  destruct (iloc_last (MA_short w)) as [cs|]; [|reflexivity].
  destruct (iloc_last (MA_long w)) as [cl|]; [|reflexivity].
  destruct (iloc_before_last (MA_short w)) as [ps|]; [|reflexivity].
  destruct (iloc_before_last (MA_long w)) as [pl|] eqn:P; [|reflexivity].
  assert (N : PrimFloat.is_nan pl = true).
  { apply before_last_lookup in P.
    revert C. unfold calculate_moving_averages.
    destruct (len data <? long_window self); [discriminate|].
    destruct (has_column "close" data); [|discriminate].
    destruct (rolling_mean (short_window self) _) as [s|]; [|discriminate].
    destruct (rolling_mean (long_window self) _) as [l|] eqn:R; [|discriminate].
    destruct (bool_decide _ && bool_decide _); [|discriminate].
    intros [= <-]. simpl in *.
    apply (rolling_warm_up _ _ _ _ _ R P).
    apply Z.ltb_ge in L2. unfold len in *. lia. }
  rewrite N, !orb_true_r. reflexivity.
Qed.

(** A strategy whose two windows are equal never signals: the two averages
    are the same series, and a crossover needs one strictly above the
    other. *)
Theorem equal_windows_never_signal (self : MAStrategy) (symbol : string) (data : DataFrame) :
  short_window self = long_window self ->
  action (ma_analyze rolling_mean self symbol data) = None.
Proof.
  intros E. unfold ma_analyze.
  destruct (calculate_moving_averages rolling_mean self (Some data)) as [w|] eqn:C;
    [|reflexivity].
  assert (S : MA_short w = MA_long w).
  { revert C. unfold calculate_moving_averages. rewrite E.
    destruct (len data <? long_window self); [discriminate|].
    destruct (has_column "close" data); [|discriminate].
    destruct (rolling_mean (long_window self) _) as [l|]; [|discriminate].
    destruct (bool_decide _ && bool_decide _); [|discriminate].
    intros [= <-]. reflexivity. }
  rewrite S.
  destruct (len (base w) <? 2); [reflexivity|].
  destruct (iloc_last (MA_long w)) as [cl|]; [|reflexivity].
  destruct (iloc_before_last (MA_long w)) as [pl|]; [|reflexivity].
  destruct (_ || _); [reflexivity|].
  destruct (latest_close (base w)); [|reflexivity].
  unfold golden_cross, death_cross. rewrite ltb_irrefl, !andb_false_r. reflexivity.
Qed.

End Rolling.

(** Windows 2 and 3 on a table of three rows, one fewer than the four that
    [get_required_data] asks for. *)
Lemma too_few_bars_no_signal_witness :
  ma_analyze plain_rolling_mean (mkMA 2 3 "MA_Crossover") "AAPL"
    (mkDF (kind rising) (columns rising) (take 3 (rows rising)))
  = null_signal.
Proof.
  apply (too_few_bars_no_signal plain_rolling_mean plain_rolling_warm_up
           (mkMA 2 3 "MA_Crossover") "AAPL").
  vm_compute. reflexivity.
Defined.

(** Both windows at 2 on the four rising bars. *)
Lemma equal_windows_never_signal_witness :
  action (ma_analyze plain_rolling_mean (mkMA 2 2 "MA_Crossover") "AAPL" rising) = None.
Proof.
  apply (equal_windows_never_signal plain_rolling_mean (mkMA 2 2 "MA_Crossover")
           "AAPL" rising).
  reflexivity.
Defined.

End SignalFacts.

(** ** The provider's queries and the invariants of its cache *)

Module QueryFacts.
Import Provider ProviderTerms Queries QueryTerms.

Section Client.
Variable client_get_bars : list Request -> Request -> Outcome (gmap string DataFrame).
Variable now : nat -> Z.
Variable isoformat : Z -> string.

(** The fetch path, with or without the cache. *)
Lemma fetch_outcome (req : Request) (use_cache : bool) (p : DataProvider) :
  let r := fetch client_get_bars now req use_cache (key_of req) p in
  client_calls r.1 = (client_calls p ++ [req])%list
  /\ requests (stats r.1) = requests (stats p)
  /\ cache_hits (stats r.1) = cache_hits (stats p)
  /\ cache_duration r.1 = cache_duration p
  /\ (clock_reads p <= clock_reads r.1)%nat
  /\ ((cache r.1 = cache p /\ cache_timestamps r.1 = cache_timestamps p
       /\ failed_requests (stats p) <= failed_requests (stats r.1)
          <= failed_requests (stats p) + 1
       /\ (use_cache = true -> dict_truthy (items r.2) = false))
      \/ (cache r.1 = <[key_of req := r.2]> (cache p)
          /\ cache_timestamps r.1 = <[key_of req := now (clock_reads p)]> (cache_timestamps p)
          /\ clock_reads r.1 = S (clock_reads p)
          /\ dict_truthy (items r.2) = true
          /\ failed_requests (stats r.1) = failed_requests (stats p)
          /\ use_cache = true)).
Proof.
  cbv zeta. generalize (key_of req) as k. intros k.
  unfold fetch, call_client, new_dict, with_stats, print, read_clock, store.
  projections.
  assert (E : dict_truthy (∅ : gmap string DataFrame) = false) by reflexivity.
  destruct (client_get_bars (client_calls p) req) as [raw|]; projections.
  - destruct (clean_all raw) as [cleaned|]; projections.
    + destruct use_cache; cbn [andb]; projections.
      * destruct (dict_truthy cleaned) eqn:T; projections.
        -- do 4 (split; [reflexivity|]). split; [lia|].
           right. do 3 (split; [reflexivity|]). split; [exact T | auto].
        -- do 4 (split; [reflexivity|]). split; [lia|].
           left. do 2 (split; [reflexivity|]). split; [lia | auto].
      * do 4 (split; [reflexivity|]). split; [lia|].
        left. do 2 (split; [reflexivity|]). split; [lia | discriminate].
    + do 4 (split; [reflexivity|]). split; [lia|].
      left. do 2 (split; [reflexivity|]). split; [lia | auto].
  - do 4 (split; [reflexivity|]). split; [lia|].
    left. do 2 (split; [reflexivity|]). split; [lia | auto].
Qed.

(** One call of [get_bars], with or without the cache. *)
Lemma get_bars_served (req : Request) (use_cache : bool) (p : DataProvider) :
  let r := get_bars client_get_bars now req use_cache p in
  served now req use_cache p r.1 r.2
  /\ requests (stats r.1) = requests (stats p) + 1
  /\ (clock_reads p < clock_reads r.1)%nat
  /\ cache_duration r.1 = cache_duration p.
Proof.
  cbv zeta.
  assert (F : forall p1,
             cache p1 = cache p -> cache_timestamps p1 = cache_timestamps p ->
             client_calls p1 = client_calls p ->
             requests (stats p1) = requests (stats p) + 1 ->
             cache_hits (stats p1) = cache_hits (stats p) ->
             failed_requests (stats p1) = failed_requests (stats p) ->
             cache_duration p1 = cache_duration p ->
             (clock_reads p < clock_reads p1)%nat ->
             let r := fetch client_get_bars now req use_cache (key_of req) p1 in
             served now req use_cache p r.1 r.2
             /\ requests (stats r.1) = requests (stats p) + 1
             /\ (clock_reads p < clock_reads r.1)%nat
             /\ cache_duration r.1 = cache_duration p).
  { intros p1 Hc Ht Hcalls Hr Hh Hf Hd Hk. cbv zeta.
    pose proof (fetch_outcome req use_cache p1) as (C & R & H & D & K & O).
    destruct (fetch _ _ _ _ _ _) as [p' d]. projections.
    split; [|split; [lia | split; [lia | congruence]]].
    destruct O as [(Oc & Ot & Of & Od) | (Oc & Ot & Ok & Od & Of & Ou)].
    - apply from_client_kept; first [exact Od | congruence | lia].
    - apply (from_client_stored _ _ _ _ _ _ (clock_reads p1));
        first [exact Od | exact Ou | congruence | lia]. }
  unfold get_bars, read_clock, with_stats. fold (key_of req). projections.
  destruct use_cache; [|apply F; projections; reflexivity || lia].
  destruct (cache p !! key_of req) as [entry|] eqn:Hc;
    [|apply F; projections; reflexivity || lia].
  destruct (cache_timestamps p !! key_of req) as [t|] eqn:Ht;
    [|apply F; projections; reflexivity || lia].
  unfold _is_cache_valid. projections. rewrite Ht.
  destruct (_ <? _); [|apply F; projections; reflexivity || lia].
  projections. split; [|split; [reflexivity | split; [lia | reflexivity]]].
  apply from_cache; projections; eauto.
Qed.

(** A dictionary with an entry is not empty. *)
Lemma dict_truthy_lookup {A : Type} (d : gmap string A) (k : string) (v : A) :
  d !! k = Some v -> dict_truthy d = true.
Proof.
  intros H. unfold dict_truthy.
  destruct (map_to_list d) as [|x l] eqn:E; [|reflexivity].
  apply map_to_list_empty_iff in E. subst d. rewrite lookup_empty in H. discriminate.
Qed.

(** What a call that was served leaves in the cache when it used the cache
    and returned a dictionary that is not empty: that dictionary. *)
Lemma served_cached (req : Request) (p p' : DataProvider) (d : DictObj) :
  served now req true p p' d -> dict_truthy (items d) = true ->
  cache p' !! key_of req = Some d /\ is_Some (cache_timestamps p' !! key_of req).
Proof.
  intros [Hc Ht Ec Et _ _ _ _ | Hn _ _ _ _ _ | i Ec Et _ _ _ _ _ _] T.
  - rewrite Ec, Et. auto.
  - rewrite (Hn eq_refl) in T. discriminate.
  - rewrite Ec, Et, !lookup_insert_eq. eauto.
Qed.

(** A served call keeps the cache in order, *)
Lemma served_keeps_order (req : Request) (use_cache : bool) (p p' : DataProvider)
    (d : DictObj) :
  served now req use_cache p p' d -> (clock_reads p <= clock_reads p')%nat ->
  cache_in_order now p -> cache_in_order now p'.
Proof.
  intros S K (D & T & N & Z).
  destruct S as [Hc Ht Ec Et El _ _ _ | _ Ec Et El _ _ | i Ec Et Hi Hd El _ _ _].
  - unfold cache_in_order. rewrite Ec, Et, El.
    split; [exact D|]. split; [|split; [exact N | exact Z]].
    intros k t H. destruct (T k t H) as (i & Li & ->). exists i. split; [lia | reflexivity].
  - unfold cache_in_order. rewrite Ec, Et, El, length_app.
    split; [exact D|]. split; [|split; [exact N | simpl; lia]].
    intros k t H. destruct (T k t H) as (i & Li & ->). exists i. split; [lia | reflexivity].
  - unfold cache_in_order. rewrite Ec, Et, El, length_app.
    split; [|split; [|split]].
    + intros k. destruct (decide (k = key_of req)) as [->|Ne].
      * rewrite !lookup_insert_eq. split; eauto.
      * rewrite !lookup_insert_ne by congruence. apply D.
    + intros k t. destruct (decide (k = key_of req)) as [->|Ne].
      * rewrite lookup_insert_eq. intros [= <-]. eauto.
      * rewrite lookup_insert_ne by congruence. intros H.
        destruct (T k t H) as (j & Lj & ->). exists j. split; [lia | reflexivity].
    + intros k d'. destruct (decide (k = key_of req)) as [->|Ne].
      * rewrite lookup_insert_eq. intros [= <-]. exact Hd.
      * rewrite lookup_insert_ne by congruence. apply N.
    + rewrite map_size_insert. simpl. destruct (cache p !! key_of req); simpl; lia.
Qed.

(** and the counters adding up. *)
Lemma served_keeps_counters (req : Request) (use_cache : bool) (p p' : DataProvider)
    (d : DictObj) :
  served now req use_cache p p' d ->
  requests (stats p') = requests (stats p) + 1 ->
  counters_add_up p -> counters_add_up p'.
Proof.
  intros S R (A & H & F). unfold counters_add_up.
  destruct S as [_ _ _ _ El Eh Ef _ | _ _ _ El Eh Ef | i _ _ _ _ El Eh Ef _];
    rewrite El, Eh, ?length_app; simpl; lia.
Qed.

Lemma kept_refl p : kept now p p.
Proof. unfold kept. auto. Qed.

Lemma kept_trans p1 p2 p3 : kept now p1 p2 -> kept now p2 p3 -> kept now p1 p3.
Proof. unfold kept. intros (? & ? & ?) (? & ? & ?). split; [lia | auto]. Qed.

Lemma get_bars_kept (req : Request) (use_cache : bool) (p : DataProvider) :
  kept now p (get_bars client_get_bars now req use_cache p).1.
Proof.
  pose proof (get_bars_served req use_cache p) as (S & R & K & _).
  split; [lia|]. split.
  - apply (served_keeps_order _ _ _ _ _ S). lia.
  - apply (served_keeps_counters _ _ _ _ _ S R).
Qed.

Lemma get_latest_price_kept (symbol : string) (p : DataProvider) :
  kept now p (get_latest_price client_get_bars now symbol p).1.
Proof.
  unfold get_latest_price.
  pose proof (get_bars_kept (mkRequest [symbol] "1Min" 1 None None) true p) as H.
  destruct (get_bars _ _ _ _ _) as [p1 bars].
  repeat case_match; exact H.
Qed.

Lemma get_daily_bars_kept (syms : list string) (days : Z) (p : DataProvider) :
  kept now p (get_daily_bars client_get_bars now isoformat syms days p).1.
Proof.
  unfold get_daily_bars, read_clock.
  assert (H0 : kept now p (mkProvider (cache p) (cache_timestamps p) (cache_duration p)
                         (stats p) (client_calls p) (printed p) (S (clock_reads p))
                         (next_oid p))).
  { split; [simpl; lia|]. split; [|auto].
    intros (D & T & N & Z). split; [exact D|]. split; [|split; [exact N | exact Z]].
    intros k t H. destruct (T k t H) as (i & Li & ->). exists i.
    split; [simpl; lia | reflexivity]. }
  destruct (timedelta_days days) as [delta|]; [|exact H0].
  destruct (datetime_sub _ _) as [start|]; [|exact H0].
  match goal with
  | |- context [get_bars _ _ ?r true ?q] =>
      pose proof (get_bars_kept r true q) as H
  end.
  destruct (get_bars _ _ _ _ _) as [p1 data]. exact (kept_trans _ _ _ H0 H).
Qed.

Lemma multi_timeframe_kept (symbol : string) (tfs : list string) (lim : Z) :
  forall result p, kept now p (multi_timeframe_loop client_get_bars now symbol tfs lim result p).1.
Proof.
  induction tfs as [|tf rest IH]; intros result p; simpl; [apply kept_refl|].
  pose proof (get_bars_kept (mkRequest [symbol] tf lim None None) true p) as H.
  destruct (get_bars _ _ _ _ _) as [p1 data].
  exact (kept_trans _ _ _ H (IH _ _)).
Qed.

Lemma clear_cache_kept (p : DataProvider) : kept now p (await clear_cache p).1.
Proof.
  split; [simpl; lia|]. split.
  - intros _. unfold cache_in_order. simpl. split; [|split; [|split]].
    + intros k. rewrite !lookup_empty. split; intros [? [=]].
    + intros k t. rewrite lookup_empty. discriminate.
    + intros k d. rewrite lookup_empty. discriminate.
    + rewrite map_size_empty. lia.
  - auto.
Qed.

Lemma perform_kept (a : Action) (p : DataProvider) :
  kept now p (perform client_get_bars now isoformat p a).
Proof.
  destruct a; simpl.
  - apply get_bars_kept.
  - apply get_latest_price_kept.
  - apply get_daily_bars_kept.
  - apply multi_timeframe_kept.
  - apply clear_cache_kept.
  - split; [simpl; lia | split; intros H; exact H].
Qed.

Lemma after_kept (actions : list Action) :
  forall p, kept now p (foldl (perform client_get_bars now isoformat) p actions).
Proof.
  induction actions as [|a rest IH]; intros p; simpl; [apply kept_refl|].
  exact (kept_trans _ _ _ (perform_kept a p) (IH _)).
Qed.

Lemma init_in_order : cache_in_order now init /\ counters_add_up init.
Proof.
  split.
  - unfold cache_in_order. simpl. split; [|split; [|split]].
    + intros k. rewrite !lookup_empty. split; intros [? [=]].
    + intros k t. rewrite lookup_empty. discriminate.
    + intros k d. rewrite lookup_empty. discriminate.
    + rewrite map_size_empty. lia.
  - unfold counters_add_up. simpl. lia.
Qed.

(** Whatever a caller does with a new provider ([get_bars] with or without
    the cache, [get_latest_price], [get_daily_bars],
    [get_multi_timeframe_data], [clear_cache], [close]) and whatever the
    client answers: every cache entry has a timestamp and every timestamp
    an entry, each timestamp is a clock reading taken earlier, no cached
    dictionary is empty (so a cache hit never returns an empty result), and
    the cache holds no more entries than calls were made to the client. *)
Theorem cache_stays_in_order (actions : list Action) :
  cache_in_order now (after client_get_bars now isoformat actions).
Proof. apply (after_kept actions init), init_in_order. Qed.

(** Under the same conditions the counters add up: [requests] is the number
    of cache hits plus the number of calls made to the client, and
    [failed_requests] counts some of those calls. *)
Theorem counters_stay_consistent (actions : list Action) :
  counters_add_up (after client_get_bars now isoformat actions).
Proof. apply (after_kept actions init), init_in_order. Qed.

(** The state and the dictionary behind a price that [get_latest_price]
    returned. *)
Lemma latest_price_source (symbol : string) (p : DataProvider) (x : float) :
  (get_latest_price client_get_bars now symbol p).2 = Some x ->
  (get_latest_price client_get_bars now symbol p).1
  = (get_bars client_get_bars now (price_request symbol) true p).1
  /\ exists df, items (get_bars client_get_bars now (price_request symbol) true p).2
                !! symbol = Some df.
Proof.
  unfold get_latest_price. fold (price_request symbol).
  destruct (get_bars _ _ _ _ _) as [p1 bars]. simpl.
  destruct (items bars !! symbol) as [df|]; [|discriminate].
  repeat case_match; try discriminate. intros _. eauto.
Qed.

(** [get_latest_price] can return an old price: once it has returned a
    price, a second call while the cached entry is younger than the TTL
    returns the same price without asking the client, whatever the client
    would answer now. *)
Theorem latest_price_repeats_within_ttl (symbol : string) (p : DataProvider) (x : float) :
  (get_latest_price client_get_bars now symbol p).2 = Some x ->
  (forall t,
      cache_timestamps (get_latest_price client_get_bars now symbol p).1
        !! key_of (price_request symbol) = Some t ->
      now (S (clock_reads (get_latest_price client_get_bars now symbol p).1)) - t
      < cache_duration (get_latest_price client_get_bars now symbol p).1) ->
  (get_latest_price client_get_bars now symbol
     (get_latest_price client_get_bars now symbol p).1).2 = Some x
  /\ client_calls (get_latest_price client_get_bars now symbol
                     (get_latest_price client_get_bars now symbol p).1).1
     = client_calls (get_latest_price client_get_bars now symbol p).1.
Proof.
  intros H1 Age. destruct (latest_price_source symbol p x H1) as (E1 & df & Hdf).
  rewrite E1 in Age. rewrite E1.
  pose proof (get_bars_served (price_request symbol) true p) as (S & _).
  unfold get_latest_price in H1 |- *. fold (price_request symbol) in *.
  destruct (get_bars client_get_bars now (price_request symbol) true p) as [p1 bars].
  cbn [fst snd] in *.
  destruct (served_cached _ _ _ _ S (dict_truthy_lookup _ _ _ Hdf)) as (Hc & t & Ht).
  rewrite (ProviderFacts.get_bars_hit client_get_bars now (price_request symbol)
             p1 bars t Hc Ht (Age t Ht)).
  rewrite Hdf in *.
  destruct (empty df); [discriminate|].
  destruct (has_column "close" df); [|discriminate].
  destruct (last (rows df)) as [r|]; [|discriminate].
  destruct (Strategy.float_of_cell _) as [y|]; [|discriminate].
  cbn [fst snd] in *. split; [exact H1 | reflexivity].
Qed.

(** The cache key of [get_daily_bars] holds neither dates nor the number of
    days: once a call has returned a dictionary that is not empty, a later
    call for the same symbols (in any order) and any number of days, made
    while the entry is younger than the TTL, asks the client nothing and
    returns that same dictionary, unless its own date arithmetic
    overflows. *)
Theorem daily_bars_ignore_lookback (syms syms' : list string) (days days' : Z)
    (p : DataProvider) (data : DictObj) :
  (get_daily_bars client_get_bars now isoformat syms days p).2 = Ret data ->
  dict_truthy (items data) = true ->
  syms' ≡ₚ syms ->
  (forall t,
      cache_timestamps (get_daily_bars client_get_bars now isoformat syms days p).1
        !! key_of (daily_request syms None None) = Some t ->
      now (S (S (clock_reads (get_daily_bars client_get_bars now isoformat syms days p).1)))
        - t
      < cache_duration (get_daily_bars client_get_bars now isoformat syms days p).1) ->
  client_calls (get_daily_bars client_get_bars now isoformat syms' days'
                  (get_daily_bars client_get_bars now isoformat syms days p).1).1
  = client_calls (get_daily_bars client_get_bars now isoformat syms days p).1
  /\ ((get_daily_bars client_get_bars now isoformat syms' days'
         (get_daily_bars client_get_bars now isoformat syms days p).1).2 = Ret data
      \/ (get_daily_bars client_get_bars now isoformat syms' days'
            (get_daily_bars client_get_bars now isoformat syms days p).1).2 = Raise).
Proof.
  intros H1 T P.
  assert (C : exists t,
             cache (get_daily_bars client_get_bars now isoformat syms days p).1
               !! key_of (daily_request syms None None) = Some data
             /\ cache_timestamps (get_daily_bars client_get_bars now isoformat syms days p).1
                  !! key_of (daily_request syms None None) = Some t).
  { revert H1. unfold get_daily_bars, read_clock.
    destruct (timedelta_days days) as [delta|]; [|discriminate].
    destruct (datetime_sub _ _) as [start|]; [|discriminate].
    match goal with
    | |- context [get_bars _ _ ?r true ?q] =>
        pose proof (get_bars_served r true q) as (S & _)
    end.
    destruct (get_bars _ _ _ _ _) as [p1 d]. simpl in *. intros [= ->].
    destruct (served_cached _ _ _ _ S T) as (Hc & t & Ht). eauto. }
  destruct C as (t & Hc & Ht). intros Age. specialize (Age t Ht).
  generalize dependent (get_daily_bars client_get_bars now isoformat syms days p).1.
  intros p1 Hc Ht Age.
  unfold get_daily_bars, read_clock.
  destruct (timedelta_days days') as [delta|]; [|simpl; auto].
  destruct (datetime_sub _ _) as [start|]; [|simpl; auto].
  match goal with
  | |- context [get_bars _ _ ?r true ?q] =>
      pose proof (ProviderFacts.get_bars_hit client_get_bars now r q data t) as Hit
  end.
  rewrite Hit; [simpl; auto | | | exact Age].
  - unfold key_of in *. simpl. rewrite (ProviderFacts.cache_key_permutation _ _ _ _ P).
    exact Hc.
  - unfold key_of in *. simpl. rewrite (ProviderFacts.cache_key_permutation _ _ _ _ P).
    exact Ht.
Qed.

(** The loop of [get_multi_timeframe_data]. *)
Lemma multi_timeframe_loop_spec (symbol : string) (tfs : list string) (lim : Z) :
  forall result p,
    let r := multi_timeframe_loop client_get_bars now symbol tfs lim result p in
    requests (stats r.1) = requests (stats p) + Z.of_nat (length tfs)
    /\ (forall tf, is_Some (r.2 !! tf) -> is_Some (result !! tf) \/ tf ∈ tfs)
    /\ exists reqs,
         client_calls r.1 = (client_calls p ++ reqs)%list
         /\ (length reqs <= length tfs)%nat
         /\ Forall (fun q => exists tf, tf ∈ tfs /\ q = mkRequest [symbol] tf lim None None)
                   reqs.
Proof.
  induction tfs as [|tf rest IH]; intros result p; cbv zeta; simpl.
  - split; [lia|]. split; [auto|]. exists []. rewrite app_nil_r.
    split; [reflexivity|]. split; [simpl; lia | constructor].
  - pose proof (get_bars_served (mkRequest [symbol] tf lim None None) true p)
      as (S & R & _).
    destruct (get_bars _ _ _ _ _) as [p1 data]. simpl in S, R.
    match goal with
    | |- context [multi_timeframe_loop _ _ _ _ _ ?res _] =>
        specialize (IH res p1); set (res1 := res) in *
    end.
    cbv zeta in IH. destruct IH as (R' & K' & reqs & C' & L' & F').
    split; [lia|]. split.
    + intros tf' H. destruct (K' tf' H) as [H' | H']; [|right; right; exact H'].
      unfold res1 in H'. destruct (items data !! symbol); [|left; exact H'].
      destruct (decide (tf' = tf)) as [->|Ne]; [right; left|].
      rewrite lookup_insert_ne in H' by congruence. left. exact H'.
    + assert (W : Forall (fun q => exists tf0, tf0 ∈ tf :: rest
                                     /\ q = mkRequest [symbol] tf0 lim None None) reqs).
      { eapply Forall_impl; [exact F'|]. intros q (tf0 & Hin & ->). exists tf0.
        split; [right; exact Hin | reflexivity]. }
      destruct S as [_ _ _ _ El _ _ _ | _ _ _ El _ _ | i _ _ _ _ El _ _ _].
      * exists reqs. rewrite C', El. split; [reflexivity|]. split; [lia | exact W].
      * exists (mkRequest [symbol] tf lim None None :: reqs).
        rewrite C', El, <- (assoc_L app). split; [reflexivity|].
        split; [simpl; lia|]. constructor; [|exact W]. exists tf. split; [left | reflexivity].
      * exists (mkRequest [symbol] tf lim None None :: reqs).
        rewrite C', El, <- (assoc_L app). split; [reflexivity|].
        split; [simpl; lia|]. constructor; [|exact W]. exists tf. split; [left | reflexivity].
Qed.

(** [get_multi_timeframe_data] makes one [get_bars] request for each listed
    timeframe, in order, each for the one symbol and the given limit; its
    result has entries for listed timeframes only, and it calls the client
    at most once per listed timeframe. *)
Theorem multi_timeframe_one_request_each (symbol : string) (tfs : list string) (lim : Z)
    (p : DataProvider) :
  requests (stats (get_multi_timeframe_data client_get_bars now symbol tfs lim p).1)
  = requests (stats p) + Z.of_nat (length tfs)
  /\ (forall tf, is_Some ((get_multi_timeframe_data client_get_bars now symbol tfs lim p).2
                           !! tf) -> tf ∈ tfs)
  /\ exists reqs,
       client_calls (get_multi_timeframe_data client_get_bars now symbol tfs lim p).1
       = (client_calls p ++ reqs)%list
       /\ (length reqs <= length tfs)%nat
       /\ Forall (fun q => exists tf, tf ∈ tfs /\ q = mkRequest [symbol] tf lim None None)
                 reqs.
Proof.
  unfold get_multi_timeframe_data.
  pose proof (multi_timeframe_loop_spec symbol tfs lim ∅ p) as (R & K & C).
  split; [exact R|]. split; [|exact C].
  intros tf H. destruct (K tf H) as [[? E] | H']; [|exact H'].
  rewrite lookup_empty in E. discriminate.
Qed.

End Client.

(** Two calls one after the other on a client whose price moves: both
    return the first price, 100. *)
Lemma latest_price_repeats_within_ttl_witness :
  (get_latest_price moving_price ticking "AAPL"
     (get_latest_price moving_price ticking "AAPL" init).1).2 = Some 100%float
  /\ client_calls (get_latest_price moving_price ticking "AAPL"
                     (get_latest_price moving_price ticking "AAPL" init).1).1
     = client_calls (get_latest_price moving_price ticking "AAPL" init).1.
Proof.
  apply (latest_price_repeats_within_ttl moving_price ticking "AAPL" init 100%float).
  - vm_compute. reflexivity.
  - intros t Ht. vm_compute in Ht. injection Ht as <-. vm_compute. reflexivity.
Defined.

(** Thirty days asked for, then a year, the symbols in another order: the
    second call returns the dictionary of the first. *)
Lemma daily_bars_ignore_lookback_witness :
  exists data,
    (get_daily_bars steady_client year_2024 plain_iso ["AAPL"; "MSFT"] 30 init).2
    = Ret data
    /\ client_calls
         (get_daily_bars steady_client year_2024 plain_iso ["MSFT"; "AAPL"] 365
            (get_daily_bars steady_client year_2024 plain_iso ["AAPL"; "MSFT"] 30 init).1).1
       = client_calls
           (get_daily_bars steady_client year_2024 plain_iso ["AAPL"; "MSFT"] 30 init).1
    /\ ((get_daily_bars steady_client year_2024 plain_iso ["MSFT"; "AAPL"] 365
           (get_daily_bars steady_client year_2024 plain_iso ["AAPL"; "MSFT"] 30 init).1).2
        = Ret data
        \/ (get_daily_bars steady_client year_2024 plain_iso ["MSFT"; "AAPL"] 365
              (get_daily_bars steady_client year_2024 plain_iso ["AAPL"; "MSFT"] 30 init).1).2
           = Raise).
Proof.
  eexists. split; [vm_compute; reflexivity|].
  apply (daily_bars_ignore_lookback steady_client year_2024 plain_iso
           ["AAPL"; "MSFT"] ["MSFT"; "AAPL"] 30 365 init).
  - vm_compute. reflexivity.
  - vm_compute. reflexivity.
  - apply Permutation_swap.
  - intros t Ht. vm_compute in Ht. injection Ht as <-. vm_compute. reflexivity.
Defined.

End QueryFacts.

(** ** The retrying client *)

Module ApiFacts.
Import Api ApiTerms.

Lemma backoff_S base from k :
  backoff base from (S k) = base ^ from :: backoff base (from + 1) k.
Proof.
  unfold backoff. simpl. rewrite Z.add_0_r. f_equal.
  rewrite <- seq_shift, map_map. apply map_ext. intros i. f_equal. lia.
Qed.

Lemma backoff_snoc base from k :
  backoff base from (S k) = (backoff base from k ++ [base ^ (from + Z.of_nat k)])%list.
Proof. unfold backoff. rewrite seq_S, map_app. reflexivity. Qed.

(** The waits of base two add up to one less than the next power. *)
Lemma total_backoff_two k : total (backoff 2 0 k) = 2 ^ Z.of_nat k - 1.
Proof.
  induction k as [|k IH]; [reflexivity|].
  rewrite backoff_snoc. unfold total in *. rewrite foldr_app. simpl.
  replace (foldr Z.add (2 ^ (0 + Z.of_nat k) + 0) (backoff 2 0 k))
    with (foldr Z.add 0 (backoff 2 0 k) + 2 ^ Z.of_nat k).
  - rewrite IH, Nat2Z.inj_succ, Z.pow_succ_r by lia. lia.
  - generalize (backoff 2 0 k). intros l. rewrite Z.add_0_r, Z.add_0_l.
    induction l as [|x l IHl]; simpl; lia.
Qed.

Section Thunk.
Context {T : Type}.
Variable answer : list RestCall -> Try T.
Variable c : RestCall.

(** The loop of [retry_api_call] on a REST call: it makes the call between
    once and [remaining] times and waits, before each attempt but the first,
    the next power of [base]; it returns the first answer it gets; an
    exception can only come from [time.sleep], and it logs nothing but its
    own entries. *)
Lemma retry_loop_spec (base n : Z) (remaining : nat) :
  forall count st,
    let r := retry_loop (invoke answer c) base n remaining count st in
    exists k j new,
      (k <= remaining)%nat /\ (j <= k)%nat
      /\ rest_calls r.1 = (rest_calls st ++ replicate k c)%list
      /\ slept r.1 = (slept st ++ backoff base count j)%list
      /\ logged r.1 = (logged st ++ new)%list /\ Forall retry_entry new
      /\ (forall v, r.2 = Returned (Some v) ->
            (1 <= k)%nat /\ j = (k - 1)%nat
            /\ answer (rest_calls st ++ replicate (k - 1) c) = Returned v)
      /\ (forall e, r.2 = Raised e -> e = ValueError \/ e = OtherError).
Proof.
  induction remaining as [|remaining IH]; intros count st; cbv zeta.
  - exists 0%nat, 0%nat, []. unfold backoff. simpl. rewrite !app_nil_r.
    do 6 (split; [first [lia | reflexivity | constructor]|]).
    split; intros ?; discriminate.
  - cbn [retry_loop]. change (invoke answer c st)
      with (mkState (rest_calls st ++ [c])%list (slept st) (logged st), answer (rest_calls st)).
    assert (once : forall (st' : State) (res : Try (option T)) new,
               rest_calls st' = (rest_calls st ++ [c])%list ->
               slept st' = slept st -> logged st' = (logged st ++ new)%list ->
               Forall retry_entry new ->
               (forall v, res = Returned (Some v) -> answer (rest_calls st) = Returned v) ->
               (forall e, res = Raised e -> e = ValueError \/ e = OtherError) ->
               exists k j new,
                 (k <= S remaining)%nat /\ (j <= k)%nat
                 /\ rest_calls (st', res).1 = (rest_calls st ++ replicate k c)%list
                 /\ slept (st', res).1 = (slept st ++ backoff base count j)%list
                 /\ logged (st', res).1 = (logged st ++ new)%list /\ Forall retry_entry new
                 /\ (forall v, (st', res).2 = Returned (Some v) ->
                       (1 <= k)%nat /\ j = (k - 1)%nat
                       /\ answer (rest_calls st ++ replicate (k - 1) c) = Returned v)
                 /\ (forall e, (st', res).2 = Raised e -> e = ValueError \/ e = OtherError)).
    { intros st' res new C S L F V E. exists 1%nat, 0%nat, new.
      unfold backoff. simpl. rewrite app_nil_r. split; [lia|]. split; [lia|]. split; [exact C|].
      split; [exact S|]. split; [exact L|]. split; [exact F|]. split; [|exact E].
      intros v Hv. split; [lia|]. split; [reflexivity|]. rewrite app_nil_r. auto. }
    destruct (answer (rest_calls st)) as [v|e] eqn:A.
    + apply (once _ _ []); simpl; rewrite ?app_nil_r; try reflexivity.
      * constructor.
      * intros v' [= <-]. reflexivity.
      * intros e' [=].
    + destruct (count =? n - 1).
      * apply (once _ _ [api_call_failed n]); simpl; try reflexivity.
        -- repeat constructor.
        -- intros v [=].
        -- intros e' [=].
      * unfold sleep, emit. cbn [rest_calls slept logged].
        destruct (base ^ count <? 0).
        { apply (once _ _ [retrying_in (base ^ count)]); simpl; try reflexivity.
          - repeat constructor.
          - intros v [=].
          - intros e' [= <-]. auto. }
        destruct (max_sleep <? base ^ count).
        { apply (once _ _ [retrying_in (base ^ count)]); simpl; try reflexivity.
          - repeat constructor.
          - intros v [=].
          - intros e' [= <-]. auto. }
        clear once.
        match goal with
        | |- context [retry_loop _ _ _ _ _ ?s] =>
            destruct (IH (count + 1) s) as (k & j & new & Lk & Lj & C & S & L & F & V & E)
        end.
        cbn [rest_calls slept logged] in C, S, L, V.
        exists (Datatypes.S k), (Datatypes.S j), (retrying_in (base ^ count) :: new).
        rewrite C, S, L, backoff_S, <- !(assoc_L app). simpl.
        split; [lia|]. split; [lia|]. split; [reflexivity|]. split; [reflexivity|].
        split; [reflexivity|]. split; [constructor; [exact I | exact F]|].
        split; [|exact E].
        intros v Hv. destruct (V v Hv) as (K1 & -> & Hv'). split; [lia|].
        split; [lia|]. rewrite <- (assoc_L app) in Hv'.
        destruct k as [|k]; [lia|]. simpl in *. rewrite Nat.sub_0_r in *. exact Hv'.
Qed.

(** When every attempt raises and every wait is one [time.sleep] accepts,
    the loop makes the call as often as it may, waits in between, and gives
    up with [None]. *)
Lemma retry_loop_gives_up (base n : Z) (remaining : nat) :
  (forall h, exists e, answer h = Raised e) ->
  forall count st,
    count + Z.of_nat remaining = n -> (1 <= remaining)%nat ->
    (forall i, count <= i < n - 1 -> can_sleep (base ^ i)) ->
    let r := retry_loop (invoke answer c) base n remaining count st in
    r.2 = Returned None
    /\ rest_calls r.1 = (rest_calls st ++ replicate remaining c)%list
    /\ slept r.1 = (slept st ++ backoff base count (remaining - 1))%list
    /\ last (logged r.1) = Some (api_call_failed n).
Proof.
  intros Down. induction remaining as [|remaining IH]; intros count st Hn Hr Hs; [lia|].
  cbv zeta. cbn [retry_loop]. change (invoke answer c st)
      with (mkState (rest_calls st ++ [c])%list (slept st) (logged st), answer (rest_calls st)).
  destruct (Down (rest_calls st)) as [e ->].
  destruct (count =? n - 1) eqn:E.
  - apply Z.eqb_eq in E. assert (remaining = 0%nat) as -> by lia.
    simpl. rewrite !app_nil_r. repeat split. apply last_snoc.
  - apply Z.eqb_neq in E. unfold sleep, emit. cbn [rest_calls slept logged].
    destruct (Hs count ltac:(lia)) as [S1 S2].
    replace (base ^ count <? 0) with false by (symmetry; apply Z.ltb_ge; lia).
    replace (max_sleep <? base ^ count) with false by (symmetry; apply Z.ltb_ge; lia).
    match goal with
    | |- context [retry_loop _ _ _ _ _ ?s] =>
        destruct (IH (count + 1) s) as (R & C & S & L); [lia | lia | intros; apply Hs; lia |]
    end.
    cbn [rest_calls slept logged] in *.
    split; [exact R|]. rewrite C, S, <- !(assoc_L app). simpl.
    split; [reflexivity|]. split; [|exact L].
    destruct remaining as [|remaining]; [lia|]. simpl. rewrite Nat.sub_0_r, backoff_S.
    reflexivity.
Qed.

(** When the first [k] attempts raise and the next one returns [v], the
    loop returns [v] after [k + 1] calls and [k] waits. *)
Lemma retry_loop_first_success (base n : Z) (v : T) (k : nat) :
  forall remaining count st,
    (k < remaining)%nat -> count + Z.of_nat k < n ->
    (forall i, (i < k)%nat ->
       exists e, answer (rest_calls st ++ replicate i c) = Raised e) ->
    answer (rest_calls st ++ replicate k c) = Returned v ->
    (forall i, count <= i < count + Z.of_nat k -> can_sleep (base ^ i)) ->
    let r := retry_loop (invoke answer c) base n remaining count st in
    r.2 = Returned (Some v)
    /\ rest_calls r.1 = (rest_calls st ++ replicate (S k) c)%list
    /\ slept r.1 = (slept st ++ backoff base count k)%list.
Proof.
  induction k as [|k IH]; intros remaining count st Hr Hn Hfail Hv Hs;
    (destruct remaining as [|remaining]; [lia|]); cbv zeta; cbn [retry_loop];
    change (invoke answer c st)
      with (mkState (rest_calls st ++ [c])%list (slept st) (logged st), answer (rest_calls st)).
  - simpl in Hv. rewrite app_nil_r in Hv. rewrite Hv. simpl. rewrite app_nil_r. auto.
  - destruct (Hfail 0%nat ltac:(lia)) as [e He]. simpl in He. rewrite app_nil_r in He.
    rewrite He.
    replace (count =? n - 1) with false by (symmetry; apply Z.eqb_neq; lia).
    unfold sleep, emit. cbn [rest_calls slept logged].
    destruct (Hs count ltac:(lia)) as [S1 S2].
    replace (base ^ count <? 0) with false by (symmetry; apply Z.ltb_ge; lia).
    replace (max_sleep <? base ^ count) with false by (symmetry; apply Z.ltb_ge; lia).
    match goal with
    | |- context [retry_loop _ _ _ _ _ ?s] =>
        destruct (IH remaining (count + 1) s) as (R & C & S)
    end; cbn [rest_calls slept logged] in *.
    + lia.
    + lia.
    + intros i Hi. destruct (Hfail (Datatypes.S i) ltac:(lia)) as [e' He'].
      exists e'. rewrite <- (assoc_L app). exact He'.
    + rewrite <- (assoc_L app). exact Hv.
    + intros i Hi. apply Hs. lia.
    + split; [exact R|]. rewrite C, S, backoff_S, <- !(assoc_L app). auto.
Qed.

(** [retry_api_call] on a call that raises at every attempt, with [n]
    attempts allowed ([max_retries], or the client's own when that is
    [None] or 0) and waits that [time.sleep] accepts: it makes the call
    exactly [n] times, sleeps [base ^ 0], ..., [base ^ (n - 2)] seconds in
    between, logs the failure and returns [None]. With the default base 2
    the waits add up to [2 ^ (n - 1) - 1] seconds. *)
Theorem retry_gives_up_after_max (self : AlpacaClient) (retries : option Z) (st : State) :
  (forall h, exists e, answer h = Raised e) ->
  1 <= allowed self retries ->
  (forall i, 0 <= i < allowed self retries - 1 -> can_sleep (retry_delay_base self ^ i)) ->
  (retry_api_call self (invoke answer c) retries st).2 = Returned None
  /\ rest_calls (retry_api_call self (invoke answer c) retries st).1
     = (rest_calls st ++ replicate (Z.to_nat (allowed self retries)) c)%list
  /\ slept (retry_api_call self (invoke answer c) retries st).1
     = (slept st ++ backoff (retry_delay_base self) 0
                      (Z.to_nat (allowed self retries) - 1))%list
  /\ last (logged (retry_api_call self (invoke answer c) retries st).1)
     = Some (api_call_failed (allowed self retries))
  /\ total (backoff 2 0 (Z.to_nat (allowed self retries) - 1))
     = 2 ^ (allowed self retries - 1) - 1.
Proof.
  intros Down Hn Hs. unfold retry_api_call. fold (allowed self retries).
  destruct (retry_loop_gives_up (retry_delay_base self) (allowed self retries)
              (Z.to_nat (allowed self retries)) Down 0 st) as (R & C & S & L);
    [lia | lia | exact Hs |].
  split; [exact R|]. split; [exact C|]. split; [exact S|]. split; [exact L|].
  rewrite total_backoff_two. f_equal. f_equal. lia.
Qed.

(** [retry_api_call] on a call that raises at its first [k] attempts and
    returns [v] at the next, with more than [k] attempts allowed: it returns
    [v] after [k + 1] calls, having slept [base ^ 0], ..., [base ^ (k - 1)]
    seconds; it does not call again. *)
Theorem retry_returns_first_success (self : AlpacaClient) (retries : option Z)
    (st : State) (k : nat) (v : T) :
  Z.of_nat k < allowed self retries ->
  (forall i, (i < k)%nat -> exists e, answer (rest_calls st ++ replicate i c) = Raised e) ->
  answer (rest_calls st ++ replicate k c) = Returned v ->
  (forall i, 0 <= i < Z.of_nat k -> can_sleep (retry_delay_base self ^ i)) ->
  (retry_api_call self (invoke answer c) retries st).2 = Returned (Some v)
  /\ rest_calls (retry_api_call self (invoke answer c) retries st).1
     = (rest_calls st ++ replicate (S k) c)%list
  /\ slept (retry_api_call self (invoke answer c) retries st).1
     = (slept st ++ backoff (retry_delay_base self) 0 k)%list.
Proof.
  intros Hk Hfail Hv Hs. unfold retry_api_call. fold (allowed self retries).
  apply retry_loop_first_success; try assumption; lia.
Qed.

(** What every use of [retry_api_call] in this file has in common. *)
Lemma retry_api_call_spec (self : AlpacaClient) (retries : option Z) (st : State) :
  let r := retry_api_call self (invoke answer c) retries st in
  exists k new,
    (k <= Z.to_nat (allowed self retries))%nat
    /\ rest_calls r.1 = (rest_calls st ++ replicate k c)%list
    /\ (k = 0%nat -> slept r.1 = slept st)
    /\ logged r.1 = (logged st ++ new)%list /\ Forall retry_entry new
    /\ (forall v, r.2 = Returned (Some v) ->
          (1 <= k)%nat /\ answer (rest_calls st ++ replicate (k - 1) c) = Returned v)
    /\ (forall e, r.2 = Raised e -> e = ValueError \/ e = OtherError).
Proof.
  cbv zeta. unfold retry_api_call. fold (allowed self retries).
  destruct (retry_loop_spec (retry_delay_base self) (allowed self retries)
              (Z.to_nat (allowed self retries)) 0 st)
    as (k & j & new & Lk & Lj & C & S & L & F & V & E).
  exists k, new. split; [exact Lk|]. split; [exact C|]. split.
  - intros ->. assert (j = 0%nat) as -> by lia. rewrite S. apply app_nil_r.
  - split; [exact L|]. split; [exact F|]. split; [|exact E].
    intros v Hv. destruct (V v Hv) as (? & ? & ?). auto.
Qed.

End Thunk.

Section Rest.
Variable rest : Rest.

(** [submit_order] checks before it sends: with a side other than "buy"
    and "sell", or a quantity of zero or less, it returns [None] without any
    call to the REST library and without waiting. Otherwise every call it
    makes submits the order as it was given, at most [max_retries] times,
    and an order it returns is the answer to the last of these calls. *)
Theorem submit_order_checks_first (self : AlpacaClient) (symbol : string) (qty : Number)
    (side order_type time_in_force : string) (kwargs : list (string * Cell)) (st : State) :
  let params := mkOrderParams symbol qty side order_type time_in_force kwargs in
  let r := submit_order rest self symbol qty side order_type time_in_force kwargs st in
  exists k,
    (k <= Z.to_nat (max_retries self))%nat
    /\ rest_calls r.1 = (rest_calls st ++ replicate k (api_submit_order params))%list
    /\ (side ∉ ["buy"; "sell"] \/ le_zero qty = true ->
        k = 0%nat /\ r.2 = Returned None /\ slept r.1 = slept st)
    /\ (forall order, r.2 = Returned (Some order) ->
          (1 <= k)%nat
          /\ rest_submit_order rest
               (rest_calls st ++ replicate (k - 1) (api_submit_order params)) params
             = Returned order).
Proof.
  cbv zeta. unfold submit_order.
  case_bool_decide as Hside; simpl.
  2: { exists 0%nat. simpl. rewrite app_nil_r. split; [lia|]. split; [reflexivity|].
       split; [auto | discriminate]. }
  destruct (le_zero qty) eqn:Hq.
  { exists 0%nat. simpl. rewrite app_nil_r. split; [lia|]. split; [reflexivity|].
    split; [auto | discriminate]. }
  match goal with
  | |- context [retry_api_call self (invoke ?a ?c0) None ?s] =>
      destruct (retry_api_call_spec a c0 self None s)
        as (k & new & Lk & C & _ & _ & _ & V & _)
  end.
  destruct (retry_api_call _ _ _ _) as [st' [[order|]|e]]; simpl in *;
    exists k; (split; [exact Lk|]); (split; [exact C|]);
    (split; [intros [H | H]; [contradiction | discriminate]|]); try discriminate.
  intros o [= <-]. apply (V order eq_refl).
Qed.

(** [get_bars] of the retrying client returns [None] rather than an empty
    table; every call it makes asks for the given symbol, timeframe, limit
    and [end], with the feed only when one is named, at most [max_retries]
    times. *)
Theorem client_bars_never_empty (self : AlpacaClient) (symbol timeframe : string)
    (limit : Z) (feed : option string) (end_ : option Z) (st : State) :
  let r := get_bars rest self symbol timeframe limit feed end_ st in
  (forall df, r.2 = Returned (Some df) -> empty df = false)
  /\ exists k,
       (k <= Z.to_nat (max_retries self))%nat
       /\ rest_calls r.1
          = (rest_calls st
             ++ replicate k (api_get_bars symbol
                               (Fetcher.mkParams limit timeframe
                                  (FetchTerms.feed_of feed) end_)))%list.
Proof.
  cbv zeta. unfold get_bars. fold (FetchTerms.feed_of feed).
  match goal with
  | |- context [retry_api_call self (invoke ?a ?c0) None ?s] =>
      destruct (retry_api_call_spec a c0 self None s)
        as (k & new & Lk & C & _)
  end.
  destruct (retry_api_call _ _ _ _) as [st' [[df|]|e]]; simpl in *.
  - destruct (empty df) eqn:E; simpl.
    + split; [discriminate | eauto].
    + split; [intros ? [= <-]; exact E | eauto].
  - split; [discriminate | eauto].
  - split; [discriminate | eauto].
Qed.

(** The two [APIError] branches of [get_position] are never taken, whatever
    the REST library does: [retry_api_call] has caught every exception of
    the call before they could see one. A position that does not exist (404)
    is retried like any failure, and neither "No position found" nor a
    position error with a status code is ever logged. *)
Theorem api_error_branches_unreachable (self : AlpacaClient) (symbol : string) (st : State) :
  exists new,
    logged (get_position rest self symbol st).1 = (logged st ++ new)%list
    /\ Forall (fun e => ~ api_error_entry e) new.
Proof.
  unfold get_position.
  match goal with
  | |- context [retry_api_call self (invoke ?a ?c0) None ?s] =>
      destruct (retry_api_call_spec a c0 self None s)
        as (k & new & _ & _ & _ & L & F & _ & E)
  end.
  assert (F' : Forall (fun e => ~ api_error_entry e) new).
  { eapply Forall_impl; [exact F|]. intros []; simpl; tauto. }
  destruct (retry_api_call _ _ _ _) as [st' [[position|]|e]]; simpl in *.
  - eexists. rewrite L, <- (assoc_L app). split; [reflexivity|].
    apply Forall_app. split; [exact F'|]. repeat constructor. simpl. tauto.
  - exists new. split; [exact L | exact F'].
  - destruct (E e eq_refl) as [-> | ->]; simpl;
      (eexists; rewrite L, <- (assoc_L app); split; [reflexivity|];
       apply Forall_app; split; [exact F'|]; repeat constructor; simpl; tauto).
Qed.

Section Env.
Variable getenv : string -> option string.

(** [create_client] asks the REST library for the account only, at most
    [max_retries] times, and not at all when [verify] is off or when a
    credential is missing (neither given nor in the environment). A client
    it returns has both credentials, the given [max_retries] and base 2,
    and with [verify] on it comes after an account call that was
    answered. *)
Theorem create_client_outcomes (key secret url : option string) (retries : Z)
    (verify : bool) (st : State) :
  let r := create_client rest getenv key secret url retries verify st in
  exists k,
    (k <= Z.to_nat retries)%nat
    /\ rest_calls r.1 = (rest_calls st ++ replicate k api_get_account)%list
    /\ (verify = false -> k = 0%nat)
    /\ (new_client getenv key secret url retries 2 = None ->
        k = 0%nat /\ r.2 = None)
    /\ (forall client, r.2 = Some client ->
          new_client getenv key secret url retries 2 = Some client
          /\ truthy_string (api_key client) = true
          /\ truthy_string (api_secret client) = true
          /\ max_retries client = retries /\ retry_delay_base client = 2
          /\ (verify = true ->
              exists account,
                (1 <= k)%nat
                /\ rest_get_account rest (rest_calls st ++ replicate (k - 1) api_get_account)
                   = Returned account)).
Proof.
  cbv zeta. unfold create_client.
  destruct (new_client getenv key secret url retries 2) as [client|] eqn:N.
  2: { exists 0%nat. simpl. rewrite app_nil_r. split; [lia|]. split; [reflexivity|].
       split; [auto|]. split; [auto | discriminate]. }
  assert (W : truthy_string (api_key client) = true
              /\ truthy_string (api_secret client) = true
              /\ max_retries client = retries /\ retry_delay_base client = 2).
  { revert N. unfold new_client.
    destruct (or_env getenv key _) as [k0|]; [|discriminate].
    destruct (or_env getenv secret _) as [s0|]; [|discriminate].
    destruct (truthy_string k0 && truthy_string s0) eqn:B; [|discriminate].
    apply andb_true_iff in B as [B1 B2]. intros [= <-]. simpl. auto. }
  destruct verify.
  2: { exists 0%nat. simpl. rewrite app_nil_r. split; [lia|]. split; [reflexivity|].
       split; [auto|]. split; [discriminate|]. intros ? [= <-].
       split; [reflexivity|]. repeat (split; [apply W|]). discriminate. }
  unfold verify_connection, get_account.
  destruct (retry_api_call_spec (rest_get_account rest) api_get_account client None st)
    as (k & new & Lk & C & _ & _ & _ & V & _).
  assert (Lk' : (k <= Z.to_nat retries)%nat).
  { destruct W as (_ & _ & <- & _). exact Lk. }
  destruct (retry_api_call _ _ _ _) as [st' [[account|]|e]]; simpl in *.
  - destruct (Strategy.float_of_cell _); simpl;
      exists k; (split; [exact Lk'|]); (split; [exact C|]);
      (split; [discriminate|]); (split; [discriminate|]); [|discriminate].
    intros ? [= <-]. split; [reflexivity|]. repeat (split; [apply W|]).
    intros _. exists account. apply (V account eq_refl).
  - exists k. split; [exact Lk'|]. split; [exact C|]. repeat (split; [discriminate|]).
    discriminate.
  - exists k. split; [exact Lk'|]. split; [exact C|]. repeat (split; [discriminate|]).
    discriminate.
Qed.

End Env.

End Rest.

(** The default client asking for the account of a REST library that is
    down: three calls, waits of one and two seconds, [None]. *)
Lemma retry_gives_up_after_max_witness :
  let r := retry_api_call default_client
             (invoke (rest_get_account not_found) api_get_account) None initial_state in
  r.2 = Returned None
  /\ rest_calls r.1 = [api_get_account; api_get_account; api_get_account]
  /\ slept r.1 = [1; 2]
  /\ last (logged r.1) = Some (api_call_failed 3)
  /\ total [1; 2] = 3.
Proof.
  apply (retry_gives_up_after_max (rest_get_account not_found) api_get_account
           default_client None initial_state).
  - intros h. eexists. reflexivity.
  - vm_compute. discriminate.
  - intros i Hi. change (allowed default_client None) with 3 in Hi.
    change (retry_delay_base default_client) with 2. unfold can_sleep, max_sleep.
    assert (i = 0 \/ i = 1) as [-> | ->] by lia; simpl; lia.
Defined.

(** The same client on a REST library that works from the third call on. *)
Lemma retry_returns_first_success_witness :
  let r := retry_api_call default_client
             (invoke (rest_get_account third_time_lucky) api_get_account) None
             initial_state in
  r.2 = Returned (Some (mkAccount "ACTIVE" (Num 1000)))
  /\ rest_calls r.1 = [api_get_account; api_get_account; api_get_account]
  /\ slept r.1 = [1; 2].
Proof.
  apply (retry_returns_first_success (rest_get_account third_time_lucky) api_get_account
           default_client None initial_state 2 (mkAccount "ACTIVE" (Num 1000))).
  - vm_compute. reflexivity.
  - intros [|[|i]] Hi; [eexists; reflexivity | eexists; reflexivity | lia].
  - reflexivity.
  - intros i Hi. change (retry_delay_base default_client) with 2.
    unfold can_sleep, max_sleep.
    assert (i = 0 \/ i = 1) as [-> | ->] by lia; simpl; lia.
Defined.

End ApiFacts.

(** ** The rate-limited client *)

Module AlpacaFacts.
Import Alpaca AlpacaTerms.

Section Rest.
Variable now : nat -> float.
Variable Order : Type.
Variable rest_get_bars : list RestCall -> list string -> BarParams -> Outcome (list Bar).
Variable rest_submit_order : list RestCall -> OrderParams -> Outcome Order.
Variable rest_close_position : list RestCall -> string -> Outcome Order.
Variable OrderDict : Type.
Variable order_dict : Order -> Outcome OrderDict.
Variable closed_dict : Order -> Outcome OrderDict.
Variable bars_tz : option string.

(** The rate limiter on a request that comes too soon: it raises, and
    leaves the time of the last request and the calls as they are. *)
Lemma rate_limit_too_soon (st : State) :
  too_soon now st = true ->
  (_rate_limit now st).2 = Raise
  /\ rest_calls (_rate_limit now st).1 = rest_calls st
  /\ last_request_time (_rate_limit now st).1 = last_request_time st
  /\ printed (_rate_limit now st).1 = printed st.
Proof.
  unfold too_soon, _rate_limit, read_clock, sleep. cbn [last_request_time clock_reads].
  intros ->. destruct (_ || _); cbn; auto.
Qed.

(** The rate limiter on any other request: it returns and records the next
    clock reading. *)
Lemma rate_limit_passes (st : State) :
  too_soon now st = false ->
  _rate_limit now st
  = (mkState (now (S (clock_reads st))) (rest_calls st) (slept st) (printed st)
             (S (S (clock_reads st))), Ret tt).
Proof.
  unfold too_soon, _rate_limit, read_clock. cbn [last_request_time clock_reads].
  intros ->. reflexivity.
Qed.

(** A request made less than [min_request_interval] (0.2 s) after the last
    one does not wait and go on: [get_bars], [create_order] and
    [close_position] raise, without calling the REST library, and the time
    of the last request stays as it was. *)
Theorem request_too_soon_raises (st : State) :
  too_soon now st = true ->
  (forall symbols timeframe limit start end_,
      let r := get_bars now rest_get_bars bars_tz symbols timeframe limit start end_ st in
      r.2 = Raise /\ rest_calls r.1 = rest_calls st
      /\ last_request_time r.1 = last_request_time st)
  /\ (forall req,
        let r := create_order now Order rest_submit_order OrderDict order_dict req st in
        r.2 = Raise /\ rest_calls r.1 = rest_calls st
        /\ last_request_time r.1 = last_request_time st)
  /\ (forall symbol,
        let r := close_position now Order rest_close_position OrderDict closed_dict
                   symbol st in
        r.2 = Raise /\ rest_calls r.1 = rest_calls st
        /\ last_request_time r.1 = last_request_time st).
Proof.
  intros H. destruct (rate_limit_too_soon st H) as (R & C & L & _).
  unfold get_bars, create_order, close_position.
  destruct (_rate_limit now st) as [st' [[]|]]; simpl in *; try discriminate.
  repeat split; assumption.
Qed.

(** A request that does not come too soon never raises: each of the three
    functions makes exactly one call to the REST library and returns, with
    the failure value (the empty dictionary) when the library raises; the
    time of the last request becomes the next clock reading. *)
Theorem spaced_request_returns (st : State) :
  too_soon now st = false ->
  (forall symbols timeframe limit start end_,
      let r := get_bars now rest_get_bars bars_tz symbols timeframe limit start end_ st in
      (exists d, r.2 = Ret d)
      /\ rest_calls r.1
         = (rest_calls st
            ++ [api_get_bars symbols
                  (mkBarParams timeframe limit (given start) (given end_))])%list
      /\ last_request_time r.1 = now (S (clock_reads st))
      /\ (rest_get_bars (rest_calls st) symbols
            (mkBarParams timeframe limit (given start) (given end_)) = Raise ->
          r.2 = Ret ∅))
  /\ (forall req,
        let r := create_order now Order rest_submit_order OrderDict order_dict req st in
        (exists d, r.2 = Ret d)
        /\ rest_calls r.1 = (rest_calls st ++ [api_submit_order (order_params req)])%list
        /\ last_request_time r.1 = now (S (clock_reads st))
        /\ (rest_submit_order (rest_calls st) (order_params req) = Raise -> r.2 = Ret None))
  /\ (forall symbol,
        let r := close_position now Order rest_close_position OrderDict closed_dict
                   symbol st in
        (exists d, r.2 = Ret d)
        /\ rest_calls r.1 = (rest_calls st ++ [api_close_position symbol])%list
        /\ last_request_time r.1 = now (S (clock_reads st))
        /\ (rest_close_position (rest_calls st) symbol = Raise -> r.2 = Ret None)).
Proof.
  intros H. unfold get_bars, create_order, close_position.
  rewrite (rate_limit_passes st H). cbn [rest_calls].
  split; [|split].
  - intros symbols tf lim start end_. cbv zeta.
    destruct (rest_get_bars _ _ _) as [bars|]; [destruct (bars_by_symbol _ _ _ _)|];
      simpl; (split; [eauto|]); (split; [reflexivity|]); (split; [reflexivity|]);
      first [discriminate | reflexivity | auto].
  - intros req. cbv zeta.
    destruct (rest_submit_order _ _) as [order|]; [destruct (order_dict order)|];
      simpl; (split; [eauto|]); (split; [reflexivity|]); (split; [reflexivity|]);
      first [discriminate | reflexivity | auto].
  - intros symbol. cbv zeta.
    destruct (rest_close_position _ _) as [order|]; [destruct (closed_dict order)|];
      simpl; (split; [eauto|]); (split; [reflexivity|]); (split; [reflexivity|]);
      first [discriminate | reflexivity | auto].
Qed.

(** A bar that cannot be converted spoils the rows of its symbol. *)
Lemma mapM_bad_bar (l : list Bar) (b : Bar) :
  b ∈ l -> row_of_bar b = None -> mapM row_of_bar l = None.
Proof.
  intros Hin Hb. destruct (mapM row_of_bar l) as [rows|] eqn:E; [|reflexivity].
  apply mapM_Some in E. apply list_elem_of_lookup in Hin as [i Hi].
  destruct (Forall2_lookup_l _ _ _ _ _ E Hi) as (r & _ & Hr). congruence.
Qed.

(** The loop over the symbols: an entry for each requested symbol that has
    bars, nothing else touched; and no result at all when a bar of a
    requested symbol cannot be converted. *)
Lemma bars_by_symbol_spec (symbols : list string) (bars : list Bar) :
  forall result d,
    bars_by_symbol bars_tz symbols bars result = Some d ->
    (forall s, s ∈ symbols -> bars_of s bars <> [] ->
       exists rows, mapM row_of_bar (bars_of s bars) = Some rows
                    /\ d !! s = Some (mkDF (DatetimeIndex bars_tz) bar_columns rows))
    /\ (forall s, ~ (s ∈ symbols /\ bars_of s bars <> []) -> d !! s = result !! s).
Proof.
  induction symbols as [|x rest IH]; intros result d; simpl.
  - intros [= <-]. split; [intros s H; inversion H | reflexivity].
  - fold (bars_of x bars).
    destruct (bars_of x bars) as [|b0 l0] eqn:B.
    + intros H. destruct (IH _ _ H) as [A N]. split.
      * intros s Hin Hne. apply elem_of_cons in Hin as [-> | Hin]; [congruence|].
        apply A; assumption.
      * intros s Hs. apply N. intros [Hin Hne]. apply Hs. split; [right|]; assumption.
    + destruct (mapM row_of_bar (b0 :: l0)) as [rows|] eqn:M; [|discriminate].
      intros H. destruct (IH _ _ H) as [A N]. split.
      * intros s Hin Hne. destruct (decide (s ∈ rest)) as [Hr | Hr]; [apply A; assumption|].
        apply elem_of_cons in Hin as [-> | Hin]; [|contradiction].
        rewrite B, M. exists rows. split; [reflexivity|].
        rewrite N by tauto. apply lookup_insert_eq.
      * intros s Hs. assert (s <> x).
        { intros ->. apply Hs. split; [left | rewrite B; discriminate]. }
        rewrite N.
        -- apply lookup_insert_ne. congruence.
        -- intros [Hin Hne]. apply Hs. split; [right|]; assumption.
Qed.

Lemma bars_by_symbol_bad (symbols : list string) (bars : list Bar) (b : Bar) :
  b ∈ bars -> bar_symbol b ∈ symbols -> row_of_bar b = None ->
  forall result, bars_by_symbol bars_tz symbols bars result = None.
Proof.
  intros Hb Hs Hr. induction symbols as [|x rest IH]; intros result; [inversion Hs|].
  simpl. fold (bars_of x bars).
  destruct (decide (bar_symbol b = x)) as [E | Ne].
  - assert (Hin : b ∈ bars_of x bars) by (apply list_elem_of_filter; auto).
    rewrite (mapM_bad_bar _ _ Hin Hr).
    destruct (bars_of x bars); [inversion Hin | reflexivity].
  - apply elem_of_cons in Hs as [? | Hs]; [contradiction|].
    destruct (bars_of x bars); [apply IH, Hs|].
    destruct (mapM row_of_bar _); [apply IH, Hs | reflexivity].
Qed.

(** The dictionary [get_bars] returns has an entry exactly for the requested
    symbols the library had bars for: a table over open, high, low, close
    and volume whose rows are that symbol's bars in the order they came,
    never an empty one. One bar of a requested symbol that cannot be
    converted voids the whole answer: the result is the empty dictionary
    for all symbols. *)
Theorem bars_grouped_by_symbol (symbols : list string) (timeframe : string) (limit : Z)
    (start end_ : option string) (st : State) (d : gmap string DataFrame) :
  (get_bars now rest_get_bars bars_tz symbols timeframe limit start end_ st).2 = Ret d ->
  (forall s df,
      d !! s = Some df ->
      s ∈ symbols /\ kind df = DatetimeIndex bars_tz /\ columns df = bar_columns
      /\ empty df = false
      /\ exists bars,
           rest_get_bars (rest_calls st) symbols
             (mkBarParams timeframe limit (given start) (given end_)) = Ret bars
           /\ mapM row_of_bar (bars_of s bars) = Some (rows df))
  /\ (forall bars,
        rest_get_bars (rest_calls st) symbols
          (mkBarParams timeframe limit (given start) (given end_)) = Ret bars ->
        (forall b, b ∈ bars -> bar_symbol b ∈ symbols -> is_Some (row_of_bar b)) ->
        forall s, s ∈ symbols -> bars_of s bars <> [] -> is_Some (d !! s))
  /\ (forall bars b,
        rest_get_bars (rest_calls st) symbols
          (mkBarParams timeframe limit (given start) (given end_)) = Ret bars ->
        b ∈ bars -> bar_symbol b ∈ symbols -> row_of_bar b = None ->
        d = ∅).
Proof.
  unfold get_bars. fold (given start) (given end_).
  destruct (too_soon now st) eqn:Soon.
  { destruct (rate_limit_too_soon st Soon) as (R & _).
    destruct (_rate_limit now st) as [st' [[]|]]; simpl in *; discriminate. }
  rewrite (rate_limit_passes st Soon). cbn [rest_calls].
  destruct (rest_get_bars _ _ _) as [bars|] eqn:A.
  2: { simpl. intros [= <-]. split; [|split].
       - intros s df. rewrite lookup_empty. discriminate.
       - intros ? [=].
       - reflexivity. }
  destruct (bars_by_symbol bars_tz symbols bars ∅) as [result|] eqn:B; simpl.
  2: { intros [= <-]. split; [|split].
       - intros s df. rewrite lookup_empty. discriminate.
       - intros bars' [= <-] Good. exfalso.
         assert (G : forall syms result,
                    (forall s, s ∈ syms -> s ∈ symbols) ->
                    bars_by_symbol bars_tz syms bars result <> None).
         { induction syms as [|x rest IH]; intros result Sub; simpl; [discriminate|].
           fold (bars_of x bars).
           assert (Srest : forall s, s ∈ rest -> s ∈ symbols)
             by (intros s Hs; apply Sub; right; exact Hs).
           destruct (bars_of x bars) as [|b0 l0] eqn:Bx; [apply IH, Srest|].
           destruct (mapM row_of_bar (b0 :: l0)) as [rows|] eqn:M; [apply IH, Srest|].
           exfalso. apply mapM_None in M. apply Exists_exists in M as (b & Hb & Nb).
           rewrite <- Bx in Hb. apply list_elem_of_filter in Hb as [Eb Hb].
           destruct (Good b Hb) as [r Hr]; [rewrite Eb; apply Sub; left|]. congruence. }
         exact (G symbols ∅ (fun _ H => H) B).
       - reflexivity. }
  intros [= <-]. destruct (bars_by_symbol_spec symbols bars ∅ result B) as [Has Not].
  split; [|split].
  - intros s df Hs.
    destruct (decide (s ∈ symbols /\ bars_of s bars <> [])) as [[Hin Hne] | No].
    + destruct (Has s Hin Hne) as (rows & M & Hd). rewrite Hd in Hs. injection Hs as <-.
      simpl. split; [exact Hin|]. split; [reflexivity|]. split; [reflexivity|].
      split; [|exists bars; auto].
      unfold empty. simpl. destruct rows; [|reflexivity].
      apply mapM_Some, Forall2_length in M. destruct (bars_of s bars); [congruence|].
      discriminate.
    + rewrite (Not s No), lookup_empty in Hs. discriminate.
  - intros bars' [= <-] _ s Hin Hne. destruct (Has s Hin Hne) as (rows & _ & ->). eauto.
  - intros bars' b [= <-] Hb Hs Hr.
    rewrite (bars_by_symbol_bad symbols bars b Hb Hs Hr) in B. discriminate.
Qed.

End Rest.

Section Bot.
Variable client : Trader.Client.
Variable clock : nat -> Z.
Variable now : nat -> float.
Variable Order : Type.
Variable rest_submit_order : list RestCall -> OrderParams -> Outcome Order.
Variable OrderDict : Type.
Variable order_dict : Order -> Outcome OrderDict.

(** The orders among the calls of executed signals are market buys and
    protective stops. *)
Lemma signal_runs_orders F free calls o :
  CycleTerms.signal_runs F free calls -> Trader.create_order o ∈ calls ->
  (exists s q, o = CycleTerms.market_buy s q)
  \/ (exists s q sl, o = CycleTerms.protective_stop s q sl /\ truthy_float sl = true).
Proof.
  intros R. induction R as [|symbol calls rest Fr S R IH]; [intros H; inversion H|].
  rewrite elem_of_app. intros [H | H]; [|auto].
  destruct S as [|qty|qty sl ? ? T|].
  - inversion H.
  - apply list_elem_of_singleton in H. injection H as ->. left. eauto.
  - apply elem_of_cons in H as [H | H]; [injection H as ->; left; eauto|].
    apply list_elem_of_singleton in H. injection H as ->. right. eauto.
  - apply list_elem_of_singleton in H. discriminate.
Qed.

(** The parameters [create_order] builds for an order of the bot are the
    order's own fields. *)
Lemma bot_order_params F free calls o :
  CycleTerms.signal_runs F free calls -> Trader.create_order o ∈ calls ->
  order_params (as_request o)
  = mkOrderParams (Trader.ord_symbol o) (Trader.ord_qty o) (Trader.ord_side o)
                  (Trader.ord_type o) (Trader.ord_time_in_force o) false
                  None (Trader.ord_stop_price o) None.
Proof.
  intros R H.
  destruct (signal_runs_orders _ _ _ _ R H) as [(s & q & ->) | (s & q & sl & -> & T)].
  - reflexivity.
  - unfold order_params, as_request, CycleTerms.protective_stop. simpl. rewrite T.
    reflexivity.
Qed.

(** What the rate-limited [create_order] does with an order a trading cycle
    hands to it. When the request does not come within the minimum interval
    of the last one, it calls the REST library's [submit_order] exactly
    once, with the order as the bot gave it: same symbol, quantity, side,
    type and time in force, no limit price and no client order id, and the
    stop price of a protective stop; and it returns. When the request comes
    too soon it raises and sends nothing. *)
Theorem bot_orders_sent_as_given (b : Trader.TradingBot) :
  exists calls,
    Trader.client_calls (Trader._trading_cycle client clock b)
    = (Trader.client_calls b ++ calls)%list
    /\ forall o st,
        Trader.create_order o ∈ calls ->
        let r := create_order now Order rest_submit_order OrderDict order_dict
                   (as_request o) st in
        let sent :=
          api_submit_order
            (mkOrderParams (Trader.ord_symbol o) (Trader.ord_qty o) (Trader.ord_side o)
                           (Trader.ord_type o) (Trader.ord_time_in_force o) false
                           None (Trader.ord_stop_price o) None) in
        (too_soon now st = false ->
         rest_calls r.1 = (rest_calls st ++ [sent])%list /\ exists d, r.2 = Ret d)
        /\ (too_soon now st = true ->
            rest_calls r.1 = rest_calls st /\ r.2 = Raise).
Proof.
  destruct (CycleFacts.cycle_sends client clock b) as (calls & C & R).
  eexists. split; [exact C|]. intros o st H. cbv zeta.
  assert (P : order_params (as_request o)
              = mkOrderParams (Trader.ord_symbol o) (Trader.ord_qty o) (Trader.ord_side o)
                              (Trader.ord_type o) (Trader.ord_time_in_force o) false
                              None (Trader.ord_stop_price o) None).
  { apply elem_of_app in H as [H | H]; [set_solver|].
    exact (bot_order_params _ _ _ _ R H). }
  unfold create_order. rewrite P. split.
  - intros Soon. rewrite (rate_limit_passes now st Soon). cbn [rest_calls].
    destruct (rest_submit_order _ _) as [order|]; [destruct (order_dict order)|];
      simpl; eauto.
  - intros Soon. destruct (rate_limit_too_soon now st Soon) as (Rs & Cs & _).
    destruct (_rate_limit now st) as [st' [[]|]]; simpl in *;
      [discriminate | auto].
Qed.

End Bot.

(** The second of two requests a hundredth of a second apart raises. *)
Lemma request_too_soon_raises_witness :
  (close_position hundredths string accept_close string id_dict "AAPL" second_request).2
  = Raise
  /\ rest_calls
       (close_position hundredths string accept_close string id_dict "AAPL"
          second_request).1
     = rest_calls second_request
  /\ last_request_time
       (close_position hundredths string accept_close string id_dict "AAPL"
          second_request).1
     = last_request_time second_request.
Proof.
  destruct (request_too_soon_raises hundredths string mixed_bars accept_order
              accept_close string id_dict id_dict None second_request)
    as (_ & _ & C); [vm_compute; reflexivity|].
  exact (C "AAPL").
Defined.

(** The first request of a client is served. *)
Lemma spaced_request_returns_witness :
  (exists d, (create_order seconds string accept_order string id_dict
                (as_request (CycleTerms.market_buy "AAPL" 40)) init).2 = Ret d)
  /\ rest_calls (create_order seconds string accept_order string id_dict
                   (as_request (CycleTerms.market_buy "AAPL" 40)) init).1
     = [api_submit_order (order_params (as_request (CycleTerms.market_buy "AAPL" 40)))].
Proof.
  destruct (spaced_request_returns seconds string mixed_bars accept_order
              accept_close string id_dict id_dict None init)
    as (_ & C & _); [vm_compute; reflexivity|].
  destruct (C (as_request (CycleTerms.market_buy "AAPL" 40))) as (D & R & _).
  split; [exact D | exact R].
Defined.

(** AAPL is requested and has a good bar; the bar of MSFT that cannot be
    read is not asked for and does no harm. *)
Lemma bars_grouped_by_symbol_witness :
  "AAPL" ∈ ["AAPL"] /\ kind good_table = DatetimeIndex None
  /\ columns good_table = bar_columns /\ empty good_table = false.
Proof.
  destruct (bars_grouped_by_symbol seconds mixed_bars None ["AAPL"] "1Min" 100 None None
              init _ eq_refl) as (A & _).
  destruct (A "AAPL" good_table) as (S1 & K & C & E & _); [vm_compute; reflexivity|].
  auto.
Defined.

End AlpacaFacts.

(** ** The feed diagnostic *)

Module DiagnosticFacts.
Import Fetcher Diagnostics DiagnosticTerms.

(** A table that is not empty has a row. *)
Lemma len_nonempty (df : DataFrame) : empty df = false -> 0 < len df.
Proof.
  unfold empty, len. destruct (rows df); [discriminate|]. intros _. simpl. lia.
Qed.

Lemma bars_got_nonneg (a : Outcome (option DataFrame)) : 0 <= bars_got a.
Proof.
  destruct a as [[df|]|]; simpl; try lia.
  destruct (empty df) eqn:E; [lia|]. pose proof (len_nonempty df E). lia.
Qed.

Lemma answers_nonneg client cs : forall h, Forall (fun x => 0 <= x.2) (answers client h cs).
Proof.
  induction cs as [|c cs IH]; intros h; simpl; constructor; [apply bars_got_nonneg|].
  apply IH.
Qed.

Lemma answers_app client l1 l2 :
  forall h, answers client h (l1 ++ l2)
            = (answers client h l1 ++ answers client (h ++ l1) l2)%list.
Proof.
  induction l1 as [|c l1 IH]; intros h; simpl.
  - rewrite app_nil_r. reflexivity.
  - rewrite IH, <- (assoc_L app). reflexivity.
Qed.

Lemma answers_calls client cs : forall h, map fst (answers client h cs) = cs.
Proof.
  induction cs as [|c cs IH]; intros h; simpl; [reflexivity|]. rewrite IH. reflexivity.
Qed.

(** The recommendation after a run of probes is the first probe that got
    the most bars, when one got more than the count to start with. *)
Lemma tally_spec (got : list (Call * Z)) :
  forall hi b,
    let r := fold_left step got (hi, b) in
    hi <= r.1
    /\ Forall (fun x => x.2 <= r.1) got
    /\ ((r = (hi, b))
        \/ (hi < r.1
            /\ exists pre c post,
                 got = (pre ++ (c, r.1) :: post)%list
                 /\ r.2 = Some (combination_of c)
                 /\ Forall (fun x => x.2 < r.1) pre)).
Proof.
  induction got as [|[c n] rest IH]; intros hi b; simpl.
  - split; [lia|]. split; [constructor | left; reflexivity].
  - change (step (hi, b) (c, n))
      with (if hi <? n then (n, Some (combination_of c)) else (hi, b)).
    destruct (Z.ltb_spec hi n) as [L | L].
    + destruct (IH n (Some (combination_of c)))
        as (M & F & [E | (G & pre & c' & post & E & B & P)]).
      * rewrite E in *. simpl in *. split; [lia|].
        split; [constructor; [simpl; lia | exact F]|].
        right. split; [exact L|]. exists [], c, rest. auto.
      * split; [lia|]. split; [constructor; [simpl; lia | exact F]|].
        right. split; [lia|]. exists ((c, n) :: pre), c', post.
        rewrite E at 1. split; [reflexivity|]. split; [exact B|].
        constructor; [simpl; lia | exact P].
    + destruct (IH hi b) as (M & F & [E | (G & pre & c' & post & E & B & P)]).
      * rewrite E in *. simpl in *. split; [lia|].
        split; [constructor; [simpl; lia | exact F]|].
        left. reflexivity.
      * split; [lia|]. split; [constructor; [simpl; lia | exact F]|].
        right. split; [lia|]. exists ((c, n) :: pre), c', post.
        rewrite E at 1. split; [reflexivity|]. split; [exact B|].
        constructor; [simpl; lia | exact P].
Qed.

Lemma feed_name_of (f : option string) : feed_name (FetchTerms.feed_of f) = feed_name f.
Proof.
  destruct f as [s|]; simpl; [|reflexivity]. destruct (truthy_string s) eqn:T; simpl;
    rewrite ?T; reflexivity.
Qed.

Lemma sound_entries_mono hi hi' d :
  hi <= hi' -> sound_entries hi d -> sound_entries hi' d.
Proof. intros L S k e H. destruct (S k e H) as [B T]. split; [lia | exact T]. Qed.

Lemma init_entry_lookup k (d : gmap string Entry) j :
  init_entry k d !! j
  = match d !! j with
    | Some e => Some e
    | None => if decide (k = j) then Some (mkEntry false 0) else None
    end.
Proof.
  unfold init_entry. destruct (d !! k) as [e|] eqn:K.
  - destruct (d !! j) eqn:J; [reflexivity|]. destruct (decide (k = j)); [congruence|].
    reflexivity.
  - destruct (decide (k = j)) as [<- | N].
    + rewrite lookup_insert_eq, K. reflexivity.
    + rewrite lookup_insert_ne by exact N. destruct (d !! j); reflexivity.
Qed.

Lemma init_entry_sound hi k d :
  0 <= hi -> sound_entries hi d -> sound_entries hi (init_entry k d).
Proof.
  intros H0 S j e. rewrite init_entry_lookup. destruct (d !! j) as [e'|] eqn:J.
  - intros [= <-]. exact (S j e' J).
  - destruct (decide (k = j)); [|discriminate]. intros [= <-]. simpl.
    split; [lia|]. split; [discriminate | lia].
Qed.

Lemma record_success_sound hi k n d :
  0 < n -> sound_entries hi d -> sound_entries (Z.max hi n) (record_success k n d).
Proof.
  intros Hn S j e. unfold record_success. destruct (decide (k = j)) as [<- | N].
  - rewrite lookup_alter_eq. destruct (d !! k) as [e'|] eqn:K; [|discriminate].
    intros [= <-]. simpl. destruct (S k e' K) as [B _]. split; [lia|].
    split; [lia | reflexivity].
  - rewrite lookup_alter_ne by exact N. intros J. destruct (S j e J) as [B T].
    split; [lia | exact T].
Qed.

Lemma record_success_top hi k n d j e :
  n <= hi -> d !! j = Some e -> max_bars e = hi ->
  exists e', record_success k n d !! j = Some e' /\ max_bars e' = hi.
Proof.
  intros L J M. unfold record_success. destruct (decide (k = j)) as [<- | N].
  - rewrite lookup_alter_eq, J. eexists. split; [reflexivity|]. simpl. lia.
  - rewrite lookup_alter_ne by exact N. eauto.
Qed.

Lemma record_success_new hi k n d :
  hi < n -> sound_entries hi d -> is_Some (d !! k) ->
  exists e', record_success k n d !! k = Some e' /\ max_bars e' = n.
Proof.
  intros L S [e K]. unfold record_success. rewrite lookup_alter_eq, K.
  eexists. split; [reflexivity|]. simpl. destruct (S k e K) as [B _]. lia.
Qed.

Lemma record_success_keys k n (d : gmap string Entry) j :
  is_Some (record_success k n d !! j) <-> is_Some (d !! j).
Proof. unfold record_success. apply lookup_alter_is_Some. Qed.

Lemma init_entry_keys k (d : gmap string Entry) j :
  is_Some (init_entry k d !! j) <-> j = k \/ is_Some (d !! j).
Proof.
  rewrite init_entry_lookup. destruct (d !! j) as [e|].
  - split; eauto.
  - destruct (decide (k = j)) as [<- | N].
    + split; eauto.
    + split; [intros [? [=]] | intros [-> | [? [=]]]; contradiction].
Qed.

Section Client.
Variable client_get_bars : list Call -> Call -> Outcome (option DataFrame).
Variable now : nat -> Z.
Variable isoformat : Z -> string.

(** One probe: the call it makes and what it does to the recommendation. *)
Lemma probe_spec symbol lookback tf f st r :
  0 <= highest_bar_count r ->
  let c := mkCall symbol (mkParams lookback tf (FetchTerms.feed_of f) None) in
  let res := probe client_get_bars symbol lookback tf f st r in
  res.1 = mkState (data_stats st) (calls st ++ [c])%list (events st) (clock_reads st)
  /\ (highest_bar_count res.2, best_combination res.2)
     = step (highest_bar_count r, best_combination r)
            (c, bars_got (client_get_bars (calls st) c))
  /\ enhanced_method res.2 = enhanced_method r.
Proof.
  intros H0 c res. subst res. unfold probe, call_client. fold (FetchTerms.feed_of f).
  fold (feed_name f). fold c. unfold step, combination_of. simpl.
  rewrite (feed_name_of f).
  destruct (client_get_bars (calls st) c) as [[df|]|]; simpl.
  - destruct (empty df) eqn:E; simpl.
    + split; [reflexivity|]. split; [|reflexivity].
      destruct (Z.ltb_spec (highest_bar_count r) 0); [lia | reflexivity].
    + destruct (highest_bar_count r <? len df); simpl; auto.
  - split; [reflexivity|]. split; [|reflexivity].
    destruct (Z.ltb_spec (highest_bar_count r) 0); [lia | reflexivity].
  - split; [reflexivity|]. split; [|reflexivity].
    destruct (Z.ltb_spec (highest_bar_count r) 0); [lia | reflexivity].
Qed.

Lemma step_grows acc x : acc.1 <= (step acc x).1.
Proof. unfold step. destruct (Z.ltb_spec acc.1 x.2); simpl; lia. Qed.

(** The loop over the feeds. *)
Lemma probe_feeds_spec symbol lookback tf (fs : list (option string)) :
  forall st r,
    0 <= highest_bar_count r ->
    let cs := map (fun f => mkCall symbol (mkParams lookback tf (FetchTerms.feed_of f) None))
                  fs in
    let res := probe_feeds client_get_bars symbol lookback tf fs st r in
    res.1 = mkState (data_stats st) (calls st ++ cs)%list (events st) (clock_reads st)
    /\ (highest_bar_count res.2, best_combination res.2)
       = fold_left step (answers client_get_bars (calls st) cs)
                   (highest_bar_count r, best_combination r)
    /\ enhanced_method res.2 = enhanced_method r.
Proof.
  induction fs as [|f fs IH]; intros st r H0; simpl.
  - rewrite app_nil_r. destruct st; auto.
  - destruct (probe_spec symbol lookback tf f st r H0) as (S1 & T1 & E1).
    destruct (probe client_get_bars symbol lookback tf f st r) as [st1 r1].
    simpl in S1, T1, E1.
    assert (H1 : 0 <= highest_bar_count r1).
    { pose proof (step_grows (highest_bar_count r, best_combination r)
                    (mkCall symbol (mkParams lookback tf (FetchTerms.feed_of f) None),
                     bars_got (client_get_bars (calls st)
                       (mkCall symbol (mkParams lookback tf (FetchTerms.feed_of f) None)))))
        as G.
      rewrite <- T1 in G. simpl in G. lia. }
    destruct (IH st1 r1 H1) as (S2 & T2 & E2).
    rewrite S2, T2, E2, E1, <- T1, S1. simpl. rewrite <- (assoc_L app). auto.
Qed.

(** The loop over the timeframes. *)
Lemma probe_timeframes_spec symbol lookback (tfs : list string) :
  forall st r,
    0 <= highest_bar_count r ->
    let res := probe_timeframes client_get_bars symbol lookback tfs st r in
    res.1 = mkState (data_stats st) (calls st ++ probes symbol lookback tfs)%list
                    (events st) (clock_reads st)
    /\ (highest_bar_count res.2, best_combination res.2)
       = fold_left step (answers client_get_bars (calls st) (probes symbol lookback tfs))
                   (highest_bar_count r, best_combination r)
    /\ enhanced_method res.2 = enhanced_method r.
Proof.
  induction tfs as [|tf tfs IH]; intros st r H0.
  - simpl. rewrite app_nil_r. destruct st; auto.
  - cbn [probe_timeframes]. set (r0 := mkResults _ _ _ _ _).
    pose proof (probe_feeds_spec symbol lookback tf feeds st r0 H0) as P. cbv zeta in P.
    destruct (probe_feeds client_get_bars symbol lookback tf feeds st r0) as [st1 r1].
    destruct P as (S1 & T1 & E1). cbn [fst snd] in S1, T1, E1.
    change (map _ feeds)
      with (map (fun f => mkCall symbol (mkParams lookback tf f None)) feeds) in S1, T1.
    assert (H1 : 0 <= highest_bar_count r1).
    { match type of T1 with
      | _ = fold_left step ?l (?x, ?y) => destruct (tally_spec l x y) as (G & _)
      end.
      rewrite <- T1 in G. exact (Z.le_trans _ _ _ H0 G). }
    destruct (IH st1 r1 H1) as (S2 & T2 & E2). cbv beta iota zeta.
    rewrite S2, T2, E2, E1, T1, S1. cbn [calls data_stats events clock_reads].
    unfold probes.
    change (flat_map ?f (tf :: tfs)) with (f tf ++ flat_map f tfs)%list.
    rewrite answers_app, fold_left_app, <- (assoc_L app). auto.
Qed.

(** One probe keeps the results consistent. *)
Lemma probe_consistent symbol lookback tf f st r :
  consistent r -> 0 <= highest_bar_count r -> is_Some (timeframe_results r !! tf) ->
  let r' := (probe client_get_bars symbol lookback tf f st r).2 in
  consistent r' /\ 0 <= highest_bar_count r'
  /\ (forall j, is_Some (feed_results r' !! j)
                <-> j = feed_name f \/ is_Some (feed_results r !! j))
  /\ (forall j, is_Some (timeframe_results r' !! j) <-> is_Some (timeframe_results r !! j)).
Proof.
  intros (SF & ST & B) H0 Tf. unfold probe, call_client. fold (feed_name f).
  set (fn := feed_name f). cbv zeta.
  assert (SF' : sound_entries (highest_bar_count r) (init_entry fn (feed_results r)))
    by (apply init_entry_sound; assumption).
  assert (quiet : consistent
            (mkResults (init_entry fn (feed_results r)) (timeframe_results r)
                       (best_combination r) (highest_bar_count r) (enhanced_method r))
          /\ 0 <= highest_bar_count r
          /\ (forall j, is_Some (init_entry fn (feed_results r) !! j)
                        <-> j = fn \/ is_Some (feed_results r !! j))
          /\ (forall j, is_Some (timeframe_results r !! j)
                        <-> is_Some (timeframe_results r !! j))).
  { split; [|split; [exact H0 | split; [apply init_entry_keys | reflexivity]]].
    split; [exact SF'|]. split; [exact ST|]. simpl.
    destruct (best_combination r) as [b|]; [|exact B].
    destruct B as (P & (e & Fe & Me) & T). split; [exact P|]. split; [|exact T].
    exists e. rewrite init_entry_lookup, Fe. auto. }
  destruct (client_get_bars _ _) as [[df|]|]; cbn [fst snd]; [|exact quiet | exact quiet].
  destruct (empty df) eqn:E; [exact quiet|].
  pose proof (len_nonempty df E) as Hn. cbn [feed_results timeframe_results
    best_combination highest_bar_count enhanced_method].
  assert (keysF : forall j, is_Some (record_success fn (len df)
                                       (init_entry fn (feed_results r)) !! j)
                            <-> j = fn \/ is_Some (feed_results r !! j)).
  { intros j. rewrite record_success_keys. apply init_entry_keys. }
  assert (keysT : forall j, is_Some (record_success tf (len df) (timeframe_results r) !! j)
                            <-> is_Some (timeframe_results r !! j)).
  { intros j. apply record_success_keys. }
  destruct (Z.ltb_spec (highest_bar_count r) (len df)) as [L | L]; cbn [fst snd].
  - split; [|split; [simpl; lia | split; assumption]].
    unfold consistent. simpl.
    replace (len df) with (Z.max (highest_bar_count r) (len df)) at 1 3 by lia.
    split; [apply record_success_sound; assumption|].
    split; [apply record_success_sound; assumption|].
    split; [lia|]. split.
    + apply (record_success_new (highest_bar_count r)); [exact L | exact SF'|].
      apply init_entry_keys. left. reflexivity.
    + apply (record_success_new (highest_bar_count r)); assumption.
  - split; [|split; [simpl; lia | split; assumption]].
    unfold consistent. simpl.
    replace (highest_bar_count r) with (Z.max (highest_bar_count r) (len df)) at 1 2 by lia.
    split; [apply record_success_sound; assumption|].
    split; [apply record_success_sound; assumption|].
    destruct (best_combination r) as [b|]; [|lia].
    destruct B as (P & (e & Fe & Me) & (e' & Te & Me')). split; [exact P|]. split.
    + apply (record_success_top (highest_bar_count r) _ _ _ _ e); [exact L | | exact Me].
      rewrite init_entry_lookup, Fe. reflexivity.
    + apply (record_success_top (highest_bar_count r) _ _ _ _ e'); assumption.
Qed.

(** The loop over the feeds keeps the results consistent. *)
Lemma probe_feeds_consistent symbol lookback tf (fs : list (option string)) :
  forall st r,
    consistent r -> 0 <= highest_bar_count r -> is_Some (timeframe_results r !! tf) ->
    let r' := (probe_feeds client_get_bars symbol lookback tf fs st r).2 in
    consistent r' /\ 0 <= highest_bar_count r'
    /\ (forall j, is_Some (feed_results r' !! j)
                  <-> j ∈ map feed_name fs \/ is_Some (feed_results r !! j))
    /\ (forall j, is_Some (timeframe_results r' !! j)
                  <-> is_Some (timeframe_results r !! j)).
Proof.
  induction fs as [|f fs IH]; intros st r C H0 Tf; cbn [probe_feeds].
  - simpl. split; [exact C|]. split; [exact H0|]. split; [|reflexivity].
    intros j. rewrite elem_of_nil. tauto.
  - pose proof (probe_consistent symbol lookback tf f st r C H0 Tf) as P. cbv zeta in P.
    destruct (probe client_get_bars symbol lookback tf f st r) as [st1 r1].
    cbn [fst snd] in P. destruct P as (C1 & H1 & KF & KT).
    assert (Tf1 : is_Some (timeframe_results r1 !! tf)) by (apply KT; exact Tf).
    destruct (IH st1 r1 C1 H1 Tf1) as (C2 & H2 & KF2 & KT2).
    split; [exact C2|]. split; [exact H2|]. split.
    + intros j. rewrite KF2, KF. cbn [map]. rewrite elem_of_cons. tauto.
    + intros j. rewrite KT2, KT. reflexivity.
Qed.

(** The loop over the timeframes keeps the results consistent. *)
Lemma probe_timeframes_consistent symbol lookback (tfs : list string) :
  forall st r,
    consistent r -> 0 <= highest_bar_count r ->
    let r' := (probe_timeframes client_get_bars symbol lookback tfs st r).2 in
    consistent r' /\ 0 <= highest_bar_count r'
    /\ (forall j, is_Some (feed_results r' !! j)
                  <-> (tfs <> [] /\ j ∈ map feed_name feeds)
                      \/ is_Some (feed_results r !! j))
    /\ (forall j, is_Some (timeframe_results r' !! j)
                  <-> j ∈ tfs \/ is_Some (timeframe_results r !! j)).
Proof.
  induction tfs as [|tf tfs IH]; intros st r C H0.
  - simpl. split; [exact C|]. split; [exact H0|]. split; intros j.
    + split; [auto | intros [[N _] | H]; [congruence | exact H]].
    + rewrite elem_of_nil. tauto.
  - cbn [probe_timeframes]. set (r0 := mkResults _ _ _ _ _).
    assert (C0 : consistent r0).
    { destruct C as (SF & ST & B). split; [exact SF|].
      split; [apply init_entry_sound; assumption|]. simpl.
      destruct (best_combination r) as [b|]; [|exact B].
      destruct B as (P & F & (e & Te & Me)). split; [exact P|]. split; [exact F|].
      exists e. rewrite init_entry_lookup, Te. auto. }
    assert (Tf0 : is_Some (timeframe_results r0 !! tf))
      by (apply init_entry_keys; left; reflexivity).
    pose proof (probe_feeds_consistent symbol lookback tf feeds st r0 C0 H0 Tf0) as P.
    cbv zeta in P.
    destruct (probe_feeds client_get_bars symbol lookback tf feeds st r0) as [st1 r1].
    cbn [fst snd] in P. destruct P as (C1 & H1 & KF & KT).
    destruct (IH st1 r1 C1 H1) as (C2 & H2 & KF2 & KT2). cbv beta iota zeta.
    split; [exact C2|]. split; [exact H2|]. split; intros j.
    + rewrite KF2, KF. change (feed_results r0) with (feed_results r).
      split.
      * intros [[_ H] | [H | H]];
          [left; split; [discriminate | exact H]
          | left; split; [discriminate | exact H]
          | right; exact H].
      * intros [[_ H] | H]; [right; left; exact H | right; right; exact H].
    + rewrite KT2, KT. change (timeframe_results r0)
        with (init_entry tf (timeframe_results r)).
      rewrite init_entry_keys, elem_of_cons. tauto.
Qed.

(** The recommendation of the diagnostic is the first probe that got the
    most bars. [test_data_feeds] probes the client once for each timeframe
    and feed, in that order, asking for [lookback_bars] bars each time;
    [highest_bar_count] is at least what any probe got; [best_combination]
    names the feed and timeframe of a probe that got exactly that many
    while every earlier probe got fewer; and it is missing only when
    no probe got a bar. *)
Theorem recommendation_is_first_best (fuel : nat) (symbol : string)
    (timeframes : option (list string)) (lookback : Z) (st st' : State) (r : Results) :
  test_data_feeds client_get_bars now isoformat fuel symbol timeframes lookback st
  = Some (st', r) ->
  let asked := probes symbol lookback (timeframes_or_default timeframes) in
  let got := answers client_get_bars (calls st) asked in
  (exists more, calls st' = (calls st ++ asked ++ more)%list)
  /\ Forall (fun x => x.2 <= highest_bar_count r) got
  /\ match best_combination r with
     | Some b =>
         exists pre c post,
           got = (pre ++ (c, highest_bar_count r) :: post)%list
           /\ b = combination_of c
           /\ 0 < highest_bar_count r
           /\ Forall (fun x => x.2 < highest_bar_count r) pre
     | None => highest_bar_count r = 0 /\ Forall (fun x => x.2 = 0) got
     end.
Proof.
  intros H asked got. unfold test_data_feeds in H.
  pose proof (probe_timeframes_spec symbol lookback (timeframes_or_default timeframes)
                st initial_results (Z.le_refl 0)) as P. cbv zeta in P.
  destruct (probe_timeframes _ _ _ _ _ _) as [st1 r1]. cbn [fst snd] in P.
  destruct P as (S1 & T1 & _). fold asked in S1, T1. fold got in T1.
  destruct (get_bars client_get_bars now fuel symbol lookback "1H" None st1)
    as [[st2 bars]|] eqn:G; [|discriminate].
  injection H as <- <-. cbn [best_combination highest_bar_count].
  destruct (FetchFacts.get_bars_summary client_get_bars now fuel _ _ _ _ _ _ _ G)
    as ((new & Cn & _) & _).
  split.
  { exists new. rewrite Cn, S1. simpl. rewrite <- (assoc_L app). reflexivity. }
  destruct (tally_spec got 0 None) as (M & F & D). cbv zeta in M, F, D.
  change (highest_bar_count initial_results, best_combination initial_results)
    with (0, @None Combination) in T1.
  rewrite <- T1 in M, F, D. cbn [fst snd] in M, F, D.
  split; [exact F|].
  destruct D as [E | (L & pre & c & post & E & B & P)].
  - injection E as E1 E2. rewrite E2. split; [exact E1|].
    rewrite E1 in F. pose proof (answers_nonneg client_get_bars asked (calls st)) as N.
    fold got in N. clear -F N. induction got as [|x l IH]; constructor.
    + inversion F; inversion N; subst. lia.
    + inversion F; inversion N; subst. auto.
  - rewrite B. exists pre, c, post. auto.
Qed.

(** The results of the diagnostic agree with each other, whatever the
    client answers: [feed_results] has the three feeds sip, default and
    iex, [timeframe_results] the timeframes tested; an entry has [success]
    set exactly when its [max_bars] is above 0; no [max_bars] is above
    [highest_bar_count], and the recommended feed and the recommended
    timeframe both show it; [enhanced_method] is always filled in, and a
    success there reports at least one bar and at least [lookback_bars]. *)
Theorem diagnostic_results_consistent (fuel : nat) (symbol : string)
    (timeframes : option (list string)) (lookback : Z) (st st' : State) (r : Results) :
  test_data_feeds client_get_bars now isoformat fuel symbol timeframes lookback st
  = Some (st', r) ->
  consistent r
  /\ (forall j, is_Some (feed_results r !! j) <-> j ∈ ["sip"; "default"; "iex"])
  /\ (forall j, is_Some (timeframe_results r !! j)
                <-> j ∈ timeframes_or_default timeframes)
  /\ exists e, enhanced_method r = Some e
               /\ forall n first last,
                    e = enhanced_success n first last -> 0 < n /\ lookback <= n.
Proof.
  unfold test_data_feeds. intros H.
  assert (C0 : consistent initial_results).
  { split; [|split; [|reflexivity]]; intros k e; simpl; rewrite lookup_empty;
      discriminate. }
  pose proof (probe_timeframes_consistent symbol lookback
                (timeframes_or_default timeframes) st initial_results C0 (Z.le_refl 0))
    as P. cbv zeta in P.
  destruct (probe_timeframes _ _ _ _ _ _) as [st1 r1]. cbn [fst snd] in P.
  destruct P as (C1 & _ & KF & KT).
  destruct (get_bars client_get_bars now fuel symbol lookback "1H" None st1)
    as [[st2 bars]|] eqn:G; [|discriminate].
  injection H as <- <-.
  split; [exact C1|]. cbn [feed_results timeframe_results enhanced_method].
  split; [|split].
  - intros j. rewrite KF. simpl. rewrite lookup_empty. split.
    + intros [[_ H] | [? [=]]]. exact H.
    + intros H. left. split; [|exact H].
      unfold timeframes_or_default. destruct timeframes as [[|]|]; discriminate.
  - intros j. rewrite KT. simpl. rewrite lookup_empty. split; [|auto].
    intros [H | [? [=]]]. exact H.
  - eexists. split; [reflexivity|]. intros n first last.
    destruct bars as [df|]; [|discriminate].
    destruct (empty df) eqn:E; [discriminate|]. intros [= <- _ _].
    destruct (FetchFacts.get_bars_summary client_get_bars now fuel _ _ _ _ _ _ _ G)
      as (_ & _ & _ & L & _). simpl in L.
    split; [apply len_nonempty, E | exact L].
Qed.

End Client.

(** Two bars asked for at the default timeframes, from a client with three
    bars on the default feed at 1D and two on iex at 1H: the second probe
    is the recommendation. *)
Lemma recommendation_is_first_best_witness :
  exists st' r,
    test_data_feeds patchy (fun _ => 0) QueryTerms.plain_iso 8 "AAPL" None 2 initial_state
    = Some (st', r)
    /\ (exists more,
          calls st'
          = (calls initial_state
             ++ probes "AAPL" 2 (timeframes_or_default None) ++ more)%list)
    /\ Forall (fun x => x.2 <= highest_bar_count r)
          (answers patchy (calls initial_state)
             (probes "AAPL" 2 (timeframes_or_default None)))
    /\ match best_combination r with
       | Some b =>
           exists pre c post,
             answers patchy (calls initial_state)
               (probes "AAPL" 2 (timeframes_or_default None))
             = (pre ++ (c, highest_bar_count r) :: post)%list
             /\ b = combination_of c
             /\ 0 < highest_bar_count r
             /\ Forall (fun x => x.2 < highest_bar_count r) pre
       | None =>
           highest_bar_count r = 0
           /\ Forall (fun x => x.2 = 0)
                (answers patchy (calls initial_state)
                   (probes "AAPL" 2 (timeframes_or_default None)))
       end.
Proof.
  eexists _, _. split; [vm_compute; reflexivity|].
  eapply (recommendation_is_first_best patchy (fun _ => 0) QueryTerms.plain_iso 8 "AAPL"
            None 2 initial_state).
  vm_compute. reflexivity.
Defined.

(** The same diagnostic gives consistent results. *)
Lemma diagnostic_results_consistent_witness :
  exists st' r,
    test_data_feeds patchy (fun _ => 0) QueryTerms.plain_iso 8 "AAPL" None 2 initial_state
    = Some (st', r)
    /\ consistent r
    /\ (forall j, is_Some (feed_results r !! j) <-> j ∈ ["sip"; "default"; "iex"])
    /\ (forall j, is_Some (timeframe_results r !! j) <-> j ∈ timeframes_or_default None)
    /\ exists e, enhanced_method r = Some e
                 /\ forall n first last,
                      e = enhanced_success n first last -> 0 < n /\ 2 <= n.
Proof.
  eexists _, _. split; [vm_compute; reflexivity|].
  eapply (diagnostic_results_consistent patchy (fun _ => 0) QueryTerms.plain_iso 8 "AAPL"
            None 2 initial_state).
  vm_compute. reflexivity.
Defined.

End DiagnosticFacts.
